(** * Gentoo network helper of the guest agent: model and properties

    A shallow embedding of [commands/gentoo/network.py].  Python strings
    are [string], the interface mapping is a [gmap] from interface names to
    descriptors, the returned set of names is a [gset], and the effects of
    [configure_network] (files written, live hostname, symlinks, spawned
    processes) are threaded through an explicit [World]. *)

From Stdlib Require Import Ascii String.
From stdpp Require Import base strings gmap list pretty.

Set Warnings "-clear-no-such-hyp".

Open Scope string_scope.
Open Scope list_scope.

(** ** Python values and primitives *)

Module Py.

(** Special characters of the generated text. *)
Definition nl : string := String "010"%char EmptyString.
Definition dq : string := String "034"%char EmptyString.

(** A value that is either [None] or a [str]. *)
Inductive val :=
| PyNone
| PyStr (s : string).

Definition val_eqb (a b : val) : bool :=
  match a, b with
  | PyNone, PyNone => true
  | PyStr s, PyStr t => String.eqb s t
  | _, _ => false
  end.

(** Truth value of [None] and of a [str]. *)
Definition truthy (v : val) : bool :=
  match v with
  | PyNone => false
  | PyStr s => negb (String.eqb s EmptyString)
  end.

(** ["{0}".format(v)] and ["%s" % v]. *)
Definition str (v : val) : string :=
  match v with
  | PyNone => "None"
  | PyStr s => s
  end.

(** The exceptions the module can meet. *)
Inductive exn :=
| KeyError (key : string)
| UnboundLocalError (var : string)
| IOError (msg : string)
| OSError (msg : string).

Inductive result (A : Type) :=
| Ok (a : A)
| Raise (e : exn).
Arguments Ok {A} a.
Arguments Raise {A} e.

Definition bind {A B} (r : result A) (k : A → result B) : result B :=
  match r with
  | Ok a => k a
  | Raise e => Raise e
  end.

(** A list comprehension whose element expression can raise. *)
Fixpoint comprehension {A B} (f : A → result B) (l : list A)
  : result (list B) :=
  match l with
  | [] => Ok []
  | x :: l' =>
      bind (f x) (λ y, bind (comprehension f l') (λ ys, Ok (y :: ys)))
  end.

(** [sep.join(l)] *)
Definition join (sep : string) (l : list string) : string :=
  String.concat sep l.

(** [d[key]] on a dict used as a table. *)
Definition getitem {V} (d : gmap string V) (key : string) : result V :=
  match d !! key with
  | Some v => Ok v
  | None => Raise (KeyError key)
  end.

(** [f.readlines()]: the lines of a text, each with its terminator. *)
Fixpoint readlines (s : string) : list string :=
  match s with
  | EmptyString => []
  | String c s' =>
      if Ascii.eqb c "010"%char then String c EmptyString :: readlines s'
      else match readlines s' with
           | [] => [String c EmptyString]
           | l :: ls => String c l :: ls
           end
  end.

End Py.

Notation "'try!' x := r 'in' k" := (Py.bind r (λ x, k))
  (at level 10, x name, r at level 100, k at level 200, only parsing).

(** Iteration orders that Python leaves to the implementation: a dict and
    a set are walked in some order of their own, each entry once. *)
Class PyRuntime := {
  iteritems : ∀ {V}, gmap string V → list (string * V);
  iteritems_perm : ∀ V (m : gmap string V), iteritems m ≡ₚ map_to_list m;
  set_iter : gset string → list string;
  set_iter_perm : ∀ s, set_iter s ≡ₚ elements s
}.

(** ** Data model: the interface descriptors *)

Record Ip4 := { ip4_address : string; ip4_netmask : string }.
Record Ip6 := { ip6_address : string; ip6_prefixlen : Z }.
Record Route := { network : string; netmask : string; gateway : string }.

(** [gateway4] and [gateway6] are optional keys of the descriptor: [None]
    is a descriptor without the key, [Some v] one with the key bound to
    [v] (which may itself be Python's [None]). *)
Record Interface := {
  label : Py.val;
  ip4s : list Ip4;
  ip6s : list Ip6;
  routes : list Route;
  gateway4 : option Py.val;
  gateway6 : option Py.val;
  dns : list string
}.

(** What the host provides: the program name, the clock, the netmask
    table of [commands.network], and the probe of [commands.utils]. *)
Class Host := {
  argv0 : string;
  datetime_now : nat → string;
  NETMASK_TO_PREFIXLEN : gmap string Z;
  is_system_command : string → bool
}.

Definition HOSTNAME_FILE : string := "/etc/conf.d/hostname".
Definition NETWORK_FILE : string := "/etc/conf.d/net".

(** ** Text generation *)

Section Render.
Context `{RT : PyRuntime} `{HO : Host}.

(** [_header()], with [now] the value [datetime.now()] returned. *)
Definition _header (now : string) : string :=
  "# Creator: NOVA AGENT:" +:+ Py.nl +:+
  "        # This file was autogenerated at " +:+ now +:+ " by " +:+ argv0
    +:+ "." +:+ Py.nl +:+
  "        # While it can still be managed manually, definitely not recommended."
    +:+ Py.nl +:+
  "        ".

Definition get_hostname_file (now : string) (hostname : string) : string :=
  let lines := ["# Set to the hostname of this machine"] in
  let lines := lines ++ [_header now] in
  let lines := lines ++ ["HOSTNAME=" +:+ Py.dq +:+ hostname +:+ Py.dq] in
  Py.join Py.nl lines.

(** The lines before the per-interface loop, shared by both dialects. *)
Definition preamble (now : string) : list string :=
  let lines := [] in
  let lines := lines ++ [_header now] in
  let lines := lines ++ [EmptyString] in
  let lines :=
    if is_system_command "ip"
    then lines ++ ["modules=" +:+ Py.dq +:+ "iproute2" +:+ Py.dq]
    else lines ++ ["modules=" +:+ Py.dq +:+ "ifconfig" +:+ Py.dq] in
  let lines := lines ++ [EmptyString] in
  lines ++ [EmptyString].

(** The condition of the route comprehensions:
    [not route['network'] == '0.0.0.0' and
     not route['netmask'] == '0.0.0.0' and
     'gateway4' in interface and
     not route['gateway'] == interface['gateway4']]. *)
Definition route_listed (interface : Interface) (route : Route) : bool :=
  negb (String.eqb (network route) "0.0.0.0") &&
  negb (String.eqb (netmask route) "0.0.0.0") &&
  match gateway4 interface with
  | Some gw4 => negb (Py.val_eqb (Py.PyStr (gateway route)) gw4)
  | None => false
  end.

Definition gateway_lines (fmt : string → string) (interface : Interface)
  : list string :=
  (match gateway4 interface with
   | Some gw => if Py.truthy gw then [fmt (Py.str gw)] else []
   | None => []
   end) ++
  (match gateway6 interface with
   | Some gw => if Py.truthy gw then [fmt (Py.str gw)] else []
   | None => []
   end).

Definition label_lines (interface : Interface) : list string :=
  if Py.truthy (label interface)
  then ["# Label " +:+ Py.str (label interface)]
  else [].

(** *** The OpenRC dialect *)

Definition openrc_ip4_line (ip : Ip4) : Py.result string :=
  try! plen := Py.getitem NETMASK_TO_PREFIXLEN (ip4_netmask ip) in
  Py.Ok ("  " +:+ ip4_address ip +:+ "/" +:+ pretty plen).

Definition openrc_ip6_line (ip : Ip6) : string :=
  "  " +:+ ip6_address ip +:+ "/" +:+ pretty (ip6_prefixlen ip).

Definition openrc_route_line (route : Route) : Py.result string :=
  try! plen := Py.getitem NETMASK_TO_PREFIXLEN (netmask route) in
  Py.Ok ("  " +:+ network route +:+ "/" +:+ pretty plen +:+ " via "
         +:+ gateway route).

Definition openrc_routes (interface : Interface)
  : Py.result (list string) :=
  Py.comprehension openrc_route_line
    (filter (λ route, route_listed interface route = true)
            (routes interface)).

Definition openrc_dns_lines (name : string) (interface : Interface)
  : list string :=
  match dns interface with
  | [] => []
  | _ :: _ =>
      ["dns_servers_" +:+ name +:+ "=" +:+ Py.dq
         +:+ Py.join Py.nl (dns interface) +:+ Py.dq +:+ Py.nl;
       EmptyString]
  end.

(** The lines from [config_<name>=] to the blank line after its
    closing quote. *)
Definition openrc_config_block (name : string) (interface : Interface)
  : Py.result (list string) :=
  let lines := ["config_" +:+ name +:+ "=" +:+ Py.dq] in
  try! ip4 := Py.comprehension openrc_ip4_line (ip4s interface) in
  let lines := lines ++ ip4 in
  let lines := lines ++ map openrc_ip6_line (ip6s interface) in
  let lines := lines ++ [Py.dq] in
  Py.Ok (lines ++ [EmptyString]).

(** The lines from [routes_<name>=] to the blank line after its
    closing quote. *)
Definition openrc_routes_block (name : string) (interface : Interface)
  : Py.result (list string) :=
  let lines := ["routes_" +:+ name +:+ "=" +:+ Py.dq] in
  try! rts := openrc_routes interface in
  let lines := lines ++ rts in
  let lines :=
    lines ++ gateway_lines (λ gw, "  default via " +:+ gw) interface in
  let lines := lines ++ [Py.dq] in
  Py.Ok (lines ++ [EmptyString]).

(** One turn of the loop of [_confd_net_file]: the lines it appends. *)
Definition openrc_interface (name : string) (interface : Interface)
  : Py.result (list string) :=
  let lines := label_lines interface in
  try! config := openrc_config_block name interface in
  let lines := lines ++ config in
  try! rts := openrc_routes_block name interface in
  let lines := lines ++ rts in
  Py.Ok (lines ++ openrc_dns_lines name interface).

(** The loop over [interfaces.iteritems()], with the state it carries:
    the lines so far and the set of names seen. *)
Fixpoint openrc_loop (items : list (string * Interface))
    (lines : list string) (ifaces : gset string)
  : Py.result (list string * gset string) :=
  match items with
  | [] => Py.Ok (lines, ifaces)
  | (name, interface) :: items' =>
      try! more := openrc_interface name interface in
      openrc_loop items' (lines ++ more) ({[name]} ∪ ifaces)
  end.

Definition _confd_net_file_lines (now : string)
    (interfaces : gmap string Interface)
  : Py.result (list string * gset string) :=
  openrc_loop (iteritems interfaces) (preamble now) ∅.

Definition _confd_net_file (now : string)
    (interfaces : gmap string Interface)
  : Py.result (string * gset string) :=
  try! r := _confd_net_file_lines now interfaces in
  Py.Ok (Py.join Py.nl r.1, r.2).

(** *** The legacy dialect *)

Definition legacy_ip4_line (ip : Ip4) : string :=
  "  " +:+ Py.dq +:+ ip4_address ip +:+ " netmask " +:+ ip4_netmask ip
    +:+ Py.dq.

Definition legacy_ip6_line (ip : Ip6) : string :=
  "  " +:+ Py.dq +:+ ip6_address ip +:+ "/" +:+ pretty (ip6_prefixlen ip)
    +:+ Py.dq.

Definition legacy_route_line (route : Route) : string :=
  "  " +:+ Py.dq +:+ network route +:+ " netmask " +:+ netmask route
    +:+ " gw " +:+ gateway route +:+ Py.dq.

Definition legacy_routes (interface : Interface) : list string :=
  map legacy_route_line
    (filter (λ route, route_listed interface route = true)
            (routes interface)).

Definition legacy_dns_lines (name : string) (interface : Interface)
  : list string :=
  match dns interface with
  | [] => []
  | _ :: _ =>
      ["dns_servers_" +:+ name +:+ "=("]
        ++ map (λ d, " " +:+ Py.dq +:+ d +:+ Py.dq) (dns interface)
        ++ [")"; EmptyString]
  end.

Definition legacy_config_block (name : string) (interface : Interface)
  : list string :=
  let lines := ["config_" +:+ name +:+ "=("] in
  let lines := lines ++ map legacy_ip4_line (ip4s interface) in
  let lines := lines ++ map legacy_ip6_line (ip6s interface) in
  let lines := lines ++ [")"] in
  lines ++ [EmptyString].

Definition legacy_routes_block (name : string) (interface : Interface)
  : list string :=
  let lines := ["routes_" +:+ name +:+ "=("] in
  let lines := lines ++ legacy_routes interface in
  let lines :=
    lines ++ gateway_lines
               (λ gw, "  " +:+ Py.dq +:+ "default via " +:+ gw +:+ Py.dq)
               interface in
  let lines := lines ++ [")"] in
  lines ++ [EmptyString].

(** One turn of the loop of [_confd_net_file_legacy]. *)
Definition legacy_interface (name : string) (interface : Interface)
  : list string :=
  let lines := label_lines interface in
  let lines := lines ++ legacy_config_block name interface in
  let lines := lines ++ legacy_routes_block name interface in
  lines ++ legacy_dns_lines name interface.

Fixpoint legacy_loop (items : list (string * Interface))
    (lines : list string) (ifaces : gset string)
  : list string * gset string :=
  match items with
  | [] => (lines, ifaces)
  | (name, interface) :: items' =>
      legacy_loop items' (lines ++ legacy_interface name interface)
                  ({[name]} ∪ ifaces)
  end.

Definition _confd_net_file_legacy_lines (now : string)
    (interfaces : gmap string Interface) : list string * gset string :=
  legacy_loop (iteritems interfaces) (preamble now) ∅.

Definition _confd_net_file_legacy (now : string)
    (interfaces : gmap string Interface) : string * gset string :=
  let r := _confd_net_file_legacy_lines now interfaces in
  (Py.join Py.nl r.1, r.2).

(** [get_interface_files]: the dict [{'net': data}]. *)
Definition get_interface_files (now : string)
    (interfaces : gmap string Interface) (version : string)
  : Py.result (gmap string string) :=
  try! r := (if String.eqb version "openrc"
       then _confd_net_file now interfaces
       else Py.Ok (_confd_net_file_legacy now interfaces)) in
  Py.Ok {[ "net" := r.1 ]}.

End Render.

(** ** Reading the hostname file *)

(** The file system and the live system that [configure_network] acts on:
    regular files with their content, symbolic links with their target,
    the hostname of the running system once it was set, and the argument
    vectors of the processes spawned so far, oldest first. *)
Record World := {
  files : gmap string string;
  links : gmap string string;
  live_hostname : option string;
  spawned : list (list string)
}.

(** The operating system and the collaborators of [commands.network]:
    an error the host raises when a path is opened (permissions, I/O),
    the resolver and hosts files, the error of [sethostname] if it
    raises, the status word [os.waitpid] reports for a command, the
    error for which [subprocess.Popen] cannot start a command for a
    reason the [World] does not show (a program that is not on the
    search path or may not be executed), and the error for which
    [os.symlink] cannot make a link where nothing is in its way (a
    directory that is missing or may not be written). *)
Class System := {
  open_error : string → option Py.exn;
  get_resolv_conf : gmap string Interface → string * Py.val;
  get_etc_hosts : gmap string Interface → string → string * string;
  sethostname_error : string → option string;
  waitpid_status : list string → Z;
  popen_error : list string → option string;
  symlink_error : string → string → option string
}.

(** The character [c] occurs in [s]. *)
Fixpoint mentions (c : ascii) (s : string) : bool :=
  match s with
  | EmptyString => false
  | String c' s' => Ascii.eqb c c' || mentions c s'
  end.

Module Re.

(** [s] without the prefix [p], when it starts with it. *)
Fixpoint strip_prefix (p s : string) : option string :=
  match p, s with
  | EmptyString, _ => Some s
  | String a p', String b s' =>
      if Ascii.eqb a b then strip_prefix p' s' else None
  | String _ _, EmptyString => None
  end.

(** The longest run the dot-star group can take: up to the first
    newline. *)
Fixpoint dot_run (s : string) : string :=
  match s with
  | EmptyString => EmptyString
  | String c s' =>
      if Ascii.eqb c "010"%char then EmptyString
      else String c (dot_run s')
  end.

(** What precedes the last double quote of [s]: where the greedy
    group stops once the closing quote has to match. *)
Fixpoint before_last_quote (s : string) : option string :=
  match s with
  | EmptyString => None
  | String c s' =>
      match before_last_quote s' with
      | Some v => Some (String c v)
      | None => if Ascii.eqb c "034"%char then Some EmptyString else None
      end
  end.

(** The pattern of [get_hostname] (the word HOSTNAME, an equals sign,
    and a greedy dot-star group between double quotes) tried at the
    start of [s]: the text of group 1. *)
Definition match_here (s : string) : option string :=
  match strip_prefix ("HOSTNAME=" +:+ Py.dq) s with
  | Some rest => before_last_quote (dot_run rest)
  | None => None
  end.

(** [re.search] with that pattern: the leftmost position where it
    matches, and there [group(1)]. *)
Fixpoint search (s : string) : option string :=
  match match_here s with
  | Some v => Some v
  | None =>
      match s with
      | EmptyString => None
      | String _ s' => search s'
      end
  end.

End Re.

Section Hostname.
Context `{SY : System}.

(** [open(path).readlines()] *)
Definition open_readlines (path : string) (w : World)
  : Py.result (list string) :=
  match open_error path with
  | Some e => Py.Raise e
  | None =>
      match files w !! path with
      | Some text => Py.Ok (Py.readlines text)
      | None => Py.Raise (Py.IOError "No such file or directory")
      end
  end.

(** The loop of [get_hostname] over the lines. *)
Fixpoint first_hostname (lines : list string) : option string :=
  match lines with
  | [] => None
  | line :: lines' =>
      match Re.search line with
      | Some hn => Some hn
      | None => first_hostname lines'
      end
  end.

(** [get_hostname()]: [None] is Python's [None]. *)
Definition get_hostname (w : World) : option string :=
  match open_readlines HOSTNAME_FILE w with
  | Py.Ok lines => first_hostname lines
  | Py.Raise e => None
  end.

End Hostname.

(** ** Applying the configuration *)

Section Apply.
Context `{RT : PyRuntime} `{HO : Host} `{SY : System}.

(** The directory of [path] with its last slash: what the relative
    target of a link at [path] is resolved against. *)
Fixpoint dirname (path : string) : string :=
  match path with
  | EmptyString => EmptyString
  | String c path' =>
      if mentions "/" path' then String c (dirname path')
      else if Ascii.eqb c "/" then String c EmptyString
      else EmptyString
  end.

(** The path that a link at [link] with the target [target] leads to.
    Paths are taken as written: directories are not part of the [World],
    and no segment of a path is resolved on its own. *)
Definition link_target (link target : string) : string :=
  if String.prefix "/" target then target else dirname link +:+ target.

(** The number of links the kernel follows on the way to a file before
    it gives up. *)
Definition MAXSYMLINKS : nat := 40.

(** Whether [path] leads to a regular file over at most [fuel] links. *)
Fixpoint resolves (fuel : nat) (path : string) (w : World) : bool :=
  if bool_decide (path ∈ dom (files w)) then true
  else
    match links w !! path, fuel with
    | Some target, S fuel' => resolves fuel' (link_target path target) w
    | _, _ => false
    end.

(** [os.path.isfile] and [os.path.exists] follow links: a link whose
    target is missing is not there for them.  [os.path.lexists] does
    not follow them. *)
Definition os_path_isfile (path : string) (w : World) : bool :=
  resolves MAXSYMLINKS path w.

Definition os_path_exists (path : string) (w : World) : bool :=
  resolves MAXSYMLINKS path w.

Definition os_path_lexists (path : string) (w : World) : bool :=
  bool_decide (path ∈ dom (files w) ∪ dom (links w)).

(** The world with one more link. *)
Definition with_link (link target : string) (w : World) : World :=
  {| files := files w; links := <[link := target]> (links w);
     live_hostname := live_hostname w; spawned := spawned w |}.

(** [os.symlink(target, link)] raises [OSError] when something is at
    [link] already, be it a link whose target is missing. *)
Definition os_symlink (target link : string) (w : World)
  : Py.result World :=
  if os_path_lexists link w then Py.Raise (Py.OSError "File exists")
  else
    match symlink_error target link with
    | Some msg => Py.Raise (Py.OSError msg)
    | None => Py.Ok (with_link link target w)
    end.

(** A command whose program is given by an absolute path that leads to
    no file. *)
Definition program_missing (argv : list string) (w : World) : bool :=
  match argv with
  | program :: _ =>
      String.prefix "/" program && negb (os_path_exists program w)
  | [] => false
  end.

(** [subprocess.Popen(argv, ...)] followed by [os.waitpid(pid, 0)[1]].
    [Popen] raises [OSError] when the program cannot be started. *)
Definition run (argv : list string) (w : World) : Py.result Z * World :=
  match popen_error argv with
  | Some msg => (Py.Raise (Py.OSError msg), w)
  | None =>
      if program_missing argv w
      then (Py.Raise (Py.OSError "No such file or directory"), w)
      else
        (Py.Ok (waitpid_status argv),
         {| files := files w; links := links w;
            live_hostname := live_hostname w;
            spawned := spawned w ++ [argv] |})
  end.

(** Modelled from the spec: [commands.network.update_files], which is
    not part of this module; it writes every file of the batch. *)
Definition update_files (batch : gmap string string) (w : World) : World :=
  {| files := batch ∪ files w; links := links w;
     live_hostname := live_hostname w; spawned := spawned w |}.

(** [commands.network.sethostname]: the error message when it raises. *)
Definition sethostname (hostname : string) (w : World) : string + World :=
  match sethostname_error hostname with
  | Some msg => inl msg
  | None =>
      inr {| files := files w; links := links w;
             live_hostname := Some hostname; spawned := spawned w |}
  end.

Definition _clean_assigned_ip (ifname : string) (w : World)
  : Py.result bool * World :=
  match run ["ip"; "address"; "flush"; "dev"; ifname] w with
  | (Py.Raise e, w) => (Py.Raise e, w)
  | (Py.Ok status, w) =>
      if negb (Z.eqb status 0) then (Py.Ok false, w) else (Py.Ok true, w)
  end.

(** How one turn of the loop [for ifname in ifaces] ends: the loop goes
    on with [status] bound to the status of the restart, or the function
    returns or raises. *)
Inductive turn_end :=
| Continue (status : Z)
| Stop (r : Py.result (Z * string)).

(** The second half of the body of the loop: the init script is linked
    where [os.path.exists] does not find it, then run. *)
Definition restart_script (ifname : string) (w : World)
  : turn_end * World :=
  let scriptpath := "/etc/init.d/net." +:+ ifname in
  let linked :=
    if negb (os_path_exists scriptpath w)
    then os_symlink "net.lo" scriptpath w
    else Py.Ok w in
  match linked with
  | Py.Raise e => (Stop (Py.Raise e), w)
  | Py.Ok w =>
      match run [scriptpath; "restart"] w with
      | (Py.Raise e, w) => (Stop (Py.Raise e), w)
      | (Py.Ok status, w) =>
          if negb (Z.eqb status 0) then
            (Stop (Py.Ok (500%Z, "Couldn't restart network " +:+ ifname
                                   +:+ ": " +:+ pretty status)), w)
          else (Continue status, w)
      end
  end.

(** The body of the loop [for ifname in ifaces] of [configure_network].
    [status] is the local variable of that name: unbound ([None]) until
    the first restart has been waited for. *)
Definition restart_turn (ifname : string) (status : option Z) (w : World)
  : turn_end * World :=
  if is_system_command "ip" then
    match _clean_assigned_ip ifname w with
    | (Py.Raise e, w) => (Stop (Py.Raise e), w)
    | (Py.Ok ok, w) =>
        if negb ok then
          (Stop
             (match status with
              | Some st =>
                  Py.Ok (500%Z, "Couldn't flush network " +:+ ifname
                                  +:+ ": " +:+ pretty st)
              | None => Py.Raise (Py.UnboundLocalError "status")
              end), w)
        else restart_script ifname w
    end
  else restart_script ifname w.

(** The loop [for ifname in ifaces]. *)
Fixpoint restart_network (ifnames : list string) (status : option Z)
    (w : World) : Py.result (Z * string) * World :=
  match ifnames with
  | [] => (Py.Ok (0%Z, EmptyString), w)
  | ifname :: ifnames' =>
      match restart_turn ifname status w with
      | (Stop r, w) => (r, w)
      | (Continue status, w) => restart_network ifnames' (Some status) w
      end
  end.

(** The files [configure_network] hands to [update_files]. *)
Definition generated_files (hostname : string)
    (interfaces : gmap string Interface) (data : string)
  : gmap string string :=
  let update_files : gmap string string := ∅ in
  let update_files := <[NETWORK_FILE := data]> update_files in
  let '(filepath, data) := get_resolv_conf interfaces in
  let update_files :=
    if Py.truthy data then <[filepath := Py.str data]> update_files
    else update_files in
  let data := get_hostname_file (datetime_now 1) hostname in
  let update_files := <[HOSTNAME_FILE := data]> update_files in
  let '(filepath, data) := get_etc_hosts interfaces hostname in
  <[filepath := data]> update_files.

(** The dialect [configure_network] picks and what it renders. *)
Definition render_net_file (interfaces : gmap string Interface)
    (w : World) : Py.result (string * gset string) :=
  if os_path_isfile "/sbin/rc" w
  then _confd_net_file (datetime_now 0) interfaces
  else Py.Ok (_confd_net_file_legacy (datetime_now 0) interfaces).

Definition configure_network (hostname : string)
    (interfaces : gmap string Interface) (w : World)
  : Py.result (Z * string) * World :=
  match render_net_file interfaces w with
  | Py.Raise e => (Py.Raise e, w)
  | Py.Ok (data, ifaces) =>
      let w := update_files (generated_files hostname interfaces data) w in
      match sethostname hostname w with
      | inl e => (Py.Ok (500%Z, "Couldn't set hostname: " +:+ e), w)
      | inr w => restart_network (set_iter ifaces) None w
      end
  end.

End Apply.

(** ** Vocabulary of the properties *)

(** [sub] occurs in [text]. *)
Definition Contains (sub text : string) : Prop :=
  ∃ before after, text = before +:+ sub +:+ after.

(** How many of the lines [l] are exactly [x]. *)
Definition occurrences (x : string) (l : list string) : nat :=
  length (filter (λ y, y = x) l).

(** Every IPv4 address and every route of every interface has its
    netmask in the table. *)
Definition interface_netmasks_valid `{HO : Host} (interface : Interface)
  : Prop :=
  Forall (λ ip, is_Some (NETMASK_TO_PREFIXLEN !! ip4_netmask ip))
         (ip4s interface) ∧
  Forall (λ route, is_Some (NETMASK_TO_PREFIXLEN !! netmask route))
         (routes interface).

Definition netmasks_valid `{HO : Host} (interfaces : gmap string Interface)
  : Prop :=
  map_Forall (λ _ interface, interface_netmasks_valid interface) interfaces.

(** The rule of the specification for leaving a route out of the explicit
    list: zero network and zero netmask, a declared [gateway4], and the
    route's gateway equal to it. *)
Definition spec_route_excluded (interface : Interface) (route : Route)
  : bool :=
  String.eqb (network route) "0.0.0.0" &&
  String.eqb (netmask route) "0.0.0.0" &&
  match gateway4 interface with
  | Some gw4 => Py.val_eqb (Py.PyStr (gateway route)) gw4
  | None => false
  end.

(** The two commands of one turn of the restart loop, and what a turn
    spawns when it runs to its end. *)
Definition flush_command (ifname : string) : list string :=
  ["ip"; "address"; "flush"; "dev"; ifname].

Definition restart_command (ifname : string) : list string :=
  ["/etc/init.d/net." +:+ ifname; "restart"].

Definition turn_commands `{HO : Host} (ifname : string)
  : list (list string) :=
  (if is_system_command "ip" then [flush_command ifname] else []) ++
  [restart_command ifname].

(** The flush of [ifname] does not fail: it is skipped, or it exits
    with status zero. *)
Definition flush_ok `{HO : Host} `{SY : System} (ifname : string) : Prop :=
  is_system_command "ip" = true → waitpid_status (flush_command ifname) = 0%Z.

(** The whole turn of [ifname] succeeds. *)
Definition turn_ok `{HO : Host} `{SY : System} (ifname : string) : Prop :=
  flush_ok ifname ∧ waitpid_status (restart_command ifname) = 0%Z.

(** The first character of a line, by which openings of blocks are told
    from the other lines. *)
Definition first_char (s : string) : option ascii :=
  match s with
  | EmptyString => None
  | String c _ => Some c
  end.

(** A line that opens no block: it starts with none of the letters c, r
    and d of the three block names. *)
Definition plain (s : string) : Prop :=
  first_char s ≠ Some "c"%char ∧ first_char s ≠ Some "r"%char ∧
  first_char s ≠ Some "d"%char.

(** What the OpenRC rendering asks of the table for one interface: the
    netmask of every IPv4 address and of every route that passes the
    filter of the comprehension. *)
Definition interface_renders `{HO : Host} (interface : Interface) : Prop :=
  Forall (λ ip, is_Some (NETMASK_TO_PREFIXLEN !! ip4_netmask ip))
         (ip4s interface) ∧
  Forall (λ route, is_Some (NETMASK_TO_PREFIXLEN !! netmask route))
         (filter (λ route, route_listed interface route = true)
                 (routes interface)).

(** A descriptor with another routes sequence. *)
Definition with_routes (rs : list Route) (interface : Interface)
  : Interface :=
  {| label := label interface; ip4s := ip4s interface;
     ip6s := ip6s interface; routes := rs;
     gateway4 := gateway4 interface; gateway6 := gateway6 interface;
     dns := dns interface |}.



(** The init script of an interface. *)
Definition script_path (ifname : string) : string :=
  "/etc/init.d/net." +:+ ifname.

(** Every command of the turn of [ifname] can be started, as far as
    the host decides it. *)
Definition turn_spawns `{HO : Host} `{SY : System} (ifname : string)
  : Prop :=
  (is_system_command "ip" = true →
   popen_error (flush_command ifname) = None) ∧
  popen_error (restart_command ifname) = None.

(** The init script of [ifname] can be run once the loop gets to it from
    the world [w]: it leads to a file, or nothing is at its path, the
    link can be made there and then leads to a file. *)
Definition script_ready `{SY : System} (ifname : string) (w : World)
  : Prop :=
  os_path_exists (script_path ifname) w = true ∨
  (os_path_lexists (script_path ifname) w = false ∧
   symlink_error "net.lo" (script_path ifname) = None ∧
   os_path_exists (script_path ifname)
     (with_link (script_path ifname) "net.lo" w) = true).

(** Every step of the turn of [ifname] can be taken: nothing raises. *)
Definition turn_runs `{HO : Host} `{SY : System} (ifname : string)
    (w : World) : Prop :=
  turn_spawns ifname ∧ script_ready ifname w.

(** The world [w] is what [w0] has become after turns of the loop for
    the interfaces [done]: no file and no link of [w0] is gone, and the
    links that are new are init scripts of [done], pointing to net.lo. *)
Definition grown (done : list string) (w0 w : World) : Prop :=
  dom (files w0) ⊆ dom (files w) ∧ links w0 ⊆ links w ∧
  ∀ p t, links w !! p = Some t →
         links w0 !! p = Some t ∨
         t = "net.lo" ∧ ∃ n, n ∈ done ∧ p = script_path n.

(** A string without a newline. *)
Definition one_line (s : string) : Prop := mentions "010" s = false.

(** The lines of a text, without their terminators: what splitting it
    at every newline gives. *)
Fixpoint text_lines (s : string) : list string :=
  match s with
  | EmptyString => [EmptyString]
  | String c s' =>
      if Ascii.eqb "010"%char c then EmptyString :: text_lines s'
      else
        match text_lines s' with
        | [] => [String c EmptyString]
        | l :: ls => String c l :: ls
        end
  end.

(** The lines of the text that strings joined by newlines make up. *)
Definition pieces (l : list string) : list string :=
  concat (map text_lines l).

(** A descriptor none of whose strings holds a newline, and none of
    whose DNS entries holds an equals sign. *)
Definition interface_tidy (interface : Interface) : Prop :=
  one_line (Py.str (label interface)) ∧
  Forall (λ ip, one_line (ip4_address ip) ∧ one_line (ip4_netmask ip))
         (ip4s interface) ∧
  Forall (λ ip, one_line (ip6_address ip)) (ip6s interface) ∧
  Forall (λ route, one_line (network route) ∧ one_line (netmask route) ∧
                   one_line (gateway route))
         (routes interface) ∧
  (∀ gw, gateway4 interface = Some gw → one_line (Py.str gw)) ∧
  (∀ gw, gateway6 interface = Some gw → one_line (Py.str gw)) ∧
  Forall (λ d, one_line d ∧ mentions "=" d = false) (dns interface).

(** A rendering none of whose inputs holds a newline: the timestamp,
    the program name, the interface names and the descriptors. *)
Definition tidy `{HO : Host} (now : string)
    (interfaces : gmap string Interface) : Prop :=
  one_line now ∧ one_line argv0 ∧
  map_Forall (λ name interface, one_line name ∧ interface_tidy interface)
             interfaces.

(** The paths [configure_network] can hand to [update_files]. *)
Definition generated_paths `{SY : System} (hostname : string)
    (interfaces : gmap string Interface) : list string :=
  [NETWORK_FILE; (get_resolv_conf interfaces).1; HOSTNAME_FILE;
   (get_etc_hosts interfaces hostname).1].

(** ** Sample hosts and inputs *)

Module Sample.

(** A runtime that walks dicts and sets in the order of their finite-map
    representation. *)
Definition runtime : PyRuntime :=
  {| iteritems := λ V, map_to_list;
     iteritems_perm := λ V m, reflexivity (map_to_list m);
     set_iter := elements;
     set_iter_perm := λ s, reflexivity (elements s) |}.

Definition host : Host :=
  {| argv0 := "nova-agent";
     datetime_now := λ _, "2011-06-01 12:00:00.000000";
     NETMASK_TO_PREFIXLEN :=
       {[ "255.255.255.0" := 24%Z; "255.255.0.0" := 16%Z;
          "0.0.0.0" := 0%Z ]};
     is_system_command := λ cmd, String.eqb cmd "ip" |}.

(** The interface of the end-to-end example of the specification. *)
Definition eth0 : Interface :=
  {| label := Py.PyStr EmptyString;
     ip4s := [ {| ip4_address := "192.168.0.100";
                  ip4_netmask := "255.255.255.0" |} ];
     ip6s := [];
     routes := [ {| network := "0.0.0.0"; netmask := "0.0.0.0";
                    gateway := "192.168.0.1" |} ];
     gateway4 := Some (Py.PyStr "192.168.0.1");
     gateway6 := Some Py.PyNone;
     dns := [] |}.

(** The two-route example of the module's docstring: a default route
    and the network 172.100.100.0/24, both through 192.168.0.1. *)
Definition docstring_route : Route :=
  {| network := "172.100.100.0"; netmask := "255.255.255.0";
     gateway := "192.168.0.1" |}.

Definition docstring_eth0 : Interface :=
  {| label := Py.PyNone;
     ip4s := [ {| ip4_address := "192.168.0.100";
                  ip4_netmask := "255.255.255.0" |};
               {| ip4_address := "192.168.0.101";
                  ip4_netmask := "255.255.255.0" |} ];
     ip6s := [];
     routes := [ docstring_route ];
     gateway4 := Some (Py.PyStr "192.168.0.1");
     gateway6 := None;
     dns := [] |}.

(** A private interface: no gateway, one route, two resolvers. *)
Definition eth1 : Interface :=
  {| label := Py.PyStr "private";
     ip4s := [ {| ip4_address := "10.0.0.5";
                  ip4_netmask := "255.255.0.0" |} ];
     ip6s := [];
     routes := [ {| network := "10.1.0.0"; netmask := "255.255.0.0";
                    gateway := "10.0.0.1" |} ];
     gateway4 := None;
     gateway6 := None;
     dns := ["10.0.0.2"; "10.0.0.3"] |}.

Definition interfaces : gmap string Interface :=
  {[ "eth0" := eth0; "eth1" := eth1 ]}.

(** An interface whose netmask the sample table does not know, and one
    whose only unknown netmask is on a route that the filter drops. *)
Definition eth2 : Interface :=
  {| label := Py.PyNone;
     ip4s := [ {| ip4_address := "172.16.0.9";
                  ip4_netmask := "255.255.255.128" |} ];
     ip6s := []; routes := []; gateway4 := None; gateway6 := None;
     dns := [] |}.

Definition eth3 : Interface :=
  {| label := Py.PyNone;
     ip4s := [];
     ip6s := [ {| ip6_address := "2001:db8::5"; ip6_prefixlen := 64 |} ];
     routes := [ {| network := "10.9.0.0"; netmask := "255.255.255.128";
                    gateway := "10.0.0.1" |} ];
     gateway4 := None; gateway6 := Some (Py.PyStr "2001:db8::1");
     dns := [] |}.


(** A system on which every command succeeds except [fails], which
    ends with the status word [status]. *)
Definition system (fails : list string) (status : Z) : System :=
  {| open_error := λ _, None;
     get_resolv_conf := λ _, ("/etc/resolv.conf", Py.PyNone);
     get_etc_hosts := λ _ _, ("/etc/hosts", "127.0.0.1 localhost");
     sethostname_error := λ _, None;
     waitpid_status :=
       λ argv, if bool_decide (argv = fails) then status else 0%Z;
     popen_error := λ _, None;
     symlink_error := λ _ _, None |}.


(** An interface without resolvers whose label runs over three more
    lines: they read as openings of blocks of eth0. *)
Definition forged_eth0 : Interface :=
  {| label := Py.PyStr ("uplink" +:+ Py.nl +:+ "config_eth0=" +:+ Py.dq
                          +:+ Py.nl +:+ "config_eth0=("
                          +:+ Py.nl +:+ "dns_servers_eth0=(");
     ip4s := [ {| ip4_address := "192.168.0.100";
                  ip4_netmask := "255.255.255.0" |} ];
     ip6s := []; routes := [];
     gateway4 := Some (Py.PyStr "192.168.0.1"); gateway6 := None;
     dns := [] |}.

Definition forged : gmap string Interface := {[ "eth0" := forged_eth0 ]}.

Definition only_eth2 : gmap string Interface := {[ "eth2" := eth2 ]}.
Definition only_eth3 : gmap string Interface := {[ "eth3" := eth3 ]}.

(** A system on which [sethostname] raises. *)
Definition unnamed_system : System :=
  {| open_error := λ _, None;
     get_resolv_conf := λ _, ("/etc/resolv.conf", Py.PyStr "nameserver 10.0.0.2");
     get_etc_hosts := λ _ _, ("/etc/hosts", "127.0.0.1 localhost");
     sethostname_error := λ _, Some "Operation not permitted";
     waitpid_status := λ _, 0%Z;
     popen_error := λ _, None;
     symlink_error := λ _ _, None |}.

(** A host with the OpenRC control binary, the init script of the
    loopback interface and one more init script in place. *)
Definition openrc_world : World :=
  {| files := {[ "/sbin/rc" := "#!/bin/sh";
                 "/etc/init.d/net.lo" := "#!/sbin/runscript";
                 "/etc/init.d/net.eth0" := "#!/sbin/runscript" ]};
     links := ∅; live_hostname := Some "oldhost"; spawned := [] |}.

(** A host of the legacy kind with the init script of the loopback
    interface alone. *)
Definition gentoo_world : World :=
  {| files := {[ "/etc/init.d/net.lo" := "#!/sbin/runscript" ]};
     links := ∅; live_hostname := None; spawned := [] |}.

(** A host where the init script of eth1 is a link left behind by an
    earlier run, with nothing at its target. *)
Definition dangling_world : World :=
  {| files := ∅; links := {[ "/etc/init.d/net.eth1" := "net.lo" ]};
     live_hostname := None; spawned := [] |}.

Definition hostname_world (text : string) : World :=
  {| files := {[ HOSTNAME_FILE := text ]}; links := ∅;
     live_hostname := None; spawned := [] |}.

End Sample.

(** ** Strings *)

Lemma append_cons c (s t : string) : String c s +:+ t = String c (s +:+ t).
Proof. reflexivity. Qed.

Lemma append_nil_l (t : string) : EmptyString +:+ t = t.
Proof. reflexivity. Qed.

Lemma append_nil_r (s : string) : s +:+ EmptyString = s.
Proof. induction s as [|c s IH]; [done|]. by rewrite append_cons, IH. Qed.

Lemma append_assoc (s t u : string) : (s +:+ t) +:+ u = s +:+ t +:+ u.
Proof.
  induction s as [|c s IH]; [done|]. by rewrite !append_cons, IH.
Qed.

Lemma mentions_append (c : ascii) (a b : string) :
  mentions c (a +:+ b) = mentions c a || mentions c b.
Proof.
  induction a as [|c' a IH]; [done|].
  rewrite append_cons. cbn [mentions]. by rewrite IH, orb_assoc.
Qed.

Lemma append_length (s t : string) :
  String.length (s +:+ t) = String.length s + String.length t.
Proof.
  induction s as [|c s IH]; [done|]. rewrite append_cons. simpl. lia.
Qed.

(** Cancelling a common suffix. *)
Lemma append_inj_r (s s' t : string) : s +:+ t = s' +:+ t → s = s'.
Proof.
  revert s'. induction s as [|c s IH]; intros [|c' s'] Heq.
  - done.
  - apply (f_equal String.length) in Heq.
    rewrite append_nil_l, append_cons in Heq. simpl in Heq.
    rewrite append_length in Heq. lia.
  - apply (f_equal String.length) in Heq.
    rewrite append_nil_l, append_cons in Heq. simpl in Heq.
    rewrite append_length in Heq. lia.
  - rewrite !append_cons in Heq. injection Heq as -> Heq.
    f_equal. by apply IH.
Qed.

(** ** The hostname file *)

(** C9: for every hostname [h], the text of [get_hostname_file] contains
    the word HOSTNAME, an equals sign and [h] between double quotes, with
    [h] put in as it is; so it does for the hostname myhost. *)
Theorem get_hostname_file_contains_hostname `{HO : Host}
    (now h : string) :
  Contains ("HOSTNAME=" +:+ Py.dq +:+ h +:+ Py.dq)
           (get_hostname_file now h) ∧
  Contains ("HOSTNAME=" +:+ Py.dq +:+ "myhost" +:+ Py.dq)
           (get_hostname_file now "myhost").
Proof.
  assert (Hgen : ∀ x, Contains ("HOSTNAME=" +:+ Py.dq +:+ x +:+ Py.dq)
                               (get_hostname_file now x)).
  { intros x.
    exists ("# Set to the hostname of this machine" +:+ Py.nl
              +:+ _header now +:+ Py.nl), EmptyString.
    unfold get_hostname_file, Py.join. cbn [app String.concat].
    by rewrite append_nil_r, !append_assoc. }
  split; apply Hgen.
Qed.

(** ** Choice of the dialect *)

(** C7: [get_interface_files] returns, under the key net, the text of
    [_confd_net_file] when [version] is the string openrc, and the text
    of [_confd_net_file_legacy] for every other [version]. *)
Theorem get_interface_files_dialect `{RT : PyRuntime} `{HO : Host}
    (now : string) (interfaces : gmap string Interface) (version : string) :
  get_interface_files now interfaces version =
    if decide (version = "openrc")
    then match _confd_net_file now interfaces with
         | Py.Ok (data, _) => Py.Ok {[ "net" := data ]}
         | Py.Raise e => Py.Raise e
         end
    else Py.Ok {[ "net" := (_confd_net_file_legacy now interfaces).1 ]}.
Proof.
  unfold get_interface_files.
  destruct (decide (version = "openrc")) as [->|Hne].
  - rewrite String.eqb_refl.
    by destruct (_confd_net_file now interfaces) as [[data ifaces]|e].
  - apply String.eqb_neq in Hne. by rewrite Hne.
Qed.

(** ** The route filter *)

(** What the condition of the comprehensions amounts to. *)
Lemma route_listed_true (interface : Interface) (route : Route) :
  route_listed interface route = true ↔
    network route ≠ "0.0.0.0" ∧ netmask route ≠ "0.0.0.0" ∧
    ∃ gw4, gateway4 interface = Some gw4 ∧ gw4 ≠ Py.PyStr (gateway route).
Proof.
  unfold route_listed.
  rewrite !andb_true_iff, !negb_true_iff, !String.eqb_neq.
  destruct (gateway4 interface) as [gw4|]; split.
  - intros [[Hn Hm] Hg]. repeat split; [done..|]. exists gw4. split; [done|].
    intros ->. cbn in Hg. by rewrite String.eqb_refl in Hg.
  - intros (Hn & Hm & gw & [= <-] & Hg). repeat split; [done..|].
    apply negb_true_iff. destruct gw4 as [|g]; [done|]. cbn.
    apply String.eqb_neq. congruence.
  - intros [_ ?]; done.
  - intros (_ & _ & gw & ? & _); done.
Qed.

Lemma routes_unlisted_without_gateway4 (interface : Interface) :
  gateway4 interface = None →
  filter (λ route, route_listed interface route = true) (routes interface)
  = [].
Proof.
  intros Hgw. induction (routes interface) as [|r l IH]; [done|].
  rewrite filter_cons_False; [done|].
  unfold route_listed. rewrite Hgw, !andb_false_r. done.
Qed.

(** C10: for a descriptor without the key gateway4, every entry of the
    routes sequence is filtered out in both dialects, whatever its
    network, netmask and gateway: the routes block is its opening line,
    the default route of gateway6 if there is one, and its closing. *)
Theorem no_gateway4_no_route_lines `{HO : Host}
    (name : string) (interface : Interface) :
  gateway4 interface = None →
  (∀ route, route ∈ routes interface →
            route_listed interface route = false) ∧
  openrc_routes interface = Py.Ok [] ∧
  legacy_routes interface = [] ∧
  openrc_routes_block name interface =
    Py.Ok (["routes_" +:+ name +:+ "=" +:+ Py.dq]
             ++ gateway_lines (λ gw, "  default via " +:+ gw) interface
             ++ [Py.dq; EmptyString]) ∧
  legacy_routes_block name interface =
    ["routes_" +:+ name +:+ "=("]
      ++ gateway_lines
           (λ gw, "  " +:+ Py.dq +:+ "default via " +:+ gw +:+ Py.dq)
           interface
      ++ [")"; EmptyString].
Proof.
  intros Hgw.
  pose proof (routes_unlisted_without_gateway4 interface Hgw) as Hnone.
  assert (Hrts : openrc_routes interface = Py.Ok []).
  { unfold openrc_routes. by rewrite Hnone. }
  assert (Hleg : legacy_routes interface = []).
  { unfold legacy_routes. by rewrite Hnone. }
  split_and!; [|done|done| |].
  - intros route _. unfold route_listed. by rewrite Hgw, !andb_false_r.
  - unfold openrc_routes_block. rewrite Hrts. cbn [Py.bind].
    by rewrite <- !(assoc_L (++)).
  - unfold legacy_routes_block. rewrite Hleg.
    by rewrite <- !(assoc_L (++)).
Qed.

Lemma no_gateway4_no_route_lines_witness :
  gateway4 Sample.eth1 = None ∧
  openrc_routes_block (HO := Sample.host) "eth1" Sample.eth1 =
    Py.Ok ["routes_eth1=" +:+ Py.dq; Py.dq; EmptyString] ∧
  legacy_routes_block "eth1" Sample.eth1 =
    ["routes_eth1=("; ")"; EmptyString].
Proof.
  split; [reflexivity|].
  pose proof (no_gateway4_no_route_lines (HO := Sample.host)
                "eth1" Sample.eth1 eq_refl) as (_ & _ & _ & Ho & Hl).
  split; [exact Ho | exact Hl].
Defined.

(** C1: on the interface of the module's docstring (gateway4
    192.168.0.1, one route to 172.100.100.0/24 through 192.168.0.1) the
    rule of the specification keeps the route, since its network and
    netmask are not zero, yet both dialects filter it out: the routes
    block holds the default route only. *)
Theorem docstring_route_dropped `{HO : Host} :
  spec_route_excluded Sample.docstring_eth0 Sample.docstring_route = false ∧
  route_listed Sample.docstring_eth0 Sample.docstring_route = false ∧
  openrc_routes_block "eth0" Sample.docstring_eth0 =
    Py.Ok ["routes_eth0=" +:+ Py.dq; "  default via 192.168.0.1";
           Py.dq; EmptyString] ∧
  legacy_routes_block "eth0" Sample.docstring_eth0 =
    ["routes_eth0=(";
     "  " +:+ Py.dq +:+ "default via 192.168.0.1" +:+ Py.dq;
     ")"; EmptyString].
Proof. split_and!; reflexivity. Qed.

(** The end-to-end example: the default route that repeats gateway4 is
    not listed, the synthesized default route is. *)
Example end_to_end_openrc :
  openrc_interface (HO := Sample.host) "eth0" Sample.eth0 =
    Py.Ok ["config_eth0=" +:+ Py.dq; "  192.168.0.100/24"; Py.dq;
           EmptyString;
           "routes_eth0=" +:+ Py.dq; "  default via 192.168.0.1"; Py.dq;
           EmptyString].
Proof. vm_compute. reflexivity. Qed.

(** ** The hostname pattern *)

Lemma strip_prefix_Some (p s rest : string) :
  Re.strip_prefix p s = Some rest → s = p +:+ rest.
Proof.
  revert s. induction p as [|a p IH]; intros s Hs.
  - by injection Hs as ->.
  - destruct s as [|b s]; [done|]. cbn in Hs.
    destruct (Ascii.eqb a b) eqn:Hab; [|done].
    apply Ascii.eqb_eq in Hab as ->. rewrite append_cons.
    f_equal. by apply IH.
Qed.

Lemma strip_prefix_append (p rest : string) :
  Re.strip_prefix p (p +:+ rest) = Some rest.
Proof.
  induction p as [|a p IH]; [done|].
  rewrite append_cons. cbn. by rewrite Ascii.eqb_refl.
Qed.




Lemma dot_run_append (v tail : string) :
  Re.dot_run v = v → Re.dot_run (v +:+ tail) = v +:+ Re.dot_run tail.
Proof.
  induction v as [|c v IH]; [done|].
  rewrite append_cons. cbn. destruct (Ascii.eqb c "010"); [done|].
  intros [= Heq]. rewrite append_cons. f_equal. by apply IH.
Qed.


Lemma before_last_quote_append (v tail : string) :
  is_Some (Re.before_last_quote (v +:+ Py.dq +:+ tail)).
Proof.
  induction v as [|c v [x IH]].
  - unfold Py.dq. rewrite append_nil_l, append_cons, append_nil_l. cbn.
    destruct (Re.before_last_quote tail); by eexists.
  - rewrite append_cons. cbn. rewrite IH. by eexists.
Qed.


(** A line in which the pattern occurs is matched. *)
Lemma search_complete (before v after : string) :
  Re.dot_run v = v →
  is_Some (Re.search
             (before +:+ ("HOSTNAME=" +:+ Py.dq) +:+ v +:+ Py.dq +:+ after)).
Proof.
  intros Hv.
  assert (Hhere : ∀ s, s = ("HOSTNAME=" +:+ Py.dq) +:+ v +:+ Py.dq +:+ after →
                       is_Some (Re.match_here s)).
  { intros s ->. unfold Re.match_here. rewrite strip_prefix_append.
    rewrite (dot_run_append v _ Hv).
    assert (Hq : Re.dot_run (Py.dq +:+ after) = Py.dq +:+ Re.dot_run after)
      by done.
    rewrite Hq. apply before_last_quote_append. }
  induction before as [|c before IH].
  - rewrite append_nil_l.
    destruct (Hhere _ eq_refl) as [x Hx].
    exists x. remember (_ +:+ _) as s.
    destruct s; cbn [Re.search]; by rewrite Hx.
  - rewrite append_cons. cbn [Re.search].
    destruct (Re.match_here _); [by eexists|done].
Qed.




(** ** Lines and blocks *)

Lemma occurrences_app (x : string) (l1 l2 : list string) :
  occurrences x (l1 ++ l2) = occurrences x l1 + occurrences x l2.
Proof. unfold occurrences. by rewrite filter_app, length_app. Qed.

Lemma occurrences_cons (x y : string) (l : list string) :
  occurrences x (y :: l) =
    (if decide (y = x) then 1 else 0) + occurrences x l.
Proof.
  unfold occurrences. rewrite filter_cons. by destruct (decide (y = x)).
Qed.

Lemma occurrences_none (x : string) (l : list string) :
  Forall (λ y, y ≠ x) l → occurrences x l = 0.
Proof.
  induction 1 as [|y l Hy _ IH]; [done|].
  rewrite occurrences_cons, IH. by destruct (decide (y = x)).
Qed.

Lemma occurrences_elem_of (x : string) (l : list string) :
  0 < occurrences x l ↔ x ∈ l.
Proof.
  induction l as [|y l IH].
  - split; [cbn; lia|]. by intros ?%elem_of_nil.
  - rewrite occurrences_cons, elem_of_cons.
    destruct (decide (y = x)) as [->|Hne]; [split; [by left|lia]|].
    rewrite <- IH. split; [intros; right; lia|]. intros [?|?]; [done|lia].
Qed.

(** The blocks of several turns, when the blocks of the turn of [name]
    hold [x] once and the others never. *)
Lemma occurrences_concat {A} (x name : string) (items : list (string * A))
    (blocks : list (list string)) :
  Forall2 (λ item block,
             occurrences x block = if decide (item.1 = name) then 1 else 0)
          items blocks →
  NoDup items.*1 → name ∈ items.*1 →
  occurrences x (concat blocks) = 1.
Proof.
  intros HF. induction HF as [|[n a] b items blocks Hb HF IH];
    intros Hnd Hin.
  - by apply elem_of_nil in Hin.
  - rewrite fmap_cons in Hnd, Hin. cbn [fst] in Hb, Hnd, Hin.
    change (concat (b :: blocks)) with (b ++ concat blocks).
    apply NoDup_cons in Hnd as [Hfresh Hnd].
    rewrite occurrences_app, Hb.
    destruct (decide (n = name)) as [->|Hne].
    + rewrite occurrences_none; [done|].
      clear -HF Hfresh.
      induction HF as [|[n a] b items blocks Hb HF IH]; [done|].
      rewrite fmap_cons in Hfresh. cbn [fst] in Hb, Hfresh.
      change (concat (b :: blocks)) with (b ++ concat blocks).
      apply not_elem_of_cons in Hfresh as [Hne Hfresh].
      apply Forall_app. split; [|by apply IH].
      apply Forall_forall. intros y Hy ->.
      apply occurrences_elem_of in Hy. rewrite Hb in Hy.
      destruct (decide (n = name)); [congruence|lia].
    + apply elem_of_cons in Hin as [?|Hin]; [congruence|].
      by rewrite IH.
Qed.

Lemma comprehension_Forall2 {A B} (f : A → Py.result B) (l : list A)
    (ys : list B) :
  Py.comprehension f l = Py.Ok ys ↔ Forall2 (λ x y, f x = Py.Ok y) l ys.
Proof.
  revert ys. induction l as [|x l IH]; intros ys; cbn.
  - split; [by intros [= <-]|by intros ->%Forall2_nil_inv_l].
  - destruct (f x) as [y|e] eqn:Hfx; cbn.
    + destruct (Py.comprehension f l) as [ys'|e] eqn:Hl; cbn.
      * split.
        -- intros [= <-]. constructor; [done|]. by apply IH.
        -- intros (y' & ys'' & Hy & Hys & ->)%Forall2_cons_inv_l.
           apply IH in Hys. congruence.
      * split; [done|].
        intros (y' & ys'' & Hy & Hys & ->)%Forall2_cons_inv_l.
        apply IH in Hys. congruence.
    + split; [done|].
      intros (y' & ys'' & Hy & Hys & ->)%Forall2_cons_inv_l. congruence.
Qed.

Lemma comprehension_total {A B} (f : A → Py.result B) (l : list A) :
  Forall (λ x, ∃ y, f x = Py.Ok y) l → ∃ ys, Py.comprehension f l = Py.Ok ys.
Proof.
  induction 1 as [|x l [y Hy] _ [ys IH]]; [by eexists|].
  exists (y :: ys). cbn. by rewrite Hy, IH.
Qed.

(** The loops append the blocks of the turns in order and collect the
    names. *)
Lemma openrc_loop_blocks `{HO : Host} (items : list (string * Interface))
    (lines : list string) (ifaces : gset string) :
  openrc_loop items lines ifaces =
    match Py.comprehension (λ item, openrc_interface item.1 item.2) items with
    | Py.Ok blocks =>
        Py.Ok (lines ++ concat blocks, list_to_set items.*1 ∪ ifaces)
    | Py.Raise e => Py.Raise e
    end.
Proof.
  revert lines ifaces. induction items as [|[n i] items IH];
    intros lines ifaces; cbn.
  - f_equal. rewrite app_nil_r. f_equal. set_solver.
  - destruct (openrc_interface n i) as [b|e]; cbn; [|done].
    rewrite IH.
    destruct (Py.comprehension _ items) as [blocks|e]; cbn; [|done].
    f_equal. rewrite <- (assoc_L (++)). f_equal. set_solver.
Qed.

Lemma legacy_loop_blocks (items : list (string * Interface))
    (lines : list string) (ifaces : gset string) :
  legacy_loop items lines ifaces =
    (lines ++ concat (map (λ item, legacy_interface item.1 item.2) items),
     list_to_set items.*1 ∪ ifaces).
Proof.
  revert lines ifaces. induction items as [|[n i] items IH];
    intros lines ifaces; cbn.
  - rewrite app_nil_r. f_equal. set_solver.
  - rewrite IH. rewrite <- (assoc_L (++)). f_equal. set_solver.
Qed.

(** What [iteritems] walks: every entry of the dict, each key once. *)
Lemma iteritems_keys `{RT : PyRuntime} {V} (m : gmap string V) :
  list_to_set (iteritems m).*1 = dom m.
Proof.
  rewrite (iteritems_perm V m). apply leibniz_equiv. symmetry. apply dom_alt.
Qed.

Lemma iteritems_NoDup `{RT : PyRuntime} {V} (m : gmap string V) :
  NoDup (iteritems m).*1.
Proof. rewrite (iteritems_perm V m). apply NoDup_fst_map_to_list. Qed.

Lemma iteritems_elem_of `{RT : PyRuntime} {V} (m : gmap string V) n v :
  (n, v) ∈ iteritems m ↔ m !! n = Some v.
Proof. rewrite (iteritems_perm V m). apply elem_of_map_to_list. Qed.

Lemma iteritems_singleton `{RT : PyRuntime} {V} (n : string) (v : V) :
  iteritems ({[ n := v ]} : gmap string V) = [(n, v)].
Proof.
  apply Permutation_singleton_r.
  by rewrite (iteritems_perm V), map_to_list_singleton.
Qed.

(** ** Which lines open a block *)

Ltac plain_line :=
  repeat split; vm_compute; discriminate.

Ltac same_lines :=
  repeat (rewrite <- (assoc_L (++)) || rewrite <- app_comm_cons);
  reflexivity.

Lemma label_lines_plain (interface : Interface) :
  Forall plain (label_lines interface).
Proof.
  unfold label_lines. destruct (Py.truthy _); [|done].
  repeat constructor; plain_line.
Qed.

Lemma gateway_lines_plain (fmt : string → string) (interface : Interface) :
  (∀ gw, plain (fmt gw)) → Forall plain (gateway_lines fmt interface).
Proof.
  intros Hfmt. unfold gateway_lines. apply Forall_app. split.
  - destruct (gateway4 interface) as [gw|]; [|done].
    destruct (Py.truthy gw); [|done]. constructor; [apply Hfmt|done].
  - destruct (gateway6 interface) as [gw|]; [|done].
    destruct (Py.truthy gw); [|done]. constructor; [apply Hfmt|done].
Qed.

Lemma comprehension_plain {A} (f : A → Py.result string) (l : list A)
    (ys : list string) :
  (∀ x y, f x = Py.Ok y → plain y) →
  Py.comprehension f l = Py.Ok ys → Forall plain ys.
Proof.
  intros Hf Hl. apply comprehension_Forall2 in Hl.
  induction Hl as [|x y l ys Hxy _ IH]; [done|].
  constructor; [by eapply Hf|done].
Qed.

Lemma openrc_ip4_line_plain `{HO : Host} (ip : Ip4) (y : string) :
  openrc_ip4_line ip = Py.Ok y → plain y.
Proof.
  unfold openrc_ip4_line. destruct (Py.getitem _ _); [|done].
  intros [= <-]. plain_line.
Qed.

Lemma openrc_route_line_plain `{HO : Host} (route : Route) (y : string) :
  openrc_route_line route = Py.Ok y → plain y.
Proof.
  unfold openrc_route_line. destruct (Py.getitem _ _); [|done].
  intros [= <-]. plain_line.
Qed.

Lemma map_plain {A} (f : A → string) (l : list A) :
  (∀ x, plain (f x)) → Forall plain (map f l).
Proof. intros Hf. induction l; by constructor. Qed.

(** The shape of one turn of the OpenRC loop: between lines that open no
    block, the opening of the config block, the opening of the routes
    block, and at the end the DNS lines. *)
Lemma openrc_interface_shape `{HO : Host} (name : string)
    (interface : Interface) (block : list string) :
  openrc_interface name interface = Py.Ok block →
  ∃ l1 l2 l3,
    block = l1 ++ ["config_" +:+ name +:+ "=" +:+ Py.dq] ++ l2
               ++ ["routes_" +:+ name +:+ "=" +:+ Py.dq] ++ l3
               ++ openrc_dns_lines name interface ∧
    Forall plain l1 ∧ Forall plain l2 ∧ Forall plain l3 ∧ l3 ≠ [].
Proof.
  unfold openrc_interface, openrc_config_block, openrc_routes_block,
    openrc_routes.
  destruct (Py.comprehension openrc_ip4_line _) as [ip4|e] eqn:Hip4;
    cbn [Py.bind]; [|done].
  destruct (Py.comprehension openrc_route_line _) as [rts|e] eqn:Hrts;
    cbn [Py.bind]; [|done].
  intros [= <-].
  exists (label_lines interface),
    (ip4 ++ map openrc_ip6_line (ip6s interface) ++ [Py.dq; EmptyString]),
    (rts ++ gateway_lines (λ gw, "  default via " +:+ gw) interface
         ++ [Py.dq; EmptyString]).
  split_and!.
  - same_lines.
  - apply label_lines_plain.
  - rewrite !Forall_app. split_and!.
    + eapply comprehension_plain; [|done]. apply @openrc_ip4_line_plain.
    + apply map_plain. intros ip. plain_line.
    + repeat constructor; plain_line.
  - rewrite !Forall_app. split_and!.
    + eapply comprehension_plain; [|done]. apply @openrc_route_line_plain.
    + apply gateway_lines_plain. intros gw. plain_line.
    + repeat constructor; plain_line.
  - by intros [_ [_ ?]%app_eq_nil]%app_eq_nil.
Qed.

(** The shape of one turn of the legacy loop. *)
Lemma legacy_interface_shape (name : string) (interface : Interface) :
  ∃ l1 l2 l3,
    legacy_interface name interface =
      l1 ++ ["config_" +:+ name +:+ "=("] ++ l2
         ++ ["routes_" +:+ name +:+ "=("] ++ l3
         ++ legacy_dns_lines name interface ∧
    Forall plain l1 ∧ Forall plain l2 ∧ Forall plain l3 ∧ l3 ≠ [].
Proof.
  exists (label_lines interface),
    (map legacy_ip4_line (ip4s interface)
       ++ map legacy_ip6_line (ip6s interface) ++ [")"; EmptyString]),
    (legacy_routes interface
       ++ gateway_lines
            (λ gw, "  " +:+ Py.dq +:+ "default via " +:+ gw +:+ Py.dq)
            interface
       ++ [")"; EmptyString]).
  split_and!.
  - unfold legacy_interface, legacy_config_block, legacy_routes_block.
    same_lines.
  - apply label_lines_plain.
  - rewrite !Forall_app. split_and!.
    + apply map_plain. intros ip. plain_line.
    + apply map_plain. intros ip. plain_line.
    + repeat constructor; plain_line.
  - rewrite !Forall_app. split_and!.
    + apply map_plain. intros ip. plain_line.
    + apply gateway_lines_plain. intros gw. plain_line.
    + repeat constructor; plain_line.
  - by intros [_ [_ ?]%app_eq_nil]%app_eq_nil.
Qed.

Lemma preamble_plain `{HO : Host} (now : string) : Forall plain (preamble now).
Proof.
  unfold preamble. destruct (is_system_command "ip");
    repeat constructor; plain_line.
Qed.

Lemma openrc_dns_lines_not_cr (name : string) (interface : Interface) :
  Forall (λ y, first_char y ≠ Some "c"%char ∧ first_char y ≠ Some "r"%char)
         (openrc_dns_lines name interface).
Proof.
  unfold openrc_dns_lines. destruct (dns interface); [done|].
  repeat constructor; vm_compute; discriminate.
Qed.

Lemma legacy_dns_lines_not_cr (name : string) (interface : Interface) :
  Forall (λ y, first_char y ≠ Some "c"%char ∧ first_char y ≠ Some "r"%char)
         (legacy_dns_lines name interface).
Proof.
  unfold legacy_dns_lines. destruct (dns interface) as [|d ds]; [done|].
  rewrite !Forall_app. split_and!.
  - repeat constructor; vm_compute; discriminate.
  - apply Forall_forall. intros y (d' & -> & _)%list_elem_of_fmap.
    split; vm_compute; discriminate.
  - repeat constructor; vm_compute; discriminate.
Qed.

(** An opening line names one interface only. *)
Lemma opening_inj (pre suf n name : string) :
  pre +:+ n +:+ suf = pre +:+ name +:+ suf → n = name.
Proof. intros Heq%(inj (String.append pre)). by eapply append_inj_r. Qed.

(** Counting an opening [x] that starts with the letter c or r in a
    block of the shape above: only the two openings of the block can be
    equal to it. *)
Lemma occurrences_in_shape (x a b : string) (l1 l2 l3 D : list string) :
  (first_char x = Some "c"%char ∨ first_char x = Some "r"%char) →
  Forall plain l1 → Forall plain l2 → Forall plain l3 →
  Forall (λ y, first_char y ≠ Some "c"%char ∧ first_char y ≠ Some "r"%char)
         D →
  occurrences x (l1 ++ [a] ++ l2 ++ [b] ++ l3 ++ D) =
    (if decide (a = x) then 1 else 0) + (if decide (b = x) then 1 else 0).
Proof.
  intros Hx H1 H2 H3 HD.
  assert (Hplain : ∀ l, Forall plain l → occurrences x l = 0).
  { intros l Hl. apply occurrences_none. eapply Forall_impl; [done|].
    intros y (Hc & Hr & _) ->. by destruct Hx. }
  assert (HD0 : occurrences x D = 0).
  { apply occurrences_none. eapply Forall_impl; [done|].
    intros y (Hc & Hr) ->. by destruct Hx. }
  rewrite !occurrences_app, !occurrences_cons.
  rewrite (Hplain l1), (Hplain l2), (Hplain l3), HD0 by done.
  unfold occurrences. cbn. lia.
Qed.

Lemma openrc_block_counts `{HO : Host} (n name : string)
    (interface : Interface) (block : list string) :
  openrc_interface n interface = Py.Ok block →
  occurrences ("config_" +:+ name +:+ "=" +:+ Py.dq) block =
    (if decide (n = name) then 1 else 0) ∧
  occurrences ("routes_" +:+ name +:+ "=" +:+ Py.dq) block =
    (if decide (n = name) then 1 else 0).
Proof.
  intros (l1 & l2 & l3 & -> & H1 & H2 & H3 & _)%openrc_interface_shape.
  pose proof (openrc_dns_lines_not_cr n interface) as HD.
  split.
  - rewrite occurrences_in_shape by (done || by left).
    rewrite (decide_ext _ (n = name)).
    2:{ split; [apply opening_inj|by intros ->]. }
    rewrite (decide_False (P := "routes_" +:+ _ = _)) by (vm_compute; discriminate).
    lia.
  - rewrite occurrences_in_shape by (done || by right).
    rewrite (decide_ext ("routes_" +:+ _ = _) (n = name)).
    2:{ split; [apply opening_inj|by intros ->]. }
    rewrite (decide_False (P := "config_" +:+ _ = _)) by (vm_compute; discriminate).
    lia.
Qed.

Lemma legacy_block_counts (n name : string) (interface : Interface) :
  occurrences ("config_" +:+ name +:+ "=(") (legacy_interface n interface) =
    (if decide (n = name) then 1 else 0) ∧
  occurrences ("routes_" +:+ name +:+ "=(") (legacy_interface n interface) =
    (if decide (n = name) then 1 else 0).
Proof.
  destruct (legacy_interface_shape n interface)
    as (l1 & l2 & l3 & -> & H1 & H2 & H3 & _).
  pose proof (legacy_dns_lines_not_cr n interface) as HD.
  split.
  - rewrite occurrences_in_shape by (done || by left).
    rewrite (decide_ext _ (n = name)).
    2:{ split; [apply opening_inj|by intros ->]. }
    rewrite (decide_False (P := "routes_" +:+ _ = _)) by (vm_compute; discriminate).
    lia.
  - rewrite occurrences_in_shape by (done || by right).
    rewrite (decide_ext ("routes_" +:+ _ = _) (n = name)).
    2:{ split; [apply opening_inj|by intros ->]. }
    rewrite (decide_False (P := "config_" +:+ _ = _)) by (vm_compute; discriminate).
    lia.
Qed.

(** ** The rendering as a whole *)

Lemma openrc_interface_total `{HO : Host} (name : string)
    (interface : Interface) :
  interface_netmasks_valid interface →
  ∃ block, openrc_interface name interface = Py.Ok block.
Proof.
  intros [Hip Hrt].
  destruct (comprehension_total openrc_ip4_line (ip4s interface))
    as [ip4 Hip4].
  { eapply Forall_impl; [exact Hip|]. intros ip [plen Hplen].
    unfold openrc_ip4_line, Py.getitem. rewrite Hplen. by eexists. }
  destruct (comprehension_total openrc_route_line
              (filter (λ route, route_listed interface route = true)
                      (routes interface))) as [rts Hrts].
  { apply Forall_forall. intros route [_ Hin]%list_elem_of_filter.
    rewrite Forall_forall in Hrt. destruct (Hrt route Hin) as [plen Hplen].
    unfold openrc_route_line, Py.getitem. rewrite Hplen. by eexists. }
  unfold openrc_interface, openrc_config_block, openrc_routes_block,
    openrc_routes.
  rewrite Hip4, Hrts. by eexists.
Qed.

(** With valid netmasks the OpenRC rendering returns: its lines are the
    preamble and then one block per entry of the mapping. *)
Lemma confd_net_file_lines_valid `{RT : PyRuntime} `{HO : Host}
    (now : string) (interfaces : gmap string Interface) :
  netmasks_valid interfaces →
  ∃ blocks,
    Forall2 (λ item block, openrc_interface item.1 item.2 = Py.Ok block)
            (iteritems interfaces) blocks ∧
    _confd_net_file_lines now interfaces =
      Py.Ok (preamble now ++ concat blocks, dom interfaces).
Proof.
  intros Hvalid.
  destruct (comprehension_total (λ item, openrc_interface item.1 item.2)
              (iteritems interfaces)) as [blocks Hblocks].
  { apply Forall_forall. intros [n i] Hin%iteritems_elem_of.
    apply openrc_interface_total. by eapply (map_Forall_lookup_1 _ _ _ _ Hvalid). }
  exists blocks. split; [by apply comprehension_Forall2|].
  unfold _confd_net_file_lines. rewrite openrc_loop_blocks, Hblocks.
  by rewrite iteritems_keys, (right_id_L ∅ (∪)).
Qed.

(** Whenever the OpenRC rendering returns, it has that form. *)
Lemma confd_net_file_lines_inv `{RT : PyRuntime} `{HO : Host}
    (now : string) (interfaces : gmap string Interface)
    (lines : list string) (ifaces : gset string) :
  _confd_net_file_lines now interfaces = Py.Ok (lines, ifaces) →
  ∃ blocks,
    Forall2 (λ item block, openrc_interface item.1 item.2 = Py.Ok block)
            (iteritems interfaces) blocks ∧
    lines = preamble now ++ concat blocks ∧ ifaces = dom interfaces.
Proof.
  unfold _confd_net_file_lines. rewrite openrc_loop_blocks.
  destruct (Py.comprehension _ _) as [blocks|e] eqn:Hblocks; [|done].
  intros [= <- <-]. exists blocks.
  split; [by apply comprehension_Forall2|].
  by rewrite iteritems_keys, (right_id_L ∅ (∪)).
Qed.

Lemma confd_net_file_legacy_lines_blocks `{RT : PyRuntime} `{HO : Host}
    (now : string) (interfaces : gmap string Interface) :
  _confd_net_file_legacy_lines now interfaces =
    (preamble now
       ++ concat (map (λ item, legacy_interface item.1 item.2)
                      (iteritems interfaces)),
     dom interfaces).
Proof.
  unfold _confd_net_file_legacy_lines. rewrite legacy_loop_blocks.
  by rewrite iteritems_keys, (right_id_L ∅ (∪)).
Qed.

(** C3: when every IPv4 address and every route has its netmask in the
    table, both dialects return, and the set of names they return is the
    set of keys of the mapping. *)
Theorem render_names_are_keys `{RT : PyRuntime} `{HO : Host}
    (now : string) (interfaces : gmap string Interface) :
  netmasks_valid interfaces →
  (∃ text, _confd_net_file now interfaces = Py.Ok (text, dom interfaces)) ∧
  (∃ text, _confd_net_file_legacy now interfaces = (text, dom interfaces)).
Proof.
  intros Hvalid. split.
  - destruct (confd_net_file_lines_valid now interfaces Hvalid)
      as (blocks & _ & Hlines).
    unfold _confd_net_file. rewrite Hlines. by eexists.
  - unfold _confd_net_file_legacy.
    rewrite confd_net_file_legacy_lines_blocks. by eexists.
Qed.

Ltac sample_netmasks_valid :=
  apply map_Forall_insert_2; [|apply map_Forall_singleton];
  (split; repeat constructor; by eexists).

Lemma render_names_are_keys_witness :
  netmasks_valid (HO := Sample.host) Sample.interfaces ∧
  (∃ text,
     _confd_net_file (RT := Sample.runtime) (HO := Sample.host)
       "2011-06-01" Sample.interfaces
     = Py.Ok (text, dom Sample.interfaces)) ∧
  (∃ text,
     _confd_net_file_legacy (RT := Sample.runtime) (HO := Sample.host)
       "2011-06-01" Sample.interfaces
     = (text, dom Sample.interfaces)).
Proof.
  split; [sample_netmasks_valid|].
  apply (render_names_are_keys (RT := Sample.runtime) (HO := Sample.host)).
  sample_netmasks_valid.
Defined.

(** *** Joining lines *)

Lemma join_cons (sep x : string) (l : list string) :
  l ≠ [] → Py.join sep (x :: l) = x +:+ sep +:+ Py.join sep l.
Proof. by destruct l. Qed.

Lemma join_app (sep : string) (a b : list string) :
  a ≠ [] → b ≠ [] →
  Py.join sep (a ++ b) = Py.join sep a +:+ sep +:+ Py.join sep b.
Proof.
  intros Ha Hb. induction a as [|x a IH]; [done|].
  destruct a as [|y a].
  - cbn [app]. by rewrite join_cons.
  - rewrite <- app_comm_cons, !join_cons, IH by done.
    by rewrite !append_assoc.
Qed.

(** A line that is neither the first nor the last is in the text between
    two newlines. *)
Lemma join_contains_line (x : string) (a b : list string) :
  a ≠ [] → b ≠ [] →
  Contains (Py.nl +:+ x +:+ Py.nl) (Py.join Py.nl (a ++ x :: b)).
Proof.
  intros Ha Hb. exists (Py.join Py.nl a), (Py.join Py.nl b).
  rewrite join_app, join_cons by done. by rewrite !append_assoc.
Qed.

(** A line that is not the first is in the text after a newline; so is
    every beginning of it. *)
Lemma join_contains_after (x rest : string) (a b : list string) :
  a ≠ [] →
  Contains (Py.nl +:+ x) (Py.join Py.nl (a ++ (x +:+ rest) :: b)).
Proof.
  intros Ha. destruct b as [|y b].
  - exists (Py.join Py.nl a), rest.
    rewrite join_app by done. cbn [Py.join String.concat].
    by rewrite !append_assoc.
  - exists (Py.join Py.nl a), (rest +:+ Py.nl +:+ Py.join Py.nl (y :: b)).
    rewrite join_app, join_cons by done. by rewrite !append_assoc.
Qed.

Lemma elem_of_concat_lists {A} (x : A) (blocks : list (list A)) :
  x ∈ concat blocks → ∃ block, x ∈ block ∧ block ∈ blocks.
Proof.
  induction blocks as [|b blocks IH]; cbn [concat].
  - by intros ?%elem_of_nil.
  - intros [?|(b' & ? & ?)%IH]%elem_of_app.
    + exists b. split; [done|left].
    + exists b'. split; [done|by right].
Qed.

Lemma elem_of_concat (x : string) (blocks : list (list string)) :
  x ∈ concat blocks ↔ ∃ block, x ∈ block ∧ block ∈ blocks.
Proof.
  split; [apply elem_of_concat_lists|].
  intros (b & Hx & Hb). induction Hb as [b blocks|b b' blocks _ IH];
    cbn [concat]; apply elem_of_app; [by left|right; by apply IH].
Qed.

Lemma preamble_nonempty `{HO : Host} (now : string) : preamble now ≠ [].
Proof. unfold preamble. by destruct (is_system_command "ip"). Qed.

(** *** The block of one interface inside the output *)

Lemma openrc_lines_split `{RT : PyRuntime} `{HO : Host} (now : string)
    (interfaces : gmap string Interface) (lines : list string)
    (ifaces : gset string) (name : string) (interface : Interface) :
  _confd_net_file_lines now interfaces = Py.Ok (lines, ifaces) →
  interfaces !! name = Some interface →
  ∃ before block after,
    lines = (preamble now ++ before) ++ block ++ after ∧
    openrc_interface name interface = Py.Ok block.
Proof.
  intros (blocks & Hblocks & -> & _)%confd_net_file_lines_inv
         Hin%iteritems_elem_of.
  apply list_elem_of_split in Hin as (items1 & items2 & Hitems).
  rewrite Hitems in Hblocks.
  apply Forall2_app_inv_l in Hblocks as (bs1 & bs' & _ & Hbs' & ->).
  apply Forall2_cons_inv_l in Hbs' as (block & bs2 & Hblock & _ & ->).
  exists (concat bs1), block, (concat bs2). split; [|done].
  rewrite concat_app. cbn [concat]. same_lines.
Qed.

Lemma legacy_lines_split `{RT : PyRuntime} `{HO : Host} (now : string)
    (interfaces : gmap string Interface) (name : string)
    (interface : Interface) :
  interfaces !! name = Some interface →
  ∃ before after,
    (_confd_net_file_legacy_lines now interfaces).1 =
      (preamble now ++ before) ++ legacy_interface name interface ++ after.
Proof.
  intros Hin%iteritems_elem_of.
  apply list_elem_of_split in Hin as (items1 & items2 & Hitems).
  rewrite confd_net_file_legacy_lines_blocks, Hitems. cbn [fst].
  rewrite map_app, concat_app. cbn [map concat fst snd].
  exists (concat (map (λ item, legacy_interface item.1 item.2) items1)),
    (concat (map (λ item, legacy_interface item.1 item.2) items2)).
  same_lines.
Qed.

(** The two openings of a block stand between other lines. *)
Lemma openings_between_newlines (cfg rts : string)
    (head l1 l2 l3 D tail : list string) :
  head ≠ [] → l3 ≠ [] →
  let lines := head ++ (l1 ++ [cfg] ++ l2 ++ [rts] ++ l3 ++ D) ++ tail in
  Contains (Py.nl +:+ cfg +:+ Py.nl) (Py.join Py.nl lines) ∧
  Contains (Py.nl +:+ rts +:+ Py.nl) (Py.join Py.nl lines).
Proof.
  intros Hhead Hl3 lines. subst lines. split.
  - replace (head ++ (l1 ++ [cfg] ++ l2 ++ [rts] ++ l3 ++ D) ++ tail)
      with ((head ++ l1) ++ cfg :: (l2 ++ [rts] ++ l3 ++ D ++ tail))
      by same_lines.
    apply join_contains_line.
    + by intros [? _]%app_eq_nil.
    + by intros [_ ?]%app_eq_nil.
  - replace (head ++ (l1 ++ [cfg] ++ l2 ++ [rts] ++ l3 ++ D) ++ tail)
      with ((head ++ l1 ++ [cfg] ++ l2) ++ rts :: (l3 ++ D ++ tail))
      by same_lines.
    apply join_contains_line.
    + by intros [? _]%app_eq_nil.
    + by intros [? _]%app_eq_nil.
Qed.

(** With valid netmasks, for every name of the mapping and in each
    dialect, exactly one of the strings joined into the text is the
    opening of the config block of that name and exactly one is the
    opening of its routes block; each of the two stands in the text
    between two newlines.  A string that is joined can hold newlines of
    its own, so this does not count the lines of the text. *)
Lemma openings_once_among_joined `{RT : PyRuntime} `{HO : Host}
    (now : string) (interfaces : gmap string Interface) (name : string) :
  netmasks_valid interfaces →
  name ∈ dom interfaces →
  (∃ lines,
     _confd_net_file_lines now interfaces = Py.Ok (lines, dom interfaces) ∧
     _confd_net_file now interfaces =
       Py.Ok (Py.join Py.nl lines, dom interfaces) ∧
     occurrences ("config_" +:+ name +:+ "=" +:+ Py.dq) lines = 1 ∧
     occurrences ("routes_" +:+ name +:+ "=" +:+ Py.dq) lines = 1 ∧
     Contains (Py.nl +:+ ("config_" +:+ name +:+ "=" +:+ Py.dq) +:+ Py.nl)
              (Py.join Py.nl lines) ∧
     Contains (Py.nl +:+ ("routes_" +:+ name +:+ "=" +:+ Py.dq) +:+ Py.nl)
              (Py.join Py.nl lines)) ∧
  (∃ lines,
     _confd_net_file_legacy_lines now interfaces = (lines, dom interfaces) ∧
     _confd_net_file_legacy now interfaces =
       (Py.join Py.nl lines, dom interfaces) ∧
     occurrences ("config_" +:+ name +:+ "=(") lines = 1 ∧
     occurrences ("routes_" +:+ name +:+ "=(") lines = 1 ∧
     Contains (Py.nl +:+ ("config_" +:+ name +:+ "=(") +:+ Py.nl)
              (Py.join Py.nl lines) ∧
     Contains (Py.nl +:+ ("routes_" +:+ name +:+ "=(") +:+ Py.nl)
              (Py.join Py.nl lines)).
Proof.
  intros Hvalid Hname.
  assert (Hin : name ∈ (iteritems interfaces).*1).
  { rewrite <- iteritems_keys in Hname. by apply elem_of_list_to_set in Hname. }
  apply elem_of_dom in Hname as [interface Hlookup].
  pose proof (iteritems_NoDup interfaces) as Hnd.
  pose proof (preamble_plain now) as Hpre.
  pose proof (preamble_nonempty now) as Hpre_ne.
  assert (Hhead : ∀ before, preamble now ++ before ≠ []).
  { by intros before [? _]%app_eq_nil. }
  assert (Hpre0 : ∀ x,
             first_char x = Some "c"%char ∨ first_char x = Some "r"%char →
             occurrences x (preamble now) = 0).
  { intros x Hx. apply occurrences_none. eapply Forall_impl; [exact Hpre|].
    intros y (Hc & Hr & _) ->. by destruct Hx. }
  split.
  - destruct (confd_net_file_lines_valid now interfaces Hvalid)
      as (blocks & Hblocks & Hlines).
    exists (preamble now ++ concat blocks).
    destruct (openrc_lines_split now interfaces _ _ name interface
                Hlines Hlookup) as (before & block & after & Hsplit & Hblock).
    apply openrc_interface_shape in Hblock
      as (l1 & l2 & l3 & -> & _ & _ & _ & Hl3).
    destruct (openings_between_newlines
                ("config_" +:+ name +:+ "=" +:+ Py.dq)
                ("routes_" +:+ name +:+ "=" +:+ Py.dq)
                (preamble now ++ before) l1 l2 l3
                (openrc_dns_lines name interface) after (Hhead _) Hl3)
      as [Hcfg Hrts].
    rewrite <- Hsplit in Hcfg, Hrts.
    split_and!; [done| |..|done|done].
    + unfold _confd_net_file. by rewrite Hlines.
    + rewrite occurrences_app, Hpre0 by (by left).
      apply (occurrences_concat _ name (iteritems interfaces)); [|done..].
      eapply Forall2_impl; [exact Hblocks|].
      intros [n i] b Hb. by apply (openrc_block_counts n name) in Hb as [? _].
    + rewrite occurrences_app, Hpre0 by (by right).
      apply (occurrences_concat _ name (iteritems interfaces)); [|done..].
      eapply Forall2_impl; [exact Hblocks|].
      intros [n i] b Hb. by apply (openrc_block_counts n name) in Hb as [_ ?].
  - exists (preamble now
              ++ concat (map (λ item, legacy_interface item.1 item.2)
                             (iteritems interfaces))).
    destruct (legacy_lines_split now interfaces name interface Hlookup)
      as (before & after & Hsplit).
    rewrite confd_net_file_legacy_lines_blocks in Hsplit. cbn [fst] in Hsplit.
    destruct (legacy_interface_shape name interface)
      as (l1 & l2 & l3 & Hshape & _ & _ & _ & Hl3).
    rewrite Hshape in Hsplit.
    destruct (openings_between_newlines
                ("config_" +:+ name +:+ "=(") ("routes_" +:+ name +:+ "=(")
                (preamble now ++ before) l1 l2 l3
                (legacy_dns_lines name interface) after (Hhead _) Hl3)
      as [Hcfg Hrts].
    rewrite <- Hsplit in Hcfg, Hrts.
    split_and!; [|..|done|done].
    + apply confd_net_file_legacy_lines_blocks.
    + unfold _confd_net_file_legacy.
      by rewrite confd_net_file_legacy_lines_blocks.
    + rewrite occurrences_app, Hpre0 by (by left).
      apply (occurrences_concat _ name (iteritems interfaces)); [|done..].
      apply Forall2_fmap_r, Forall_Forall2_diag, Forall_forall.
      intros [n i] _. apply legacy_block_counts.
    + rewrite occurrences_app, Hpre0 by (by right).
      apply (occurrences_concat _ name (iteritems interfaces)); [|done..].
      apply Forall2_fmap_r, Forall_Forall2_diag, Forall_forall.
      intros [n i] _. apply legacy_block_counts.
Qed.

(** ** The DNS block *)

Lemma prefix_append (p rest : string) : String.prefix p (p +:+ rest) = true.
Proof.
  induction p as [|c p IH]; [by destruct rest|].
  rewrite append_cons. cbn. by destruct (ascii_dec c c).
Qed.

Lemma prefix_first_char (c : ascii) (p y : string) :
  String.prefix (String c p) y = true → first_char y = Some c.
Proof.
  destruct y as [|c' y]; cbn; [done|].
  by destruct (ascii_dec c c') as [->|].
Qed.

(** In the block of one turn of the OpenRC loop, a line starts with
    [dns_servers_<name>=] exactly when the DNS sequence is not empty. *)
Lemma openrc_block_dns `{HO : Host} (name : string) (interface : Interface)
    (block : list string) :
  openrc_interface name interface = Py.Ok block →
  (∃ line, line ∈ block ∧
           String.prefix ("dns_servers_" +:+ name +:+ "=") line = true) ↔
  dns interface ≠ [].
Proof.
  intros (l1 & l2 & l3 & -> & H1 & H2 & H3 & _)%openrc_interface_shape.
  split.
  - intros (line & Hin & Hpre) Hdns.
    apply prefix_first_char in Hpre.
    unfold openrc_dns_lines in Hin. rewrite Hdns, app_nil_r in Hin.
    assert (Hplain : ∀ l, Forall plain l → line ∉ l).
    { intros l Hl Hline. rewrite Forall_forall in Hl.
      by destruct (Hl line Hline) as (_ & _ & ?). }
    rewrite !elem_of_app, !list_elem_of_singleton in Hin.
    destruct Hin as [Hl|[->|[Hl|[->|Hl]]]];
      [by apply (Hplain _ H1)|by vm_compute in Hpre|by apply (Hplain _ H2)
      |by vm_compute in Hpre|by apply (Hplain _ H3)].
  - intros Hdns.
    exists ("dns_servers_" +:+ name +:+ "=" +:+ Py.dq
              +:+ Py.join Py.nl (dns interface) +:+ Py.dq +:+ Py.nl).
    split.
    + rewrite !elem_of_app. do 5 right. unfold openrc_dns_lines.
      destruct (dns interface) as [|d ds]; [done|]. apply list_elem_of_here.
    + rewrite <- (append_assoc name "=").
      rewrite <- (append_assoc "dns_servers_" (name +:+ "=")).
      apply prefix_append.
Qed.

(** Among all the lines of the legacy output, the opening of the DNS
    block of [name] is there exactly when the DNS sequence of the
    interface of that name is not empty. *)
Lemma legacy_lines_dns `{RT : PyRuntime} `{HO : Host} (now : string)
    (interfaces : gmap string Interface) (name : string)
    (interface : Interface) :
  interfaces !! name = Some interface →
  "dns_servers_" +:+ name +:+ "=("
    ∈ (_confd_net_file_legacy_lines now interfaces).1 ↔
  dns interface ≠ [].
Proof.
  intros Hlookup. rewrite confd_net_file_legacy_lines_blocks. cbn [fst].
  split.
  - intros Hopen Hdns.
    apply elem_of_app in Hopen as [Hopen|Hopen].
    { pose proof (preamble_plain now) as Hpre.
      rewrite Forall_forall in Hpre.
      by destruct (Hpre _ Hopen) as (_ & _ & ?). }
    apply elem_of_concat in Hopen as (block & Hopen & Hblock).
    apply list_elem_of_fmap in Hblock as ([n i] & -> & Hni).
    cbn [fst snd] in Hopen.
    destruct (legacy_interface_shape n i)
      as (l1 & l2 & l3 & Hshape & H1 & H2 & H3 & _).
    rewrite Hshape in Hopen. clear Hshape.
    assert (Hplain : ∀ l, Forall plain l →
                         "dns_servers_" +:+ name +:+ "=(" ∉ l).
    { intros l Hl Hline. rewrite Forall_forall in Hl.
      by destruct (Hl _ Hline) as (_ & _ & ?). }
    rewrite !elem_of_app, !list_elem_of_singleton in Hopen.
    destruct Hopen as [Hl|[Hc|[Hl|[Hr|[Hl|HD]]]]];
      [by apply (Hplain _ H1)|by vm_compute in Hc|by apply (Hplain _ H2)
      |by vm_compute in Hr|by apply (Hplain _ H3)|].
    unfold legacy_dns_lines in HD.
    destruct (dns i) as [|d ds] eqn:Hdi; [by apply elem_of_nil in HD|].
    rewrite !elem_of_app, list_elem_of_singleton in HD.
    destruct HD as [Heq|[HD|HD]].
    + apply opening_inj in Heq as <-.
      apply iteritems_elem_of in Hni. congruence.
    + apply list_elem_of_fmap in HD as (d' & Hd' & _).
      by vm_compute in Hd'.
    + apply elem_of_cons in HD as [HD|HD]; [by vm_compute in HD|].
      apply list_elem_of_singleton in HD. by vm_compute in HD.
  - intros Hdns. apply elem_of_app. right.
    apply elem_of_concat. exists (legacy_interface name interface).
    split.
    + unfold legacy_interface. apply elem_of_app. right.
      unfold legacy_dns_lines.
      destruct (dns interface) as [|d ds]; [done|].
      apply elem_of_app. left. apply list_elem_of_here.
    + apply list_elem_of_fmap. exists (name, interface).
      split; [done|]. by apply iteritems_elem_of.
Qed.

Lemma prefix_cons_inv (c c' : ascii) (p y : string) :
  String.prefix (String c p) (String c' y) = true →
  c = c' ∧ String.prefix p y = true.
Proof. cbn [String.prefix]. by destruct (ascii_dec c c'). Qed.

Lemma prefix_append_cancel (a p y : string) :
  String.prefix (a +:+ p) (a +:+ y) = true → String.prefix p y = true.
Proof.
  induction a as [|c a IH]; [done|].
  rewrite !append_cons. intros [_ Hpre]%prefix_cons_inv. by apply IH.
Qed.

(** Two names without an equals sign, one followed by an equals sign
    being a beginning of the other followed by one, are the same name. *)
Lemma prefix_name_inj (name n rest : string) :
  mentions "=" name = false → mentions "=" n = false →
  String.prefix (name +:+ "=") (n +:+ "=" +:+ rest) = true → n = name.
Proof.
  revert n. induction name as [|c name IH]; intros [|c' n] Hname Hn Hpre.
  - done.
  - rewrite append_nil_l, append_cons in Hpre.
    apply prefix_cons_inv in Hpre as [<- _].
    cbn [mentions] in Hn. by rewrite Ascii.eqb_refl in Hn.
  - rewrite append_nil_l, append_cons in Hpre.
    apply prefix_cons_inv in Hpre as [-> _].
    cbn [mentions] in Hname. by rewrite Ascii.eqb_refl in Hname.
  - rewrite !append_cons in Hpre.
    apply prefix_cons_inv in Hpre as [-> Hpre].
    cbn [mentions] in Hname, Hn.
    apply orb_false_iff in Hname as [_ Hname].
    apply orb_false_iff in Hn as [_ Hn].
    f_equal. by apply IH.
Qed.

(** Among all the lines of the OpenRC output, when no interface name
    has an equals sign in it, a line starts with [dns_servers_<name>=]
    exactly when the DNS sequence of the interface of that name is not
    empty. *)
Lemma openrc_lines_dns `{RT : PyRuntime} `{HO : Host} (now : string)
    (interfaces : gmap string Interface) (lines : list string)
    (ifaces : gset string) (name : string) (interface : Interface) :
  _confd_net_file_lines now interfaces = Py.Ok (lines, ifaces) →
  interfaces !! name = Some interface →
  (∀ n, n ∈ dom interfaces → mentions "=" n = false) →
  (∃ line, line ∈ lines ∧
           String.prefix ("dns_servers_" +:+ name +:+ "=") line = true) ↔
  dns interface ≠ [].
Proof.
  intros Hlines Hlookup Hnames. split.
  - intros (line & Hin & Hpre) Hdns.
    pose proof (prefix_first_char _ _ _ Hpre) as Hd.
    apply confd_net_file_lines_inv in Hlines as (blocks & Hblocks & -> & _).
    apply elem_of_app in Hin as [Hin|Hin].
    { pose proof (preamble_plain now) as Hplain.
      rewrite Forall_forall in Hplain.
      by destruct (Hplain _ Hin) as (_ & _ & ?). }
    apply elem_of_concat in Hin as (block & Hin & Hblock).
    apply list_elem_of_lookup in Hblock as [k Hk].
    destruct (Forall2_lookup_r _ _ _ _ _ Hblocks Hk)
      as ([n i] & Hitem & Hni).
    apply list_elem_of_lookup_2, iteritems_elem_of in Hitem.
    cbn [fst snd] in Hni.
    apply openrc_interface_shape in Hni
      as (l1 & l2 & l3 & -> & H1 & H2 & H3 & _).
    assert (Hplain : ∀ l, Forall plain l → line ∉ l).
    { intros l Hl Hline. rewrite Forall_forall in Hl.
      by destruct (Hl line Hline) as (_ & _ & ?). }
    rewrite !elem_of_app, !list_elem_of_singleton in Hin.
    destruct Hin as [Hl|[->|[Hl|[->|[Hl|HD]]]]];
      [by apply (Hplain _ H1)|by vm_compute in Hd|by apply (Hplain _ H2)
      |by vm_compute in Hd|by apply (Hplain _ H3)|].
    unfold openrc_dns_lines in HD.
    destruct (dns i) as [|d ds] eqn:Hdi; [by apply elem_of_nil in HD|].
    apply elem_of_cons in HD as [->|HD].
    + apply prefix_append_cancel in Hpre.
      apply prefix_name_inj in Hpre as ->; [congruence|..].
      * apply Hnames, elem_of_dom. by eexists.
      * apply Hnames, elem_of_dom. by eexists.
    + apply list_elem_of_singleton in HD as ->. by vm_compute in Hd.
  - intros Hdns.
    destruct (openrc_lines_split now interfaces lines ifaces name interface
                Hlines Hlookup) as (before & block & after & -> & Hblock).
    apply openrc_block_dns in Hblock.
    apply Hblock in Hdns as (line & Hin & Hpre).
    exists line. split; [|done]. rewrite !elem_of_app. auto.
Qed.

(** The DNS block among the strings joined into the text.  In the
    OpenRC dialect the strings are those of this interface between
    those of the others, and one of them starts with
    [dns_servers_<name>=] exactly when the DNS sequence is not empty (so
    does one of all the strings, when no interface name has an equals
    sign in it); in the legacy dialect the string [dns_servers_<name>=(]
    is among all the strings exactly in that case.  In that case the
    opening stands in the text right after a newline.  A string that is
    joined can hold newlines of its own, so this does not tell the lines
    of the text. *)
Lemma dns_opening_among_joined `{RT : PyRuntime} `{HO : Host}
    (now : string) (interfaces : gmap string Interface)
    (name : string) (interface : Interface) :
  interfaces !! name = Some interface →
  (∀ lines ifaces,
     _confd_net_file_lines now interfaces = Py.Ok (lines, ifaces) →
     _confd_net_file now interfaces = Py.Ok (Py.join Py.nl lines, ifaces) ∧
     ∃ before block after,
       lines = before ++ block ++ after ∧
       openrc_interface name interface = Py.Ok block ∧
       ((∃ line, line ∈ block ∧
                 String.prefix ("dns_servers_" +:+ name +:+ "=") line = true)
        ↔ dns interface ≠ []) ∧
       (dns interface ≠ [] →
        Contains (Py.nl +:+ "dns_servers_" +:+ name +:+ "=")
                 (Py.join Py.nl lines)) ∧
       ((∀ n, n ∈ dom interfaces → mentions "=" n = false) →
        ((∃ line, line ∈ lines ∧
                  String.prefix ("dns_servers_" +:+ name +:+ "=") line = true)
         ↔ dns interface ≠ []))) ∧
  (∃ lines ifaces,
     _confd_net_file_legacy_lines now interfaces = (lines, ifaces) ∧
     _confd_net_file_legacy now interfaces = (Py.join Py.nl lines, ifaces) ∧
     ("dns_servers_" +:+ name +:+ "=(" ∈ lines ↔ dns interface ≠ []) ∧
     (dns interface ≠ [] →
      Contains (Py.nl +:+ "dns_servers_" +:+ name +:+ "=(")
               (Py.join Py.nl lines))).
Proof.
  intros Hlookup.
  assert (Hhead : ∀ before l, (preamble now ++ before) ++ l ≠ []).
  { intros before l [[? _]%app_eq_nil _]%app_eq_nil.
    by eapply preamble_nonempty. }
  split.
  - intros lines ifaces Hlines. split.
    { unfold _confd_net_file. by rewrite Hlines. }
    pose proof (openrc_lines_dns now interfaces lines ifaces name interface
                  Hlines Hlookup) as Hwhole.
    destruct (openrc_lines_split now interfaces lines ifaces name interface
                Hlines Hlookup) as (before & block & after & -> & Hblock).
    exists (preamble now ++ before), block, after.
    split_and!; [done|done|by apply openrc_block_dns| |exact Hwhole].
    intros Hdns.
    apply openrc_interface_shape in Hblock
      as (l1 & l2 & l3 & -> & _ & _ & _ & _).
    unfold openrc_dns_lines. destruct (dns interface) as [|d ds]; [done|].
    replace ((preamble now ++ before)
               ++ (l1 ++ ["config_" +:+ name +:+ "=" +:+ Py.dq] ++ l2
                      ++ ["routes_" +:+ name +:+ "=" +:+ Py.dq] ++ l3
                      ++ ["dns_servers_" +:+ name +:+ "=" +:+ Py.dq
                            +:+ Py.join Py.nl (d :: ds) +:+ Py.dq +:+ Py.nl;
                          EmptyString])
               ++ after)
      with (((preamble now ++ before)
               ++ (l1 ++ ["config_" +:+ name +:+ "=" +:+ Py.dq] ++ l2
                      ++ ["routes_" +:+ name +:+ "=" +:+ Py.dq] ++ l3))
              ++ (("dns_servers_" +:+ name +:+ "=")
                    +:+ Py.dq +:+ Py.join Py.nl (d :: ds) +:+ Py.dq
                    +:+ Py.nl)
              :: (EmptyString :: after)).
    2:{ rewrite !append_assoc. same_lines. }
    apply join_contains_after, Hhead.
  - pose proof (legacy_lines_dns now interfaces name interface Hlookup)
      as Hdns.
    destruct (legacy_lines_split now interfaces name interface Hlookup)
      as (before & after & Hsplit).
    destruct (_confd_net_file_legacy_lines now interfaces)
      as [lines ifaces] eqn:Hlines.
    exists lines, ifaces. split_and!; [done| |exact Hdns|].
    { unfold _confd_net_file_legacy. by rewrite Hlines. }
    intros Hne. cbn [fst] in Hsplit. rewrite Hsplit.
    destruct (legacy_interface_shape name interface)
      as (l1 & l2 & l3 & -> & _ & _ & _ & _).
    unfold legacy_dns_lines. destruct (dns interface) as [|d ds]; [done|].
    replace ((preamble now ++ before)
               ++ (l1 ++ ["config_" +:+ name +:+ "=("] ++ l2
                      ++ ["routes_" +:+ name +:+ "=("] ++ l3
                      ++ ["dns_servers_" +:+ name +:+ "=("]
                      ++ map (λ d0, " " +:+ Py.dq +:+ d0 +:+ Py.dq) (d :: ds)
                      ++ [")"; EmptyString])
               ++ after)
      with (((preamble now ++ before)
               ++ (l1 ++ ["config_" +:+ name +:+ "=("] ++ l2
                      ++ ["routes_" +:+ name +:+ "=("] ++ l3))
              ++ (("dns_servers_" +:+ name +:+ "=(") +:+ EmptyString)
              :: (map (λ d0, " " +:+ Py.dq +:+ d0 +:+ Py.dq) (d :: ds)
                    ++ [")"; EmptyString] ++ after)).
    2:{ rewrite append_nil_r. same_lines. }
    apply join_contains_after, Hhead.
Qed.

(** ** The lines of the text *)

Lemma text_lines_nonempty (s : string) : text_lines s ≠ [].
Proof.
  induction s as [|c s IH]; cbn [text_lines]; [done|].
  destruct (Ascii.eqb "010" c); [done|]. by destruct (text_lines s).
Qed.

Lemma text_lines_one_line (s : string) : one_line s → text_lines s = [s].
Proof.
  unfold one_line. induction s as [|c s IH]; cbn [text_lines mentions];
    [done|].
  intros [-> Hs]%orb_false_iff. by rewrite (IH Hs).
Qed.

Lemma text_lines_app_nl (a b : string) :
  text_lines (a +:+ Py.nl +:+ b) = text_lines a ++ text_lines b.
Proof.
  induction a as [|c a IH].
  - rewrite append_nil_l. unfold Py.nl. rewrite append_cons, append_nil_l.
    reflexivity.
  - rewrite append_cons. cbn [text_lines]. rewrite IH.
    destruct (Ascii.eqb "010" c); [done|].
    destruct (text_lines a) eqn:Ha; [by apply text_lines_nonempty in Ha|done].
Qed.

(** The first line of a text starts with what the text starts with up
    to its first newline. *)
Lemma text_lines_head (a rest : string) :
  one_line a →
  ∃ l ls, text_lines rest = l :: ls ∧
          text_lines (a +:+ rest) = (a +:+ l) :: ls.
Proof.
  unfold one_line. induction a as [|c a IH]; cbn [mentions].
  - intros _. rewrite append_nil_l.
    destruct (text_lines rest) as [|l ls] eqn:Hrest;
      [by apply text_lines_nonempty in Hrest|].
    by exists l, ls.
  - intros [Hc Ha]%orb_false_iff.
    destruct (IH Ha) as (l & ls & Hrest & Hlines).
    exists l, ls. split; [done|].
    rewrite append_cons. cbn [text_lines]. by rewrite Hc, Hlines.
Qed.

(** A line of a text has no character that the text does not have. *)
Lemma text_lines_mentions (c : ascii) (s y : string) :
  y ∈ text_lines s → mentions c y = true → mentions c s = true.
Proof.
  revert y. induction s as [|c0 s IH]; intros y; cbn [text_lines mentions].
  - by intros ->%list_elem_of_singleton.
  - destruct (Ascii.eqb "010" c0).
    + intros [->|Hy]%elem_of_cons Hc; [done|].
      rewrite (IH y Hy Hc). apply orb_true_r.
    + destruct (text_lines s) as [|l ls] eqn:Hs;
        [by apply text_lines_nonempty in Hs|].
      intros [->|Hy]%elem_of_cons; cbn [mentions].
      * intros [->|Hl]%orb_true_iff; [done|].
        rewrite (IH l); [apply orb_true_r|by left|done].
      * intros Hc. rewrite (IH y); [apply orb_true_r|by right|done].
Qed.

Lemma pieces_app (a b : list string) : pieces (a ++ b) = pieces a ++ pieces b.
Proof. unfold pieces. by rewrite map_app, concat_app. Qed.

Lemma pieces_cons (x : string) (l : list string) :
  pieces (x :: l) = text_lines x ++ pieces l.
Proof. reflexivity. Qed.

Lemma pieces_concat (blocks : list (list string)) :
  pieces (concat blocks) = concat (map pieces blocks).
Proof.
  induction blocks as [|b blocks IH]; [done|].
  cbn [concat map]. by rewrite pieces_app, IH.
Qed.

Lemma pieces_one_line (l : list string) : Forall one_line l → pieces l = l.
Proof.
  induction 1 as [|x l Hx _ IH]; [done|].
  by rewrite pieces_cons, (text_lines_one_line x Hx), IH.
Qed.

(** The lines of a text made by joining strings with newlines. *)
Lemma text_lines_join (l : list string) :
  l ≠ [] → text_lines (Py.join Py.nl l) = pieces l.
Proof.
  induction l as [|x l IH]; [done|]. intros _.
  destruct l as [|y l].
  - cbn. by rewrite app_nil_r.
  - rewrite join_cons, text_lines_app_nl, IH by done. reflexivity.
Qed.

(** No digit is a newline, so no number is printed over two lines. *)
Lemma pretty_N_go_one_line (x : N) (s : string) :
  mentions "010" (pretty_N_go x s) = mentions "010" s.
Proof.
  revert s. induction (N.lt_wf_0 x) as [x _ IH]; intros s.
  destruct (decide (0 < x)%N) as [Hpos|Hzero].
  - rewrite pretty_N_go_step by done.
    rewrite IH by (apply N.div_lt; lia). cbn [mentions].
    assert (Hchar : Ascii.eqb "010" (pretty_N_char (x `mod` 10)) = false);
      [|by rewrite Hchar].
    unfold pretty_N_char. by repeat case_match.
  - assert (x = 0%N) as -> by lia. by rewrite pretty_N_go_0.
Qed.

Lemma pretty_one_line (z : Z) : one_line (pretty z).
Proof.
  assert (HN : ∀ x : N, mentions "010" (pretty x) = false).
  { intros x. unfold pretty, pretty_N. case_decide; [done|].
    by rewrite pretty_N_go_one_line. }
  unfold one_line. destruct z as [|p|p]; [done|apply HN|].
  change (pretty (Z.neg p)) with ("-" +:+ pretty (N.pos p)).
  rewrite mentions_append, HN. reflexivity.
Qed.

Lemma pretty_no_newline (z : Z) : mentions "010" (pretty z) = false.
Proof. apply pretty_one_line. Qed.

Ltac one_line_line :=
  unfold one_line in *;
  rewrite ?mentions_append;
  repeat match goal with
         | H : mentions "010" ?s = false |- context [mentions "010" ?s] =>
             rewrite H
         end;
  rewrite ?pretty_no_newline; reflexivity.

(** The header is four lines of the text. *)
Lemma header_lines `{HO : Host} (now : string) :
  one_line now → one_line argv0 →
  text_lines (_header now) =
    ["# Creator: NOVA AGENT:";
     "        # This file was autogenerated at " +:+ now +:+ " by " +:+ argv0
       +:+ ".";
     "        # While it can still be managed manually, definitely not recommended.";
     "        "].
Proof.
  intros Hnow Hargv. unfold _header.
  rewrite (text_lines_app_nl "# Creator: NOVA AGENT:").
  rewrite <- (append_assoc argv0 "."),
    <- (append_assoc " by " (argv0 +:+ ".")),
    <- (append_assoc now (" by " +:+ argv0 +:+ ".")),
    <- (append_assoc "        # This file was autogenerated at "
          (now +:+ " by " +:+ argv0 +:+ ".")).
  rewrite !text_lines_app_nl.
  rewrite !text_lines_one_line by one_line_line. reflexivity.
Qed.

Lemma preamble_pieces_plain `{HO : Host} (now : string) :
  one_line now → one_line argv0 → Forall plain (pieces (preamble now)).
Proof.
  intros Hnow Hargv. unfold preamble.
  destruct (is_system_command "ip"); cbn [app];
    rewrite pieces_cons, (header_lines now Hnow Hargv);
    repeat constructor; plain_line.
Qed.

Lemma label_lines_one_line (interface : Interface) :
  one_line (Py.str (label interface)) →
  Forall one_line (label_lines interface).
Proof.
  intros Hlabel. unfold label_lines. destruct (Py.truthy _); [|done].
  repeat constructor. one_line_line.
Qed.

Lemma gateway_lines_one_line (fmt : string → string)
    (interface : Interface) :
  (∀ gw, one_line gw → one_line (fmt gw)) →
  (∀ gw, gateway4 interface = Some gw → one_line (Py.str gw)) →
  (∀ gw, gateway6 interface = Some gw → one_line (Py.str gw)) →
  Forall one_line (gateway_lines fmt interface).
Proof.
  intros Hfmt H4 H6. unfold gateway_lines. apply Forall_app. split.
  - destruct (gateway4 interface) as [gw|]; [|done].
    destruct (Py.truthy gw); [|done]. constructor; [|done].
    by apply Hfmt, H4.
  - destruct (gateway6 interface) as [gw|]; [|done].
    destruct (Py.truthy gw); [|done]. constructor; [|done].
    by apply Hfmt, H6.
Qed.

Lemma comprehension_Forall_from {A B} (f : A → Py.result B) (P : A → Prop)
    (Q : B → Prop) (l : list A) (ys : list B) :
  (∀ x y, P x → f x = Py.Ok y → Q y) →
  Forall P l → Py.comprehension f l = Py.Ok ys → Forall Q ys.
Proof.
  intros Hf Hl Hys. apply comprehension_Forall2 in Hys.
  induction Hys as [|x y l ys Hxy _ IH]; [done|].
  apply Forall_cons in Hl as [Hx Hl]. constructor; [by eapply Hf|by apply IH].
Qed.

Lemma map_Forall_lines {A} (f : A → string) (P : A → Prop)
    (Q : string → Prop) (l : list A) :
  (∀ x, P x → Q (f x)) → Forall P l → Forall Q (map f l).
Proof. intros Hf. induction 1; constructor; auto. Qed.

Lemma Forall_filter_list {A} (P : A → Prop) (c : A → Prop)
    `{∀ x, Decision (c x)} (l : list A) :
  Forall P l → Forall P (filter c l).
Proof.
  rewrite !Forall_forall. intros Hl x [_ Hin]%list_elem_of_filter. auto.
Qed.

(** The lines of one turn of the OpenRC loop for a tidy descriptor:
    but for the DNS lines, each is one line of the text. *)
Lemma openrc_interface_tidy `{HO : Host} (name : string)
    (interface : Interface) (block : list string) :
  openrc_interface name interface = Py.Ok block →
  one_line name → interface_tidy interface →
  ∃ l1 l2 l3,
    block = l1 ++ ["config_" +:+ name +:+ "=" +:+ Py.dq] ++ l2
               ++ ["routes_" +:+ name +:+ "=" +:+ Py.dq] ++ l3
               ++ openrc_dns_lines name interface ∧
    Forall plain l1 ∧ Forall plain l2 ∧ Forall plain l3 ∧
    Forall one_line l1 ∧ Forall one_line l2 ∧ Forall one_line l3.
Proof.
  intros Hblock Hname (Hlabel & Hip4 & Hip6 & Hroutes & Hgw4 & Hgw6 & _).
  revert Hblock.
  unfold openrc_interface, openrc_config_block, openrc_routes_block,
    openrc_routes.
  destruct (Py.comprehension openrc_ip4_line _) as [ip4|e] eqn:Hip4s;
    cbn [Py.bind]; [|done].
  destruct (Py.comprehension openrc_route_line _) as [rts|e] eqn:Hrts;
    cbn [Py.bind]; [|done].
  intros [= <-].
  exists (label_lines interface),
    (ip4 ++ map openrc_ip6_line (ip6s interface) ++ [Py.dq; EmptyString]),
    (rts ++ gateway_lines (λ gw, "  default via " +:+ gw) interface
         ++ [Py.dq; EmptyString]).
  split_and!.
  - same_lines.
  - apply label_lines_plain.
  - rewrite !Forall_app. split_and!.
    + eapply comprehension_plain; [|done]. apply @openrc_ip4_line_plain.
    + apply map_plain. intros ip. plain_line.
    + repeat constructor; plain_line.
  - rewrite !Forall_app. split_and!.
    + eapply comprehension_plain; [|done]. apply @openrc_route_line_plain.
    + apply gateway_lines_plain. intros gw. plain_line.
    + repeat constructor; plain_line.
  - by apply label_lines_one_line.
  - rewrite !Forall_app. split_and!.
    + eapply comprehension_Forall_from; [|exact Hip4|exact Hip4s].
      intros ip y [Ha _]. unfold openrc_ip4_line.
      destruct (Py.getitem _ _); [|done]. intros [= <-]. one_line_line.
    + eapply map_Forall_lines; [|exact Hip6].
      intros ip Ha. unfold openrc_ip6_line. one_line_line.
    + repeat constructor.
  - rewrite !Forall_app. split_and!.
    + eapply comprehension_Forall_from; [| |exact Hrts].
      2:{ apply Forall_filter_list. exact Hroutes. }
      intros route y (Hn & _ & Hg). unfold openrc_route_line.
      destruct (Py.getitem _ _); [|done]. intros [= <-]. one_line_line.
    + apply gateway_lines_one_line; [|done..]. intros gw Hgw. one_line_line.
    + repeat constructor.
Qed.

(** Every line of one turn of the legacy loop for a tidy descriptor is
    one line of the text. *)
Lemma legacy_interface_one_line (name : string) (interface : Interface) :
  one_line name → interface_tidy interface →
  Forall one_line (legacy_interface name interface).
Proof.
  intros Hname (Hlabel & Hip4 & Hip6 & Hroutes & Hgw4 & Hgw6 & Hdns).
  unfold legacy_interface, legacy_config_block, legacy_routes_block,
    legacy_routes, legacy_dns_lines.
  rewrite !Forall_app. split_and!.
  - by apply label_lines_one_line.
  - repeat constructor. one_line_line.
  - eapply map_Forall_lines; [|exact Hip4].
    intros ip [Ha Hm]. unfold legacy_ip4_line. one_line_line.
  - eapply map_Forall_lines; [|exact Hip6].
    intros ip Ha. unfold legacy_ip6_line. one_line_line.
  - repeat constructor.
  - repeat constructor.
  - repeat constructor. one_line_line.
  - eapply map_Forall_lines; [|apply Forall_filter_list; exact Hroutes].
    intros route (Hn & Hm & Hg). unfold legacy_route_line. one_line_line.
  - apply gateway_lines_one_line; [|done..]. intros gw Hgw. one_line_line.
  - repeat constructor.
  - repeat constructor.
  - destruct (dns interface) as [|d ds] eqn:Hd; [done|].
    rewrite !Forall_app. split_and!.
    + repeat constructor. one_line_line.
    + eapply map_Forall_lines; [|exact Hdns]. intros d' [Hd' _].
      one_line_line.
    + repeat constructor.
Qed.

Lemma mentions_join (c : ascii) (sep : string) (l : list string) :
  mentions c sep = false → Forall (λ d, mentions c d = false) l →
  mentions c (Py.join sep l) = false.
Proof.
  intros Hsep. induction 1 as [|x l Hx Hl IH]; [done|].
  destruct l as [|y l]; [done|].
  rewrite join_cons, !mentions_append by done. by rewrite Hx, Hsep, IH.
Qed.

(** The lines of the text that the DNS lines of one turn of the OpenRC
    loop make up: none when there is no resolver; otherwise a first
    line that opens the block, and then lines without an equals sign
    when no resolver has one. *)
Lemma openrc_dns_pieces (name : string) (interface : Interface) :
  one_line name →
  Forall (λ d, mentions "=" d = false) (dns interface) →
  (dns interface = [] ∧ pieces (openrc_dns_lines name interface) = []) ∨
  (dns interface ≠ [] ∧
   ∃ l ls,
     pieces (openrc_dns_lines name interface) =
       ("dns_servers_" +:+ name +:+ "=" +:+ Py.dq +:+ l) :: ls ∧
     Forall (λ y, mentions "=" y = false) ls).
Proof.
  intros Hname Hdns. unfold openrc_dns_lines.
  destruct (dns interface) as [|d ds] eqn:Hd; [by left|]. right.
  split; [done|].
  set (rest := Py.join Py.nl (d :: ds) +:+ Py.dq +:+ Py.nl).
  assert (Hrest : mentions "=" rest = false).
  { subst rest. rewrite !mentions_append, mentions_join by done. done. }
  destruct (text_lines_head Py.dq rest) as (l0 & ls & Hl0 & H0); [done|].
  destruct (text_lines_head "=" (Py.dq +:+ rest)) as (l1 & ls1 & Hl1 & H1);
    [done|].
  rewrite H0 in Hl1. injection Hl1 as <- <-.
  destruct (text_lines_head name ("=" +:+ Py.dq +:+ rest))
    as (l2 & ls2 & Hl2 & H2); [done|].
  rewrite H1 in Hl2. injection Hl2 as <- <-.
  destruct (text_lines_head "dns_servers_" (name +:+ "=" +:+ Py.dq +:+ rest))
    as (l3 & ls3 & Hl3 & H3); [done|].
  rewrite H2 in Hl3. injection Hl3 as <- <-.
  exists l0, (ls ++ [EmptyString]). split.
  - rewrite !pieces_cons. fold rest. rewrite H3. reflexivity.
  - apply Forall_app. split; [|by repeat constructor].
    apply Forall_forall. intros y Hy.
    destruct (mentions "=" y) eqn:Hmy; [|done].
    rewrite <- Hrest. symmetry.
    apply (text_lines_mentions "=" rest y); [|done].
    rewrite Hl0. by right.
Qed.

Lemma prefix_mentions (c : ascii) (p y : string) :
  String.prefix p y = true → mentions c p = true → mentions c y = true.
Proof.
  revert y. induction p as [|a p IH]; intros [|b y]; cbn [mentions];
    try done.
  intros [-> Hpre]%prefix_cons_inv [->|Hp]%orb_true_iff; [done|].
  rewrite (IH y Hpre Hp). apply orb_true_r.
Qed.

(** Counting an opening [x] in lines of the shape of a block, when
    what follows the three runs of plain lines has no line equal to
    it. *)
Lemma occurrences_in_shape_ne (x a b : string) (l1 l2 l3 D : list string) :
  (first_char x = Some "c"%char ∨ first_char x = Some "r"%char) →
  Forall plain l1 → Forall plain l2 → Forall plain l3 →
  Forall (λ y, y ≠ x) D →
  occurrences x (l1 ++ [a] ++ l2 ++ [b] ++ l3 ++ D) =
    (if decide (a = x) then 1 else 0) + (if decide (b = x) then 1 else 0).
Proof.
  intros Hx H1 H2 H3 HD.
  assert (Hplain : ∀ l, Forall plain l → occurrences x l = 0).
  { intros l Hl. apply occurrences_none. eapply Forall_impl; [done|].
    intros y (Hc & Hr & _) ->. by destruct Hx. }
  rewrite !occurrences_app, !occurrences_cons.
  rewrite (Hplain l1), (Hplain l2), (Hplain l3), (occurrences_none x D)
    by done.
  unfold occurrences. cbn. lia.
Qed.

(** The lines of the text that one turn of the OpenRC loop makes up for
    a tidy descriptor hold the opening of the config block of [name] and
    the opening of its routes block once when the turn is that of
    [name], and never otherwise. *)
Lemma openrc_pieces_counts `{HO : Host} (n name : string)
    (interface : Interface) (block : list string) :
  openrc_interface n interface = Py.Ok block →
  one_line n → interface_tidy interface →
  occurrences ("config_" +:+ name +:+ "=" +:+ Py.dq) (pieces block) =
    (if decide (n = name) then 1 else 0) ∧
  occurrences ("routes_" +:+ name +:+ "=" +:+ Py.dq) (pieces block) =
    (if decide (n = name) then 1 else 0).
Proof.
  intros Hblock Hn Htidy.
  destruct (openrc_interface_tidy n interface block Hblock Hn Htidy)
    as (l1 & l2 & l3 & -> & H1 & H2 & H3 & Ho1 & Ho2 & Ho3).
  destruct Htidy as (_ & _ & _ & _ & _ & _ & Hdns).
  rewrite !pieces_app, (pieces_one_line l1), (pieces_one_line l2),
    (pieces_one_line l3), !pieces_one_line by
      (done || (repeat constructor; one_line_line)).
  assert (HD : ∀ x,
            (first_char x = Some "c"%char ∨ first_char x = Some "r"%char) →
            mentions "=" x = true →
            Forall (λ y, y ≠ x) (pieces (openrc_dns_lines n interface))).
  { intros x Hx Heq.
    destruct (openrc_dns_pieces n interface Hn) as [[_ ->]|(_ & l & ls & -> & Hls)].
    - eapply Forall_impl; [exact Hdns|]. by intros d [_ ?].
    - done.
    - constructor.
      + intros <-. vm_compute in Hx. by destruct Hx.
      + eapply Forall_impl; [exact Hls|]. intros y Hy ->. congruence. }
  assert (Heq : ∀ pre, mentions "=" (pre +:+ name +:+ "=" +:+ Py.dq) = true).
  { intros pre. rewrite !mentions_append. cbn. by rewrite !orb_true_r. }
  split.
  - rewrite occurrences_in_shape_ne; [|by left|done..|].
    2:{ apply HD; [by left|apply Heq]. }
    rewrite (decide_ext _ (n = name)).
    2:{ split; [apply opening_inj|by intros ->]. }
    rewrite (decide_False (P := "routes_" +:+ _ = _))
      by (vm_compute; discriminate).
    lia.
  - rewrite occurrences_in_shape_ne; [|by right|done..|].
    2:{ apply HD; [by right|apply Heq]. }
    rewrite (decide_ext ("routes_" +:+ _ = _) (n = name)).
    2:{ split; [apply opening_inj|by intros ->]. }
    rewrite (decide_False (P := "config_" +:+ _ = _))
      by (vm_compute; discriminate).
    lia.
Qed.

(** The descriptors that [iteritems] walks are those of the mapping. *)
Lemma iteritems_Forall `{RT : PyRuntime} {V} (P : string → V → Prop)
    (m : gmap string V) :
  map_Forall P m → Forall (λ item, P item.1 item.2) (iteritems m).
Proof.
  intros Hm. apply Forall_forall. intros [n v] Hin%iteritems_elem_of.
  by apply (map_Forall_lookup_1 _ _ _ _ Hm).
Qed.

Lemma Forall2_with_l {A B} (R : A → B → Prop) (T : A → Prop)
    (l : list A) (k : list B) :
  Forall2 R l k → Forall T l → Forall2 (λ a b, T a ∧ R a b) l k.
Proof.
  induction 1 as [|a b l k Hab _ IH]; [done|].
  intros [Ha Hl]%Forall_cons. constructor; auto.
Qed.

(** The lines of the text of each dialect: those of the preamble, then
    those of the turns of the loop. *)
Lemma openrc_text_lines `{RT : PyRuntime} `{HO : Host} (now : string)
    (interfaces : gmap string Interface) (text : string)
    (ifaces : gset string) :
  _confd_net_file now interfaces = Py.Ok (text, ifaces) →
  ∃ blocks,
    Forall2 (λ item block, openrc_interface item.1 item.2 = Py.Ok block)
            (iteritems interfaces) blocks ∧
    text_lines text = pieces (preamble now) ++ concat (map pieces blocks).
Proof.
  unfold _confd_net_file.
  destruct (_confd_net_file_lines now interfaces) as [[lines ifaces']|e]
    eqn:Hlines; cbn [Py.bind fst snd]; [|done].
  intros [= <- <-].
  apply confd_net_file_lines_inv in Hlines as (blocks & Hblocks & -> & _).
  exists blocks. split; [done|].
  rewrite text_lines_join, pieces_app, pieces_concat; [done|].
  intros [? _]%app_eq_nil. by eapply preamble_nonempty.
Qed.

Lemma legacy_text_lines `{RT : PyRuntime} `{HO : Host} (now : string)
    (interfaces : gmap string Interface) :
  tidy now interfaces →
  text_lines (_confd_net_file_legacy now interfaces).1 =
    pieces (preamble now)
      ++ concat (map (λ item, legacy_interface item.1 item.2)
                     (iteritems interfaces)).
Proof.
  intros (_ & _ & Htidy). unfold _confd_net_file_legacy. cbn [fst].
  rewrite confd_net_file_legacy_lines_blocks. cbn [fst].
  rewrite text_lines_join, pieces_app.
  2:{ intros [? _]%app_eq_nil. by eapply preamble_nonempty. }
  f_equal. apply pieces_one_line, Forall_concat, Forall_fmap.
  eapply Forall_impl; [apply (iteritems_Forall _ _ Htidy)|].
  intros [n i] [Hn Hi]. by apply legacy_interface_one_line.
Qed.

(** A mapping whose label forges openings: one name, no resolver, and
    yet the text of either dialect has two lines that open the config
    block of eth0. *)
Lemma forged_label_repeats_config_opening :
  netmasks_valid (HO := Sample.host) Sample.forged ∧
  "eth0" ∈ dom Sample.forged ∧
  (∃ text,
     _confd_net_file (RT := Sample.runtime) (HO := Sample.host)
       "2011-06-01" Sample.forged = Py.Ok (text, dom Sample.forged) ∧
     occurrences ("config_" +:+ "eth0" +:+ "=" +:+ Py.dq) (text_lines text)
     = 2) ∧
  (∃ text,
     _confd_net_file_legacy (RT := Sample.runtime) (HO := Sample.host)
       "2011-06-01" Sample.forged = (text, dom Sample.forged) ∧
     occurrences ("config_" +:+ "eth0" +:+ "=(") (text_lines text) = 2).
Proof.
  split_and!.
  - apply map_Forall_singleton. split; repeat constructor; by eexists.
  - by vm_compute.
  - eexists. split; [vm_compute; reflexivity|]. vm_compute. reflexivity.
  - eexists. split; [vm_compute; reflexivity|]. vm_compute. reflexivity.
Qed.

(** C4: with valid netmasks and tidy inputs (no string of the mapping,
    nor the timestamp or the program name, holds a newline, and no
    resolver holds an equals sign), for every name of the mapping and in
    each dialect, exactly one line of the text is the opening of the
    config block of that name and exactly one is the opening of its
    routes block. *)
Theorem one_config_and_one_routes_block `{RT : PyRuntime} `{HO : Host}
    (now : string) (interfaces : gmap string Interface) (name : string) :
  netmasks_valid interfaces →
  tidy now interfaces →
  name ∈ dom interfaces →
  (∃ text,
     _confd_net_file now interfaces = Py.Ok (text, dom interfaces) ∧
     occurrences ("config_" +:+ name +:+ "=" +:+ Py.dq) (text_lines text)
     = 1 ∧
     occurrences ("routes_" +:+ name +:+ "=" +:+ Py.dq) (text_lines text)
     = 1) ∧
  (∃ text,
     _confd_net_file_legacy now interfaces = (text, dom interfaces) ∧
     occurrences ("config_" +:+ name +:+ "=(") (text_lines text) = 1 ∧
     occurrences ("routes_" +:+ name +:+ "=(") (text_lines text) = 1).
Proof.
  intros Hvalid Htidy Hname.
  assert (Hin : name ∈ (iteritems interfaces).*1).
  { rewrite <- iteritems_keys in Hname.
    by apply elem_of_list_to_set in Hname. }
  pose proof (iteritems_NoDup interfaces) as Hnd.
  pose proof Htidy as (Hnow & Hargv & Hitems%iteritems_Forall).
  pose proof (preamble_pieces_plain now Hnow Hargv) as Hpre.
  assert (Hpre0 : ∀ x,
             first_char x = Some "c"%char ∨ first_char x = Some "r"%char →
             occurrences x (pieces (preamble now)) = 0).
  { intros x Hx. apply occurrences_none. eapply Forall_impl; [exact Hpre|].
    intros y (Hc & Hr & _) ->. by destruct Hx. }
  split.
  - destruct (confd_net_file_lines_valid now interfaces Hvalid)
      as (blocks0 & _ & Hlines).
    assert (Htext : _confd_net_file now interfaces
                    = Py.Ok (Py.join Py.nl (preamble now ++ concat blocks0),
                             dom interfaces)).
    { unfold _confd_net_file. by rewrite Hlines. }
    eexists. split; [exact Htext|].
    destruct (openrc_text_lines now interfaces _ _ Htext)
      as (blocks & Hblocks & ->).
    apply (Forall2_with_l _ _ _ _ Hblocks) in Hitems.
    split.
    + rewrite occurrences_app, Hpre0 by (by left).
      apply (occurrences_concat _ name (iteritems interfaces)); [|done..].
      apply Forall2_fmap_r. eapply Forall2_impl; [exact Hitems|].
      intros [n i] b [[Hn Hi] Hb].
      by apply (openrc_pieces_counts n name) in Hb as [? _].
    + rewrite occurrences_app, Hpre0 by (by right).
      apply (occurrences_concat _ name (iteritems interfaces)); [|done..].
      apply Forall2_fmap_r. eapply Forall2_impl; [exact Hitems|].
      intros [n i] b [[Hn Hi] Hb].
      by apply (openrc_pieces_counts n name) in Hb as [_ ?].
  - exists (_confd_net_file_legacy now interfaces).1.
    split.
    { unfold _confd_net_file_legacy.
      by rewrite confd_net_file_legacy_lines_blocks. }
    rewrite (legacy_text_lines now interfaces Htidy).
    split.
    + rewrite occurrences_app, Hpre0 by (by left).
      apply (occurrences_concat _ name (iteritems interfaces)); [|done..].
      apply Forall2_fmap_r, Forall_Forall2_diag, Forall_forall.
      intros [n i] _. apply legacy_block_counts.
    + rewrite occurrences_app, Hpre0 by (by right).
      apply (occurrences_concat _ name (iteritems interfaces)); [|done..].
      apply Forall2_fmap_r, Forall_Forall2_diag, Forall_forall.
      intros [n i] _. apply legacy_block_counts.
Qed.

Lemma sample_interfaces_tidy :
  tidy (HO := Sample.host) "2011-06-01" Sample.interfaces.
Proof.
  split_and!; [reflexivity|reflexivity|].
  apply map_Forall_insert_2; [|apply map_Forall_singleton];
    (split; [reflexivity|]);
    (split_and!; [reflexivity|repeat constructor..]);
    try (intros gw [= <-]; reflexivity); try (by intros gw [=]).
Qed.

Lemma one_config_and_one_routes_block_witness :
  netmasks_valid (HO := Sample.host) Sample.interfaces ∧
  tidy (HO := Sample.host) "2011-06-01" Sample.interfaces ∧
  "eth1" ∈ dom Sample.interfaces ∧
  (∃ text,
     _confd_net_file (RT := Sample.runtime) (HO := Sample.host)
       "2011-06-01" Sample.interfaces
     = Py.Ok (text, dom Sample.interfaces) ∧
     occurrences ("config_" +:+ "eth1" +:+ "=" +:+ Py.dq) (text_lines text)
     = 1 ∧
     occurrences ("routes_" +:+ "eth1" +:+ "=" +:+ Py.dq) (text_lines text)
     = 1) ∧
  (∃ text,
     _confd_net_file_legacy (RT := Sample.runtime) (HO := Sample.host)
       "2011-06-01" Sample.interfaces
     = (text, dom Sample.interfaces) ∧
     occurrences ("config_" +:+ "eth1" +:+ "=(") (text_lines text) = 1 ∧
     occurrences ("routes_" +:+ "eth1" +:+ "=(") (text_lines text) = 1).
Proof.
  assert (H1 : netmasks_valid (HO := Sample.host) Sample.interfaces)
    by sample_netmasks_valid.
  assert (H2 : tidy (HO := Sample.host) "2011-06-01" Sample.interfaces)
    by exact sample_interfaces_tidy.
  assert (H3 : "eth1" ∈ dom Sample.interfaces) by (by vm_compute).
  split; [exact H1|]. split; [exact H2|]. split; [exact H3|].
  exact (one_config_and_one_routes_block (RT := Sample.runtime)
           (HO := Sample.host) "2011-06-01" Sample.interfaces "eth1"
           H1 H2 H3).
Defined.

(** The same mapping has no resolver for eth0, and yet a line of the
    text of either dialect opens a DNS block of eth0. *)
Lemma forged_label_shows_dns_opening :
  Sample.forged !! "eth0" = Some Sample.forged_eth0 ∧
  dns Sample.forged_eth0 = [] ∧
  (∃ text ifaces line,
     _confd_net_file (RT := Sample.runtime) (HO := Sample.host)
       "2011-06-01" Sample.forged = Py.Ok (text, ifaces) ∧
     line ∈ text_lines text ∧
     String.prefix ("dns_servers_" +:+ "eth0" +:+ "=") line = true) ∧
  (∃ text ifaces,
     _confd_net_file_legacy (RT := Sample.runtime) (HO := Sample.host)
       "2011-06-01" Sample.forged = (text, ifaces) ∧
     "dns_servers_" +:+ "eth0" +:+ "=(" ∈ text_lines text).
Proof.
  split_and!.
  - by vm_compute.
  - reflexivity.
  - eexists _, _, "dns_servers_eth0=(".
    split; [vm_compute; reflexivity|]. split; [|reflexivity].
    vm_compute. repeat constructor.
  - eexists _, _. split; [vm_compute; reflexivity|].
    vm_compute. repeat constructor.
Qed.

(** Among the lines of the text that one turn of the OpenRC loop makes
    up for a tidy descriptor, one starts with [dns_servers_<name>=]
    only when the turn is that of [name] and the descriptor has a
    resolver. *)
Lemma openrc_pieces_dns `{HO : Host} (n name : string)
    (interface : Interface) (block : list string) (line : string) :
  openrc_interface n interface = Py.Ok block →
  one_line n → interface_tidy interface →
  mentions "=" n = false → mentions "=" name = false →
  line ∈ pieces block →
  String.prefix ("dns_servers_" +:+ name +:+ "=") line = true →
  n = name ∧ dns interface ≠ [].
Proof.
  intros Hblock Hn Htidy Hneq Hnameeq Hin Hpre.
  pose proof (prefix_first_char _ _ _ Hpre) as Hd.
  destruct (openrc_interface_tidy n interface block Hblock Hn Htidy)
    as (l1 & l2 & l3 & -> & H1 & H2 & H3 & Ho1 & Ho2 & Ho3).
  destruct Htidy as (_ & _ & _ & _ & _ & _ & Hdns).
  revert Hin.
  rewrite !pieces_app, (pieces_one_line l1), (pieces_one_line l2),
    (pieces_one_line l3), !pieces_one_line by
      (done || (repeat constructor; one_line_line)).
  assert (Hplain : ∀ l, Forall plain l → line ∉ l).
  { intros l Hl Hline. rewrite Forall_forall in Hl.
    by destruct (Hl line Hline) as (_ & _ & ?). }
  rewrite !elem_of_app, !list_elem_of_singleton.
  intros [Hl|[->|[Hl|[->|[Hl|HD]]]]];
    [by apply Hplain in H1|by vm_compute in Hd|by apply Hplain in H2
    |by vm_compute in Hd|by apply Hplain in H3|].
  destruct (openrc_dns_pieces n interface Hn)
    as [[_ HD0]|(Hne & l & ls & HD1 & Hls)].
  - eapply Forall_impl; [exact Hdns|]. by intros d [_ ?].
  - rewrite HD0 in HD. by apply elem_of_nil in HD.
  - rewrite HD1 in HD. apply elem_of_cons in HD as [->|HD].
    + apply prefix_append_cancel in Hpre.
      apply prefix_name_inj in Hpre as ->; done.
    + rewrite Forall_forall in Hls. specialize (Hls _ HD).
      apply (prefix_mentions "=") in Hpre; [congruence|].
      rewrite !mentions_append. cbn. by rewrite !orb_true_r.
Qed.

(** C5: for tidy inputs (no string of the mapping, nor the timestamp or
    the program name, holds a newline, and no resolver holds an equals
    sign), the DNS block of an interface is in the text of either
    dialect if and only if the DNS sequence of that interface is not
    empty: in the OpenRC dialect, where no interface name holds an
    equals sign, a line of the text starts with [dns_servers_<name>=]
    exactly in that case; in the legacy dialect the line
    [dns_servers_<name>=(] is a line of the text exactly in that case. *)
Theorem dns_block_iff_dns_nonempty `{RT : PyRuntime} `{HO : Host}
    (now : string) (interfaces : gmap string Interface)
    (name : string) (interface : Interface) :
  interfaces !! name = Some interface →
  tidy now interfaces →
  ((∀ n, n ∈ dom interfaces → mentions "=" n = false) →
   ∀ text ifaces,
     _confd_net_file now interfaces = Py.Ok (text, ifaces) →
     ((∃ line, line ∈ text_lines text ∧
               String.prefix ("dns_servers_" +:+ name +:+ "=") line = true)
      ↔ dns interface ≠ [])) ∧
  (∃ text ifaces,
     _confd_net_file_legacy now interfaces = (text, ifaces) ∧
     ("dns_servers_" +:+ name +:+ "=(" ∈ text_lines text
      ↔ dns interface ≠ [])).
Proof.
  intros Hlookup Htidy.
  pose proof Htidy as (Hnow & Hargv & Hitems).
  pose proof (preamble_pieces_plain now Hnow Hargv) as Hpre.
  rewrite Forall_forall in Hpre.
  split.
  - intros Hnames text ifaces Htext.
    destruct (openrc_text_lines now interfaces text ifaces Htext)
      as (blocks & Hblocks & ->).
    split.
    + intros (line & Hin & Hprefix).
      apply elem_of_app in Hin as [Hin|Hin].
      { apply prefix_first_char in Hprefix.
        by destruct (Hpre _ Hin) as (_ & _ & ?). }
      apply elem_of_concat in Hin as (pb & Hin & Hpb).
      apply list_elem_of_fmap in Hpb as (block & -> & Hblock).
      apply list_elem_of_lookup in Hblock as [k Hk].
      destruct (Forall2_lookup_r _ _ _ _ _ Hblocks Hk)
        as ([n i] & Hitem & Hni).
      apply list_elem_of_lookup_2, iteritems_elem_of in Hitem.
      cbn [fst snd] in Hni.
      destruct (map_Forall_lookup_1 _ _ _ _ Hitems Hitem) as [Hn Hi].
      destruct (openrc_pieces_dns n name i block line) as [-> Hdns];
        try done.
      * apply Hnames, elem_of_dom. by eexists.
      * apply Hnames, elem_of_dom. by eexists.
      * congruence.
    + intros Hdns.
      destruct (map_Forall_lookup_1 _ _ _ _ Hitems Hlookup) as [Hn Hi].
      apply iteritems_elem_of, list_elem_of_lookup in Hlookup as [k Hk].
      destruct (Forall2_lookup_l _ _ _ _ _ Hblocks Hk)
        as (block & Hblock & Hni).
      cbn [fst snd] in Hni.
      destruct (openrc_interface_tidy name interface block Hni Hn Hi)
        as (l1 & l2 & l3 & Hshape & _).
      destruct (openrc_dns_pieces name interface Hn)
        as [[Hnil _]|(_ & l & ls & HD & _)]; [|done|].
      { destruct Hi as (_ & _ & _ & _ & _ & _ & Hd).
        eapply Forall_impl; [exact Hd|]. by intros d [_ ?]. }
      exists ("dns_servers_" +:+ name +:+ "=" +:+ Py.dq +:+ l). split.
      * apply elem_of_app. right. apply elem_of_concat.
        exists (pieces block). split.
        -- rewrite Hshape, !pieces_app, HD, !elem_of_app. do 5 right.
           by left.
        -- apply list_elem_of_fmap. exists block. split; [done|].
           by eapply list_elem_of_lookup_2.
      * rewrite <- (append_assoc name "=").
        rewrite <- (append_assoc "dns_servers_" (name +:+ "=")).
        apply prefix_append.
  - destruct (_confd_net_file_legacy now interfaces) as [text ifaces]
      eqn:Htext.
    exists text, ifaces. split; [done|].
    pose proof (legacy_text_lines now interfaces Htidy) as Hlines.
    rewrite Htext in Hlines. cbn [fst] in Hlines. rewrite Hlines.
    pose proof (legacy_lines_dns now interfaces name interface Hlookup)
      as Hdns.
    rewrite confd_net_file_legacy_lines_blocks in Hdns. cbn [fst] in Hdns.
    rewrite <- Hdns, !elem_of_app.
    assert (Hnot : ∀ l, Forall plain l →
                        "dns_servers_" +:+ name +:+ "=(" ∉ l).
    { intros l Hl Hline. rewrite Forall_forall in Hl.
      by destruct (Hl _ Hline) as (_ & _ & ?). }
    split; (intros [Hp|Hb]; [|by right]).
    + by destruct (Hpre _ Hp) as (_ & _ & ?).
    + by apply Hnot in Hp; [|apply preamble_plain].
Qed.

Lemma dns_block_iff_dns_nonempty_witness :
  Sample.interfaces !! "eth1" = Some Sample.eth1 ∧
  tidy (HO := Sample.host) "2011-06-01" Sample.interfaces ∧
  (∀ n, n ∈ dom Sample.interfaces → mentions "=" n = false) ∧
  (∃ text ifaces,
     _confd_net_file (RT := Sample.runtime) (HO := Sample.host)
       "2011-06-01" Sample.interfaces = Py.Ok (text, ifaces) ∧
     ((∃ line, line ∈ text_lines text ∧
               String.prefix ("dns_servers_" +:+ "eth1" +:+ "=") line = true)
      ↔ dns Sample.eth1 ≠ [])) ∧
  (∃ text ifaces,
     _confd_net_file_legacy (RT := Sample.runtime) (HO := Sample.host)
       "2011-06-01" Sample.interfaces = (text, ifaces) ∧
     ("dns_servers_" +:+ "eth1" +:+ "=(" ∈ text_lines text
      ↔ dns Sample.eth1 ≠ [])).
Proof.
  assert (H1 : Sample.interfaces !! "eth1" = Some Sample.eth1)
    by (vm_compute; reflexivity).
  assert (H2 : tidy (HO := Sample.host) "2011-06-01" Sample.interfaces)
    by exact sample_interfaces_tidy.
  assert (H3 : ∀ n, n ∈ dom Sample.interfaces → mentions "=" n = false).
  { intros n Hn.
    assert (n = "eth0" ∨ n = "eth1") as [-> | ->]
      by (unfold Sample.interfaces in Hn; set_solver); reflexivity. }
  split; [exact H1|]. split; [exact H2|]. split; [exact H3|].
  destruct (dns_block_iff_dns_nonempty (RT := Sample.runtime)
              (HO := Sample.host) "2011-06-01" Sample.interfaces
              "eth1" Sample.eth1 H1 H2) as [Hopenrc Hlegacy].
  split; [|exact Hlegacy].
  eexists _, _. split; [vm_compute; reflexivity|].
  apply (Hopenrc H3 _ (dom Sample.interfaces)). vm_compute. reflexivity.
Defined.

(** ** The restart loop *)

Section Restart.
Context `{RT : PyRuntime} `{HO : Host} `{SY : System}.

Lemma script_path_absolute (n : string) :
  String.prefix "/" (script_path n) = true.
Proof. reflexivity. Qed.

Lemma script_path_inj (n m : string) : script_path n = script_path m → n = m.
Proof. unfold script_path. apply (inj (String.append _)). Qed.

(** What leads to a file still does when files and links are added. *)
Lemma resolves_extends (fuel : nat) (p : string) (w w' : World) :
  dom (files w) ⊆ dom (files w') → links w ⊆ links w' →
  resolves fuel p w = true → resolves fuel p w' = true.
Proof.
  intros Hf Hl. revert p.
  induction fuel as [|fuel IH]; intros p; cbn [resolves].
  - destruct (bool_decide (p ∈ dom (files w))) eqn:Hin.
    + apply bool_decide_eq_true in Hin. intros _.
      rewrite bool_decide_eq_true_2; [done|]. by apply Hf.
    + by destruct (links w !! p).
  - destruct (bool_decide (p ∈ dom (files w))) eqn:Hin.
    + apply bool_decide_eq_true in Hin. intros _.
      rewrite bool_decide_eq_true_2; [done|]. by apply Hf.
    + destruct (links w !! p) as [t|] eqn:Hlk; [|done]. intros Hres.
      destruct (bool_decide (p ∈ dom (files w'))); [done|].
      rewrite (lookup_weaken _ _ _ _ Hlk Hl). by apply IH.
Qed.

Lemma os_path_lexists_extends (p : string) (w w' : World) :
  dom (files w) ⊆ dom (files w') → links w ⊆ links w' →
  os_path_lexists p w = true → os_path_lexists p w' = true.
Proof.
  unfold os_path_lexists. intros Hf Hl Hp%bool_decide_eq_true.
  apply bool_decide_eq_true.
  apply elem_of_union in Hp as [Hp|Hp]; [set_solver|].
  apply elem_of_union_r. apply elem_of_dom in Hp as [t Ht].
  apply elem_of_dom. exists t. by eapply lookup_weaken.
Qed.

Lemma grown_mono (d d' : list string) (w0 w : World) :
  (∀ n, n ∈ d → n ∈ d') → grown d w0 w → grown d' w0 w.
Proof.
  intros Hd (Hf & Hl & Hnew). split_and!; [done|done|].
  intros p t Hpt. destruct (Hnew p t Hpt) as [?|(-> & n & Hn & ->)];
    [by left|].
  right. split; [done|]. exists n. auto.
Qed.

(** What [Popen] and [waitpid] do with a command. *)
Lemma run_cases (argv : list string) (w : World) :
  (∃ msg, run argv w = (Py.Raise (Py.OSError msg), w)) ∨
  (popen_error argv = None ∧ program_missing argv w = false ∧
   run argv w =
     (Py.Ok (waitpid_status argv),
      {| files := files w; links := links w;
         live_hostname := live_hostname w;
         spawned := spawned w ++ [argv] |})).
Proof.
  unfold run. destruct (popen_error argv) as [msg|]; [left; by eexists|].
  destruct (program_missing argv w); [left; by eexists|by right].
Qed.

(** Making sure the init script of an interface is there: a link is
    made only where nothing is, and nothing else changes. *)
Lemma ensure_script (p0 : string) (w : World) :
  let linked := if negb (os_path_exists p0 w)
                then os_symlink "net.lo" p0 w else Py.Ok w in
  (∃ msg, linked = Py.Raise (Py.OSError msg)) ∨
  ∃ w1, linked = Py.Ok w1 ∧
    files w1 = files w ∧ live_hostname w1 = live_hostname w ∧
    spawned w1 = spawned w ∧ links w ⊆ links w1 ∧
    (∀ p, os_path_lexists p w = true → links w1 !! p = links w !! p) ∧
    (∀ p t, links w1 !! p = Some t →
            links w !! p = Some t ∨ t = "net.lo" ∧ p = p0).
Proof.
  cbn zeta. destruct (os_path_exists p0 w) eqn:Hex; cbn [negb].
  - right. exists w. split_and!; auto.
  - unfold os_symlink. destruct (os_path_lexists p0 w) eqn:Hlex;
      [left; by eexists|].
    destruct (symlink_error "net.lo" p0) as [msg|]; [left; by eexists|].
    right. eexists. split; [done|].
    unfold with_link. cbn [files links live_hostname spawned].
    assert (Hnone : links w !! p0 = None).
    { apply not_elem_of_dom. intros Hin.
      apply bool_decide_eq_false in Hlex. apply Hlex. set_solver. }
    split_and!; try done.
    + by apply insert_subseteq.
    + intros p Hp. apply lookup_insert_ne. intros ->. congruence.
    + intros p t. destruct (decide (p0 = p)) as [->|Hne].
      * rewrite lookup_insert_eq. intros [= <-]. by right.
      * rewrite lookup_insert_ne by done. by left.
Qed.

(** The second half of a turn, whatever comes of it. *)
Lemma restart_script_cases (ifname : string) (w : World) :
  ∃ e w1 cmds,
    restart_script ifname w = (e, w1) ∧
    files w1 = files w ∧ live_hostname w1 = live_hostname w ∧
    spawned w1 = spawned w ++ cmds ∧
    (cmds = [] ∨ cmds = [restart_command ifname]) ∧
    links w ⊆ links w1 ∧
    (∀ p, os_path_lexists p w = true → links w1 !! p = links w !! p) ∧
    (∀ p t, links w1 !! p = Some t →
            links w !! p = Some t ∨ t = "net.lo" ∧ p = script_path ifname) ∧
    (e = Continue 0%Z ∧ cmds = [restart_command ifname] ∧
     waitpid_status (restart_command ifname) = 0%Z ∧
     popen_error (restart_command ifname) = None ∧
     os_path_exists (script_path ifname) w1 = true
     ∨ (∃ msg, e = Stop (Py.Ok (500%Z, msg)) ∧ msg ≠ EmptyString)
     ∨ (∃ msg, e = Stop (Py.Raise (Py.OSError msg)))).
Proof.
  unfold restart_script. cbn zeta.
  change ("/etc/init.d/net." +:+ ifname) with (script_path ifname).
  destruct (ensure_script (script_path ifname) w)
    as [[msg ->]|(w1 & -> & Hf & Hh & Hs & Hsub & Hkeep & Hnew)].
  { exists (Stop (Py.Raise (Py.OSError msg))), w, [].
    rewrite app_nil_r. split_and!; auto.
    right. right. by eexists. }
  change [script_path ifname; "restart"] with (restart_command ifname).
  destruct (run_cases (restart_command ifname) w1)
    as [[msg ->]|(Hpopen & Hmiss & ->)].
  { exists (Stop (Py.Raise (Py.OSError msg))), w1, [].
    rewrite app_nil_r. split_and!; auto.
    right. right. by eexists. }
  assert (Hex : os_path_exists (script_path ifname) w1 = true).
  { unfold program_missing, restart_command in Hmiss.
    change ("/etc/init.d/net." +:+ ifname) with (script_path ifname) in Hmiss.
    rewrite script_path_absolute in Hmiss. cbn [andb] in Hmiss.
    by apply negb_false_iff in Hmiss. }
  destruct (Z.eqb (waitpid_status (restart_command ifname)) 0) eqn:Hst;
    cbn [negb]; eexists _, _, [restart_command ifname];
    (split; [reflexivity|]); cbn [files links live_hostname spawned];
    (split_and!; [done|done|by rewrite Hs|by right|done|done|done|]).
  - apply Z.eqb_eq in Hst. left. rewrite Hst. by split_and!.
  - right. left. eexists. split; [done|].
    intros Hmsg. vm_compute in Hmsg. discriminate Hmsg.
Qed.

(** The second half of a turn when the script is ready. *)
Lemma restart_script_ready (ifname : string) (w0 w : World)
    (done : list string) :
  grown done w0 w → ifname ∉ done →
  script_ready ifname w0 →
  popen_error (restart_command ifname) = None →
  ∃ w1,
    restart_script ifname w =
      (if negb (Z.eqb (waitpid_status (restart_command ifname)) 0)
       then Stop (Py.Ok (500%Z,
                    "Couldn't restart network " +:+ ifname +:+ ": "
                      +:+ pretty (waitpid_status (restart_command ifname))))
       else Continue (waitpid_status (restart_command ifname)),
       w1) ∧
    files w1 = files w ∧ live_hostname w1 = live_hostname w ∧
    spawned w1 = spawned w ++ [restart_command ifname] ∧
    links w ⊆ links w1 ∧
    grown (ifname :: done) w0 w1 ∧
    os_path_exists (script_path ifname) w1 = true.
Proof.
  intros (Hfiles & Hlinks & Hnew) Hfresh Hready Hpopen.
  unfold restart_script. cbn zeta.
  change ("/etc/init.d/net." +:+ ifname) with (script_path ifname).
  change [script_path ifname; "restart"] with (restart_command ifname).
  assert (Hrun : ∀ w1, os_path_exists (script_path ifname) w1 = true →
            run (restart_command ifname) w1 =
              (Py.Ok (waitpid_status (restart_command ifname)),
               {| files := files w1; links := links w1;
                  live_hostname := live_hostname w1;
                  spawned := spawned w1 ++ [restart_command ifname] |})).
  { intros w1 Hex. unfold run. rewrite Hpopen.
    unfold program_missing, restart_command at 1.
    change ("/etc/init.d/net." +:+ ifname) with (script_path ifname).
    by rewrite script_path_absolute, Hex. }
  destruct (os_path_exists (script_path ifname) w) eqn:Hex; cbn [negb].
  - rewrite (Hrun w Hex).
    eexists. split; [by destruct (negb _)|].
    cbn [files links live_hostname spawned]. split_and!; try done.
    split_and!; [done|done|]. intros p t Hpt.
    destruct (Hnew p t Hpt) as [?|(-> & n & Hn & ->)]; [by left|].
    right. split; [done|]. exists n. split; [by right|done].
  - destruct Hready as [Hex0|(Hlex0 & Hsym & Hex0)].
    { apply (resolves_extends _ _ _ w) in Hex0; [|done..].
      unfold os_path_exists in Hex. congruence. }
    assert (Hnone : links w !! script_path ifname = None).
    { destruct (links w !! script_path ifname) as [t|] eqn:Hlk; [|done].
      destruct (Hnew _ _ Hlk) as [Hlk0|(_ & n & Hn & Heq)].
      - apply bool_decide_eq_false in Hlex0. destruct Hlex0.
        apply elem_of_union_r, elem_of_dom. by eexists.
      - apply script_path_inj in Heq. by subst. }
    assert (Hlex : os_path_lexists (script_path ifname) w = false).
    { apply bool_decide_eq_false. intros [Hin|Hin]%elem_of_union.
      - unfold os_path_exists, MAXSYMLINKS in Hex. cbn [resolves] in Hex.
        by rewrite bool_decide_eq_true_2 in Hex.
      - apply elem_of_dom in Hin as [t Ht]. congruence. }
    unfold os_symlink. rewrite Hlex, Hsym.
    assert (Hex1 : os_path_exists (script_path ifname)
                     (with_link (script_path ifname) "net.lo" w) = true).
    { unfold os_path_exists in *.
      eapply resolves_extends; [| |exact Hex0]; cbn [files links with_link];
        [done|by apply insert_mono]. }
    rewrite (Hrun _ Hex1).
    eexists. split; [by destruct (negb _)|].
    cbn [files links live_hostname spawned with_link].
    split_and!; try done.
    + by apply insert_subseteq.
    + split_and!; [done| |].
      * etrans; [exact Hlinks|]. by apply insert_subseteq.
      * intros p t. cbn [links].
        destruct (decide (script_path ifname = p)) as [<-|Hne].
        -- rewrite lookup_insert_eq. intros [= <-]. right. split; [done|].
           exists ifname. split; [by left|done].
        -- rewrite lookup_insert_ne by done. intros Hpt.
           destruct (Hnew p t Hpt) as [?|(-> & n & Hn & ->)]; [by left|].
           right. split; [done|]. exists n. split; [by right|done].
Qed.

(** The flush of one turn: it raises, it fails, or the turn goes on. *)
Lemma clean_assigned_ip_cases (ifname : string) (w : World) :
  let wf := {| files := files w; links := links w;
               live_hostname := live_hostname w;
               spawned := spawned w ++ [flush_command ifname] |} in
  (∃ msg, _clean_assigned_ip ifname w = (Py.Raise (Py.OSError msg), w)) ∨
  (popen_error (flush_command ifname) = None ∧
   _clean_assigned_ip ifname w =
     (Py.Ok (Z.eqb (waitpid_status (flush_command ifname)) 0), wf)).
Proof.
  cbn zeta. unfold _clean_assigned_ip.
  change ["ip"; "address"; "flush"; "dev"; ifname]
    with (flush_command ifname).
  destruct (run_cases (flush_command ifname) w)
    as [[msg ->]|(Hpopen & _ & ->)]; [left; by eexists|].
  right. split; [done|].
  by destruct (Z.eqb (waitpid_status (flush_command ifname)) 0).
Qed.

Lemma clean_assigned_ip_spawns (ifname : string) (w : World) :
  popen_error (flush_command ifname) = None →
  _clean_assigned_ip ifname w =
    (Py.Ok (Z.eqb (waitpid_status (flush_command ifname)) 0),
     {| files := files w; links := links w;
        live_hostname := live_hostname w;
        spawned := spawned w ++ [flush_command ifname] |}).
Proof.
  intros Hpopen.
  destruct (clean_assigned_ip_cases ifname w) as [[msg Hraise]|[_ ->]];
    [|done].
  revert Hraise. unfold _clean_assigned_ip, run.
  change ["ip"; "address"; "flush"; "dev"; ifname]
    with (flush_command ifname).
  rewrite Hpopen. unfold program_missing, flush_command. cbn.
  by destruct (negb _).
Qed.

(** A turn whose every step can be taken and whose flush does not fail
    ends with the restart: the loop goes on when it exits with zero and
    returns 500 with its status otherwise. *)
Lemma restart_turn_ready (ifname : string) (status : option Z)
    (w0 w : World) (done : list string) :
  grown done w0 w → ifname ∉ done →
  flush_ok ifname → turn_runs ifname w0 →
  ∃ w1,
    restart_turn ifname status w =
      (if negb (Z.eqb (waitpid_status (restart_command ifname)) 0)
       then Stop (Py.Ok (500%Z,
                    "Couldn't restart network " +:+ ifname +:+ ": "
                      +:+ pretty (waitpid_status (restart_command ifname))))
       else Continue (waitpid_status (restart_command ifname)),
       w1) ∧
    files w1 = files w ∧ live_hostname w1 = live_hostname w ∧
    spawned w1 = spawned w ++ turn_commands ifname ∧
    links w ⊆ links w1 ∧
    grown (ifname :: done) w0 w1 ∧
    os_path_exists (script_path ifname) w1 = true.
Proof.
  intros Hgrown Hfresh Hflush [[Hpf Hpr] Hready].
  unfold restart_turn, turn_commands, flush_ok in *.
  destruct (is_system_command "ip").
  - rewrite (clean_assigned_ip_spawns _ _ (Hpf eq_refl)).
    rewrite (Hflush eq_refl). cbn [Z.eqb negb].
    set (wf := {| files := files w; links := links w;
                  live_hostname := live_hostname w;
                  spawned := spawned w ++ [flush_command ifname] |}).
    destruct (restart_script_ready ifname w0 wf done)
      as (w1 & -> & Hf & Hh & Hs & Hsub & Hg & Hex); try done.
    exists w1. split_and!; try done.
    rewrite Hs. subst wf. cbn [spawned]. by rewrite <- (assoc_L (++)).
  - destruct (restart_script_ready ifname w0 w done)
      as (w1 & -> & Hf & Hh & Hs & Hsub & Hg & Hex); try done.
    by exists w1.
Qed.

(** A flush that exits non-zero ends the loop before the restart of
    that interface.  The status it reports is the local [status], not
    the status of the flush. *)
Lemma flush_turn_fails (ifname : string) (status : option Z) (w : World) :
  is_system_command "ip" = true →
  popen_error (flush_command ifname) = None →
  waitpid_status (flush_command ifname) ≠ 0%Z →
  restart_turn ifname status w =
    (Stop (match status with
           | Some st =>
               Py.Ok (500%Z, "Couldn't flush network " +:+ ifname +:+ ": "
                               +:+ pretty st)
           | None => Py.Raise (Py.UnboundLocalError "status")
           end),
     {| files := files w; links := links w;
        live_hostname := live_hostname w;
        spawned := spawned w ++ [flush_command ifname] |}).
Proof.
  intros Hip Hpopen Hflush%Z.eqb_neq. unfold restart_turn.
  by rewrite Hip, (clean_assigned_ip_spawns _ _ Hpopen), Hflush.
Qed.

(** The turns of interfaces whose every step can be taken and succeeds. *)
Lemma restart_turns_ok (pre rest : list string) (status : option Z)
    (w0 w : World) (done : list string) :
  grown done w0 w → NoDup pre → (∀ n, n ∈ pre → n ∉ done) →
  Forall (λ n, turn_ok n ∧ turn_runs n w0) pre →
  ∃ w' status',
    restart_network (pre ++ rest) status w =
      restart_network rest status' w' ∧
    (status' = status ∧ pre = [] ∨ status' = Some 0%Z ∧ pre ≠ []) ∧
    files w' = files w ∧ live_hostname w' = live_hostname w ∧
    spawned w' = spawned w ++ concat (map turn_commands pre) ∧
    links w ⊆ links w' ∧
    grown (pre ++ done) w0 w' ∧
    (∀ n, n ∈ pre → os_path_exists (script_path n) w' = true).
Proof.
  intros Hgrown Hnd Hfresh Hpre. revert status w done Hgrown Hnd Hfresh.
  induction Hpre as [|ifname pre [[Hflush Hrestart] Hruns] _ IH];
    intros status w done Hgrown Hnd Hfresh.
  - exists w, status. rewrite app_nil_r. split_and!; auto.
    by intros n ?%elem_of_nil.
  - apply NoDup_cons in Hnd as [Hnotin Hnd].
    destruct (restart_turn_ready ifname status w0 w done)
      as (w1 & Hturn & Hf1 & Hh1 & Hs1 & Hsub1 & Hg1 & Hex1);
      [done|apply Hfresh; by left|done|done|].
    rewrite Hrestart in Hturn. cbn [Z.eqb negb] in Hturn.
    destruct (IH (Some 0%Z) w1 (ifname :: done))
      as (w2 & st2 & Hsteps & Hst & Hf2 & Hh2 & Hs2 & Hsub2 & Hg2 & Hex2).
    { done. }
    { done. }
    { intros n Hn [->|Hd]%elem_of_cons; [done|].
      revert Hd. apply Hfresh. by right. }
    exists w2, (Some 0%Z). split_and!.
    + rewrite <- app_comm_cons. cbn [restart_network]. rewrite Hturn, Hsteps.
      by destruct Hst as [[-> _]|[-> _]].
    + by right.
    + congruence.
    + congruence.
    + rewrite Hs2, Hs1. cbn [map concat]. by rewrite <- (assoc_L (++)).
    + by etrans.
    + eapply grown_mono; [|exact Hg2]. intros n. set_solver.
    + intros n [->|Hn]%elem_of_cons; [|by apply Hex2].
      eapply resolves_extends; [| |exact Hex1]; [by rewrite Hf2|done].
Qed.

(** What one turn does, whether it succeeds or stops the loop. *)
Lemma restart_turn_cases (ifname : string) (status : option Z) (w : World) :
  ∃ e w1 cmds,
    restart_turn ifname status w = (e, w1) ∧
    files w1 = files w ∧ live_hostname w1 = live_hostname w ∧
    spawned w1 = spawned w ++ cmds ∧
    Forall (λ c, c ∈ turn_commands ifname) cmds ∧
    links w ⊆ links w1 ∧
    (∀ p, os_path_lexists p w = true → links w1 !! p = links w !! p) ∧
    (∀ p t, links w1 !! p = Some t →
            links w !! p = Some t ∨ t = "net.lo" ∧ p = script_path ifname) ∧
    (e = Continue 0%Z ∧ turn_ok ifname ∧ turn_spawns ifname ∧
     cmds = turn_commands ifname ∧
     os_path_exists (script_path ifname) w1 = true
     ∨ e = Stop (Py.Raise (Py.UnboundLocalError "status"))
     ∨ (∃ msg, e = Stop (Py.Ok (500%Z, msg)) ∧ msg ≠ EmptyString)
     ∨ (∃ msg, e = Stop (Py.Raise (Py.OSError msg)))).
Proof.
  unfold restart_turn, turn_commands, turn_ok, turn_spawns, flush_ok.
  destruct (is_system_command "ip") eqn:Hip.
  - destruct (clean_assigned_ip_cases ifname w)
      as [[msg ->]|[Hpopen ->]]; cbn zeta.
    { exists (Stop (Py.Raise (Py.OSError msg))), w, [].
      rewrite app_nil_r. split_and!; auto.
      right. right. right. by eexists. }
    set (wf := {| files := files w; links := links w;
                  live_hostname := live_hostname w;
                  spawned := spawned w ++ [flush_command ifname] |}).
    destruct (Z.eqb (waitpid_status (flush_command ifname)) 0) eqn:Hst;
      cbn [negb].
    + apply Z.eqb_eq in Hst.
      destruct (restart_script_cases ifname wf)
        as (e & w1 & cmds & -> & Hf & Hh & Hs & Hc & Hsub & Hkeep & Hnew
            & Hcase).
      exists e, w1, ([flush_command ifname] ++ cmds).
      split_and!; try done.
      * rewrite Hs. subst wf. cbn [spawned]. by rewrite <- (assoc_L (++)).
      * apply Forall_app. split; [constructor; [set_solver|done]|].
        destruct Hc as [->| ->]; [done|]. constructor; [set_solver|done].
      * destruct Hcase as [(-> & -> & Hr & Hpr & Hex)|[?|?]]; auto.
        left. by split_and!.
    + exists (Stop (match status with
                    | Some st =>
                        Py.Ok (500%Z, "Couldn't flush network " +:+ ifname
                                        +:+ ": " +:+ pretty st)
                    | None => Py.Raise (Py.UnboundLocalError "status")
                    end)), wf, [flush_command ifname].
      subst wf. cbn [files links live_hostname spawned].
      split_and!; auto.
      * constructor; [set_solver|done].
      * destruct status as [st|]; [|by auto]. right. right. left.
        eexists. split; [done|]. intros Hmsg. vm_compute in Hmsg.
        discriminate Hmsg.
  - destruct (restart_script_cases ifname w)
      as (e & w1 & cmds & -> & Hf & Hh & Hs & Hc & Hsub & Hkeep & Hnew
          & Hcase).
    exists e, w1, cmds. split_and!; try done.
    + destruct Hc as [->| ->]; [done|]. constructor; [set_solver|done].
    + destruct Hcase as [(-> & -> & Hr & Hpr & Hex)|[?|?]]; auto.
      left. by split_and!.
Qed.

(** What the whole loop does. *)
Lemma restart_network_run (ifnames : list string) (status : option Z)
    (w : World) :
  ∃ r w' cmds,
    restart_network ifnames status w = (r, w') ∧
    files w' = files w ∧ live_hostname w' = live_hostname w ∧
    spawned w' = spawned w ++ cmds ∧
    Forall (λ c, ∃ n, n ∈ ifnames ∧ c ∈ turn_commands n) cmds ∧
    links w ⊆ links w' ∧
    (∀ p, os_path_lexists p w = true → links w' !! p = links w !! p) ∧
    (∀ p t, links w' !! p = Some t →
            links w !! p = Some t ∨
            t = "net.lo" ∧ ∃ n, n ∈ ifnames ∧ p = script_path n) ∧
    (r = Py.Ok (0%Z, EmptyString) ∧
     Forall (λ n, turn_ok n ∧ turn_spawns n) ifnames ∧
     cmds = concat (map turn_commands ifnames) ∧
     (∀ n, n ∈ ifnames → os_path_exists (script_path n) w' = true)
     ∨ r = Py.Raise (Py.UnboundLocalError "status")
     ∨ (∃ msg, r = Py.Ok (500%Z, msg) ∧ msg ≠ EmptyString)
     ∨ (∃ msg, r = Py.Raise (Py.OSError msg))).
Proof.
  revert status w. induction ifnames as [|ifname rest IH]; intros status w.
  - exists (Py.Ok (0%Z, EmptyString)), w, []. rewrite app_nil_r.
    split_and!; try done.
    + intros p t. by left.
    + left. split_and!; try done. by intros n ?%elem_of_nil.
  - destruct (restart_turn_cases ifname status w)
      as (e & w1 & cmds1 & Hturn & Hf1 & Hh1 & Hs1 & Hc1 & Hsub1 & Hkeep1
          & Hnew1 & Hcase).
    cbn [restart_network]. rewrite Hturn.
    assert (Hstop : ∀ r, e = Stop r →
      (r = Py.Raise (Py.UnboundLocalError "status")
       ∨ (∃ msg, r = Py.Ok (500%Z, msg) ∧ msg ≠ EmptyString)
       ∨ (∃ msg, r = Py.Raise (Py.OSError msg))) →
      ∃ r w' cmds,
        (let (t, w2) := (e, w1) in
         match t with
         | Continue st => restart_network rest (Some st) w2
         | Stop r => (r, w2)
         end) = (r, w') ∧
        files w' = files w ∧ live_hostname w' = live_hostname w ∧
        spawned w' = spawned w ++ cmds ∧
        Forall (λ c, ∃ n, n ∈ ifname :: rest ∧ c ∈ turn_commands n) cmds ∧
        links w ⊆ links w' ∧
        (∀ p, os_path_lexists p w = true → links w' !! p = links w !! p) ∧
        (∀ p t, links w' !! p = Some t →
                links w !! p = Some t ∨
                t = "net.lo" ∧ ∃ n, n ∈ ifname :: rest ∧ p = script_path n) ∧
        (r = Py.Ok (0%Z, EmptyString) ∧
         Forall (λ n, turn_ok n ∧ turn_spawns n) (ifname :: rest) ∧
         cmds = concat (map turn_commands (ifname :: rest)) ∧
         (∀ n, n ∈ ifname :: rest →
               os_path_exists (script_path n) w' = true)
         ∨ r = Py.Raise (Py.UnboundLocalError "status")
         ∨ (∃ msg, r = Py.Ok (500%Z, msg) ∧ msg ≠ EmptyString)
         ∨ (∃ msg, r = Py.Raise (Py.OSError msg)))).
    { intros r -> Hr. exists r, w1, cmds1. split_and!; try done.
      - eapply Forall_impl; [exact Hc1|]. intros c Hc'.
        exists ifname. split; [by left|done].
      - intros p t Hpt. destruct (Hnew1 p t Hpt) as [?|[-> ->]]; [by left|].
        right. split; [done|]. exists ifname. split; [by left|done].
      - by right. }
    destruct Hcase as [(-> & Hok & Hsp & -> & Hex)|[->|[(msg & -> & Hne)
                                                       |(msg & ->)]]].
    + destruct (IH (Some 0%Z) w1)
        as (r & w' & cmds & Hrest & Hf & Hh & Hs & Hc & Hsub & Hkeep & Hnew
            & Hcase).
      exists r, w', (turn_commands ifname ++ cmds). split_and!.
      * done.
      * congruence.
      * congruence.
      * by rewrite Hs, Hs1, <- (assoc_L (++)).
      * apply Forall_app. split.
        -- eapply Forall_impl; [exact Hc1|]. intros c Hc'.
           exists ifname. split; [by left|done].
        -- eapply Forall_impl; [exact Hc|]. intros c (n & Hn & Hc').
           exists n. split; [by right|done].
      * by etrans.
      * intros p Hp. rewrite <- (Hkeep1 p Hp). apply Hkeep.
        eapply os_path_lexists_extends; [| |exact Hp]; [by rewrite Hf1|done].
      * intros p t Hpt. destruct (Hnew p t Hpt) as [Hold|[-> (n & Hn & ->)]].
        -- destruct (Hnew1 p t Hold) as [?|[-> ->]]; [by left|].
           right. split; [done|]. exists ifname. split; [by left|done].
        -- right. split; [done|]. exists n. split; [by right|done].
      * destruct Hcase as [(-> & Hall & -> & Hscripts)|Hr]; [|by right].
        left. split_and!; [done|by constructor|done|].
        intros n [->|Hn]%elem_of_cons; [|by apply Hscripts].
        eapply resolves_extends; [| |exact Hex]; [by rewrite Hf|done].
    + apply (Hstop _ eq_refl). by left.
    + apply (Hstop _ eq_refl). right. left. by eexists.
    + apply (Hstop _ eq_refl). right. right. by eexists.
Qed.

End Restart.

(** ** The apply operation *)

Lemma turn_commands_inj `{HO : Host} (n n' : string) (argv : list string) :
  argv ∈ turn_commands n → argv ∈ turn_commands n' → n = n'.
Proof.
  unfold turn_commands, flush_command, restart_command.
  rewrite !elem_of_app, !list_elem_of_singleton.
  destruct (is_system_command "ip").
  - rewrite !list_elem_of_singleton.
    intros [->| ->] [Heq|Heq]; by injection Heq.
  - intros [?%elem_of_nil| ->]; [done|].
    intros [?%elem_of_nil|Heq]; [done|].
    injection Heq as Heq. by apply (inj (String.append _)) in Heq.
Qed.

Lemma render_net_file_ok `{RT : PyRuntime} `{HO : Host}
    (interfaces : gmap string Interface) (w : World) :
  (os_path_isfile "/sbin/rc" w = true → netmasks_valid interfaces) →
  ∃ data, render_net_file interfaces w = Py.Ok (data, dom interfaces).
Proof.
  intros Hvalid. unfold render_net_file.
  destruct (os_path_isfile "/sbin/rc" w).
  - destruct (confd_net_file_lines_valid (datetime_now 0) interfaces
                (Hvalid eq_refl)) as (blocks & _ & Hlines).
    unfold _confd_net_file. rewrite Hlines. by eexists.
  - unfold _confd_net_file_legacy.
    rewrite confd_net_file_legacy_lines_blocks. by eexists.
Qed.

(** What [configure_network] has done when the restart loop starts:
    the files are written and the hostname is set. *)
Lemma configure_network_reaches_loop `{RT : PyRuntime} `{HO : Host}
    `{SY : System} (hostname : string) (interfaces : gmap string Interface)
    (w : World) (data : string) (ifaces : gset string) :
  render_net_file interfaces w = Py.Ok (data, ifaces) →
  sethostname_error hostname = None →
  ∃ w0,
    configure_network hostname interfaces w =
      restart_network (set_iter ifaces) None w0 ∧
    files w0 = generated_files hostname interfaces data ∪ files w ∧
    live_hostname w0 = Some hostname ∧
    spawned w0 = spawned w ∧
    links w0 = links w ∧
    grown [] w w0.
Proof.
  intros Hrender Hset. unfold configure_network, sethostname.
  rewrite Hrender, Hset. eexists. split_and!; try done.
  split_and!; cbn [files links update_files].
  - rewrite dom_union. set_solver.
  - done.
  - intros p t ?. by left.
Qed.

(** The links after turns of the loop, seen from an interface that had
    no turn. *)
Lemma grown_links (done : list string) (w0 w : World) :
  grown done w0 w →
  (∀ n, n ∉ done → links w !! script_path n = links w0 !! script_path n) ∧
  (∀ p t, links w !! p = Some t →
          links w0 !! p = Some t ∨
          t = "net.lo" ∧ ∃ n, n ∈ done ∧ p = script_path n).
Proof.
  intros (_ & Hsub & Hnew). split; [|exact Hnew].
  intros n Hn. destruct (links w !! script_path n) as [t|] eqn:Hlk.
  - destruct (Hnew _ _ Hlk) as [?|(_ & m & Hm & Heq)]; [done|].
    apply (inj (String.append _)) in Heq. by subst.
  - destruct (links w0 !! script_path n) as [t|] eqn:Hlk0; [|done].
    by rewrite (lookup_weaken _ _ _ _ Hlk0 Hsub) in Hlk.
Qed.

(** C6: when the restart of an interface exits non-zero, after the
    turns of the interfaces before it succeeded, and every step up to
    there could be taken (the commands could be started, and the init
    scripts were there or could be linked), [configure_network]
    returns 500 with a message that names the interface and the status;
    the only commands spawned are those of the turns up to that
    interface, none of an interface after it; no link is made for an
    interface after it; the files written and the hostname set stay as
    they are. *)
Theorem restart_failure_aborts `{RT : PyRuntime} `{HO : Host} `{SY : System}
    (hostname : string) (interfaces : gmap string Interface) (w : World)
    (pre : list string) (ifname : string) (post : list string) :
  (os_path_isfile "/sbin/rc" w = true → netmasks_valid interfaces) →
  sethostname_error hostname = None →
  set_iter (dom interfaces) = pre ++ ifname :: post →
  Forall turn_ok pre →
  flush_ok ifname →
  Forall (λ n, turn_runs n w) (pre ++ [ifname]) →
  waitpid_status (restart_command ifname) ≠ 0%Z →
  ∃ data w',
    render_net_file interfaces w = Py.Ok (data, dom interfaces) ∧
    configure_network hostname interfaces w =
      (Py.Ok (500%Z,
              "Couldn't restart network " +:+ ifname +:+ ": "
                +:+ pretty (waitpid_status (restart_command ifname))),
       w') ∧
    spawned w' = spawned w ++ concat (map turn_commands (pre ++ [ifname])) ∧
    (∀ n argv, n ∈ post → argv ∈ turn_commands n →
               argv ∉ concat (map turn_commands (pre ++ [ifname]))) ∧
    files w' = generated_files hostname interfaces data ∪ files w ∧
    live_hostname w' = Some hostname ∧
    (∀ n, n ∈ post → links w' !! script_path n = links w !! script_path n) ∧
    (∀ p t, links w' !! p = Some t →
            links w !! p = Some t ∨
            t = "net.lo" ∧ ∃ n, n ∈ pre ++ [ifname] ∧ p = script_path n).
Proof.
  intros Hvalid Hset Horder Hpre Hflush Hruns Hrestart.
  destruct (render_net_file_ok interfaces w Hvalid) as [data Hrender].
  destruct (configure_network_reaches_loop hostname interfaces w data _
              Hrender Hset) as (w0 & Hrun & Hf0 & Hh0 & Hs0 & Hl0 & Hg0).
  assert (Hnd : NoDup (pre ++ ifname :: post)).
  { rewrite <- Horder, set_iter_perm. apply NoDup_elements. }
  apply Forall_app in Hruns as [Hruns Hrun1].
  apply Forall_cons in Hrun1 as [Hrun1 _].
  pose proof Hnd as (Hndpre & Hdisj & Hndpost)%NoDup_app.
  apply NoDup_cons in Hndpost as [Hfresh _].
  destruct (restart_turns_ok pre (ifname :: post) None w w0 [])
    as (w1 & st1 & Hturns & _ & Hf1 & Hh1 & Hs1 & _ & Hg1 & _).
  { done. }
  { done. }
  { intros n _ ?%elem_of_nil. done. }
  { by apply Forall_and. }
  destruct (restart_turn_ready ifname st1 w w1 (pre ++ []))
    as (w2 & Hfail & Hf2 & Hh2 & Hs2 & _ & Hg2 & _); [done| |done|done|].
  { rewrite app_nil_r. intros Hin. apply (Hdisj _ Hin). by left. }
  apply Z.eqb_neq in Hrestart. rewrite Hrestart in Hfail. cbn [negb] in Hfail.
  apply (grown_mono _ (pre ++ [ifname])) in Hg2; [|set_solver].
  destruct (grown_links _ _ _ Hg2) as [Hkeep Hnew].
  exists data, w2. split_and!.
  - done.
  - rewrite Hrun, Horder, Hturns. cbn [restart_network]. by rewrite Hfail.
  - rewrite Hs2, Hs1, Hs0, map_app, concat_app. cbn [map concat].
    by rewrite app_nil_r, <- (assoc_L (++)).
  - intros n argv Hn Hargv Hspawned.
    apply elem_of_concat_lists in Hspawned as (cmds & Hin & Hcmds).
    apply list_elem_of_fmap in Hcmds as (n' & -> & Hn').
    assert (n = n') as <- by by eapply turn_commands_inj.
    apply elem_of_app in Hn' as [Hn'|Hn'%list_elem_of_singleton].
    + apply (Hdisj n Hn'). by right.
    + by subst.
  - congruence.
  - congruence.
  - intros n Hn. apply Hkeep.
    intros [Hin|Hin%list_elem_of_singleton]%elem_of_app.
    + apply (Hdisj n Hin). by right.
    + by subst.
  - exact Hnew.
Qed.

Lemma restart_failure_aborts_witness :
  let SY := Sample.system (restart_command "eth1") 256 in
  (os_path_isfile "/sbin/rc" Sample.gentoo_world = true →
   netmasks_valid (HO := Sample.host) Sample.interfaces) ∧
  sethostname_error "myhost" = None ∧
  set_iter (PyRuntime := Sample.runtime) (dom Sample.interfaces)
    = [] ++ "eth1" :: ["eth0"] ∧
  Forall (turn_ok (HO := Sample.host)) [] ∧
  flush_ok (HO := Sample.host) "eth1" ∧
  Forall (λ n, turn_runs (HO := Sample.host) n Sample.gentoo_world)
    ([] ++ ["eth1"]) ∧
  waitpid_status (restart_command "eth1") ≠ 0%Z ∧
  ∃ data w',
    render_net_file (RT := Sample.runtime) (HO := Sample.host)
      Sample.interfaces Sample.gentoo_world
      = Py.Ok (data, dom Sample.interfaces) ∧
    configure_network (RT := Sample.runtime) (HO := Sample.host)
      "myhost" Sample.interfaces Sample.gentoo_world =
      (Py.Ok (500%Z,
              "Couldn't restart network " +:+ "eth1" +:+ ": "
                +:+ pretty (waitpid_status (restart_command "eth1"))),
       w') ∧
    spawned w' =
      spawned Sample.gentoo_world
        ++ concat (map (turn_commands (HO := Sample.host)) ([] ++ ["eth1"])) ∧
    (∀ n argv, n ∈ ["eth0"] → argv ∈ turn_commands (HO := Sample.host) n →
               argv ∉ concat (map (turn_commands (HO := Sample.host))
                                  ([] ++ ["eth1"]))) ∧
    files w' =
      generated_files (HO := Sample.host) "myhost" Sample.interfaces data
        ∪ files Sample.gentoo_world ∧
    live_hostname w' = Some "myhost" ∧
    (∀ n, n ∈ ["eth0"] →
          links w' !! script_path n
          = links Sample.gentoo_world !! script_path n) ∧
    (∀ p t, links w' !! p = Some t →
            links Sample.gentoo_world !! p = Some t ∨
            t = "net.lo" ∧ ∃ n, n ∈ [] ++ ["eth1"] ∧ p = script_path n).
Proof.
  intros SY.
  assert (H1 : os_path_isfile "/sbin/rc" Sample.gentoo_world = true →
               netmasks_valid (HO := Sample.host) Sample.interfaces)
    by (intros _; sample_netmasks_valid).
  assert (H2 : sethostname_error "myhost" = None) by reflexivity.
  assert (H3 : set_iter (PyRuntime := Sample.runtime)
                 (dom Sample.interfaces) = [] ++ "eth1" :: ["eth0"])
    by (vm_compute; reflexivity).
  assert (H4 : Forall (turn_ok (HO := Sample.host)) []) by constructor.
  assert (H5 : flush_ok (HO := Sample.host) "eth1")
    by (intros _; vm_compute; reflexivity).
  assert (H6 : Forall (λ n, turn_runs (HO := Sample.host) n
                              Sample.gentoo_world) ([] ++ ["eth1"])).
  { constructor; [|constructor]. split; [by split|].
    right. split_and!; vm_compute; reflexivity. }
  assert (H7 : waitpid_status (restart_command "eth1") ≠ 0%Z)
    by (vm_compute; discriminate).
  split_and!; [exact H1|exact H2|exact H3|exact H4|exact H5|exact H6
              |exact H7|].
  exact (restart_failure_aborts (RT := Sample.runtime) (HO := Sample.host)
           "myhost" Sample.interfaces Sample.gentoo_world
           [] "eth1" ["eth0"] H1 H2 H3 H4 H5 H6 H7).
Defined.

(** X17: when the flush of an interface can be started and exits
    non-zero, after the turns of the interfaces before it ran and
    succeeded, the loop ends before the restart of that interface: the
    flush is the last command spawned.  What is returned depends on the
    turn: in the first turn the loop raises, in a later one it reports
    status zero. *)
Lemma flush_failure_outcome `{RT : PyRuntime} `{HO : Host} `{SY : System}
    (hostname : string) (interfaces : gmap string Interface) (w : World)
    (pre : list string) (ifname : string) (post : list string) :
  (os_path_isfile "/sbin/rc" w = true → netmasks_valid interfaces) →
  sethostname_error hostname = None →
  set_iter (dom interfaces) = pre ++ ifname :: post →
  Forall turn_ok pre →
  Forall (λ n, turn_runs n w) pre →
  is_system_command "ip" = true →
  popen_error (flush_command ifname) = None →
  waitpid_status (flush_command ifname) ≠ 0%Z →
  ∃ w',
    configure_network hostname interfaces w =
      (match pre with
       | [] => Py.Raise (Py.UnboundLocalError "status")
       | _ :: _ =>
           Py.Ok (500%Z, "Couldn't flush network " +:+ ifname +:+ ": 0")
       end, w') ∧
    spawned w' =
      spawned w ++ concat (map turn_commands pre) ++ [flush_command ifname].
Proof.
  intros Hvalid Hset Horder Hpre Hruns Hip Hpopen Hflush.
  destruct (render_net_file_ok interfaces w Hvalid) as [data Hrender].
  destruct (configure_network_reaches_loop hostname interfaces w data _
              Hrender Hset) as (w0 & Hrun & _ & _ & Hs0 & _ & Hg0).
  assert (Hnd : NoDup (pre ++ ifname :: post)).
  { rewrite <- Horder, set_iter_perm. apply NoDup_elements. }
  apply NoDup_app in Hnd as (Hndpre & _ & _).
  destruct (restart_turns_ok pre (ifname :: post) None w w0 [])
    as (w1 & st1 & Hturns & Hst & _ & _ & Hs1 & _).
  { done. }
  { done. }
  { intros n _ ?%elem_of_nil. done. }
  { by apply Forall_and. }
  eexists. split.
  - rewrite Hrun, Horder, Hturns. cbn [restart_network].
    rewrite (flush_turn_fails ifname st1 w1 Hip Hpopen Hflush).
    destruct Hst as [[-> ->]|[-> Hne]]; [done|]. by destruct pre.
  - cbn [spawned]. rewrite Hs1, Hs0. by rewrite <- (assoc_L (++)).
Qed.

(** C2: the flush of eth0 exits with status 2 (status word 512, or the
    word 2 itself) and the ip command is there.  With eth0 alone,
    [configure_network] raises [UnboundLocalError] instead of returning
    500 with the status; with eth1 walked before it, it returns 500 but
    reports status 0.  In both cases the flush of eth0 is the last
    command spawned: no restart of eth0 and no later interface. *)
Theorem flush_failure_status_lost :
  let run status interfaces :=
    configure_network (RT := Sample.runtime) (HO := Sample.host)
      (SY := Sample.system (flush_command "eth0") status)
      "myhost" interfaces Sample.gentoo_world in
  (run 512%Z {[ "eth0" := Sample.eth0 ]}).1
    = Py.Raise (Py.UnboundLocalError "status") ∧
  (run 2%Z {[ "eth0" := Sample.eth0 ]}).1
    = Py.Raise (Py.UnboundLocalError "status") ∧
  spawned (run 512%Z {[ "eth0" := Sample.eth0 ]}).2
    = [flush_command "eth0"] ∧
  (run 512%Z Sample.interfaces).1
    = Py.Ok (500%Z, "Couldn't flush network eth0: 0") ∧
  spawned (run 512%Z Sample.interfaces).2
    = [flush_command "eth1"; restart_command "eth1"; flush_command "eth0"].
Proof. split_and!; vm_compute; reflexivity. Qed.

(** * Further properties of the module *)

(** ** When the OpenRC rendering returns *)

Lemma comprehension_Ok_iff {A B} (f : A → Py.result B) (l : list A) :
  (∃ ys, Py.comprehension f l = Py.Ok ys) ↔
  Forall (λ x, ∃ y, f x = Py.Ok y) l.
Proof.
  split; [|apply comprehension_total].
  intros [ys Hys%comprehension_Forall2].
  induction Hys as [|x y l ys Hxy _ IH]; constructor; [by eexists|done].
Qed.

(** A comprehension raises what one of its elements raises. *)
Lemma comprehension_Raise {A B} (f : A → Py.result B) (l : list A)
    (e : Py.exn) :
  Py.comprehension f l = Py.Raise e → ∃ x, x ∈ l ∧ f x = Py.Raise e.
Proof.
  induction l as [|x l IH]; cbn; [done|].
  destruct (f x) as [y|e'] eqn:Hfx; cbn.
  - destruct (Py.comprehension f l) as [ys|e'']; cbn; [done|].
    intros [= <-]. destruct (IH eq_refl) as (x' & Hin & Hx').
    exists x'. split; [by right|done].
  - intros [= <-]. exists x. split; [by left|done].
Qed.

Lemma getitem_Ok_iff {V} (d : gmap string V) (key : string) :
  (∃ v, Py.getitem d key = Py.Ok v) ↔ is_Some (d !! key).
Proof.
  unfold Py.getitem. destruct (d !! key) as [v|].
  - split; by eexists.
  - split; [by intros [? ?]|by intros [? ?]].
Qed.

Lemma openrc_ip4_line_Ok_iff `{HO : Host} (ip : Ip4) :
  (∃ y, openrc_ip4_line ip = Py.Ok y) ↔
  is_Some (NETMASK_TO_PREFIXLEN !! ip4_netmask ip).
Proof.
  rewrite <- getitem_Ok_iff. unfold openrc_ip4_line.
  destruct (Py.getitem _ _) as [v|e]; cbn.
  - split; by eexists.
  - split; by intros [? ?].
Qed.

Lemma openrc_route_line_Ok_iff `{HO : Host} (route : Route) :
  (∃ y, openrc_route_line route = Py.Ok y) ↔
  is_Some (NETMASK_TO_PREFIXLEN !! netmask route).
Proof.
  rewrite <- getitem_Ok_iff. unfold openrc_route_line.
  destruct (Py.getitem _ _) as [v|e]; cbn.
  - split; by eexists.
  - split; by intros [? ?].
Qed.

Lemma openrc_interface_Ok_iff `{HO : Host} (name : string)
    (interface : Interface) :
  (∃ block, openrc_interface name interface = Py.Ok block) ↔
  interface_renders interface.
Proof.
  unfold interface_renders.
  rewrite <- (Forall_iff _ _ _ openrc_ip4_line_Ok_iff).
  rewrite <- (Forall_iff _ _ _ openrc_route_line_Ok_iff).
  rewrite <- !comprehension_Ok_iff.
  unfold openrc_interface, openrc_config_block, openrc_routes_block,
    openrc_routes.
  destruct (Py.comprehension openrc_ip4_line _) as [ip4|e]; cbn [Py.bind].
  - destruct (Py.comprehension openrc_route_line _) as [rts|e];
      cbn [Py.bind].
    + split; [intros _; split; by eexists|intros _; by eexists].
    + split; [by intros [? ?]|by intros [_ [? ?]]].
  - split; [by intros [? ?]|by intros [[? ?] _]].
Qed.

(** X1: the OpenRC rendering returns exactly when the table has the
    netmask of every IPv4 address and of every route that passes the
    filter; the netmask of a route that is filtered out is never looked
    up, and IPv6 addresses need no table. *)
Theorem openrc_returns_iff `{RT : PyRuntime} `{HO : Host}
    (now : string) (interfaces : gmap string Interface) :
  (∃ text, _confd_net_file now interfaces = Py.Ok (text, dom interfaces)) ↔
  map_Forall (λ _ interface, interface_renders interface) interfaces.
Proof.
  assert (Hitems :
    (∃ blocks, Py.comprehension (λ item, openrc_interface item.1 item.2)
                 (iteritems interfaces) = Py.Ok blocks) ↔
    map_Forall (λ _ interface, interface_renders interface) interfaces).
  { rewrite comprehension_Ok_iff, Forall_forall, map_Forall_lookup.
    split.
    - intros Hall n i Hni%iteritems_elem_of.
      by apply (openrc_interface_Ok_iff n), (Hall (n, i)).
    - intros Hall [n i] Hni%iteritems_elem_of.
      by apply (openrc_interface_Ok_iff n), (Hall n). }
  rewrite <- Hitems.
  unfold _confd_net_file, _confd_net_file_lines.
  rewrite openrc_loop_blocks.
  destruct (Py.comprehension _ _) as [blocks|e]; cbn [Py.bind].
  - split; intros _; [by eexists|].
    rewrite iteritems_keys, (right_id_L ∅ (∪)). by eexists.
  - split; by intros [? ?].
Qed.

Lemma openrc_returns_iff_witness :
  (∃ text,
     _confd_net_file (RT := Sample.runtime) (HO := Sample.host) "2011-06-01"
       Sample.only_eth3 = Py.Ok (text, dom Sample.only_eth3)) ∧
  ¬ map_Forall (λ _ interface,
                  interface_renders (HO := Sample.host) interface)
      Sample.only_eth2.
Proof.
  split.
  - apply (openrc_returns_iff (RT := Sample.runtime) (HO := Sample.host)).
    apply map_Forall_singleton. split; [constructor|].
    vm_compute. constructor.
  - intros Hall.
    apply (openrc_returns_iff (RT := Sample.runtime) (HO := Sample.host)
             "2011-06-01") in Hall as [text Htext].
    vm_compute in Htext. discriminate Htext.
Defined.

(** What one turn of the OpenRC loop can raise. *)
Lemma openrc_interface_Raise `{HO : Host} (name : string)
    (interface : Interface) (e : Py.exn) :
  openrc_interface name interface = Py.Raise e →
  ∃ key,
    e = Py.KeyError key ∧ NETMASK_TO_PREFIXLEN !! key = None ∧
    (key ∈ map ip4_netmask (ip4s interface) ∨
     key ∈ map netmask
           (filter (λ route, route_listed interface route = true)
                   (routes interface))).
Proof.
  intros Hraise.
  assert (Hget : ∀ key v, Py.getitem NETMASK_TO_PREFIXLEN key = Py.Raise v →
                          v = Py.KeyError key ∧
                          NETMASK_TO_PREFIXLEN !! key = None).
  { intros key v. unfold Py.getitem.
    destruct (NETMASK_TO_PREFIXLEN !! key); [done|]. by intros [= <-]. }
  unfold openrc_interface, openrc_config_block, openrc_routes_block,
    openrc_routes in Hraise.
  destruct (Py.comprehension openrc_ip4_line _) as [ip4|e'] eqn:Hip4;
    cbn [Py.bind] in Hraise.
  - destruct (Py.comprehension openrc_route_line _) as [rts|e''] eqn:Hrts;
      cbn [Py.bind] in Hraise; [done|].
    injection Hraise as ->.
    apply comprehension_Raise in Hrts as (route & Hin & Hline).
    unfold openrc_route_line in Hline.
    destruct (Py.getitem _ _) as [v|e'] eqn:Hkey; cbn [Py.bind] in Hline;
      [done|].
    injection Hline as ->. apply Hget in Hkey as [-> Hnone].
    exists (netmask route). split_and!; [done..|].
    right. apply list_elem_of_fmap. by exists route.
  - injection Hraise as ->.
    apply comprehension_Raise in Hip4 as (ip & Hin & Hline).
    unfold openrc_ip4_line in Hline.
    destruct (Py.getitem _ _) as [v|e''] eqn:Hkey; cbn [Py.bind] in Hline;
      [done|].
    injection Hline as ->. apply Hget in Hkey as [-> Hnone].
    exists (ip4_netmask ip). split_and!; [done..|].
    left. apply list_elem_of_fmap. by exists ip.
Qed.

(** X2: when the OpenRC rendering raises, it raises [KeyError] with a
    netmask that the table lacks, and that netmask is the one of an IPv4
    address or of a route that passes the filter, on some interface of
    the mapping. *)
Theorem openrc_raises_keyerror `{RT : PyRuntime} `{HO : Host}
    (now : string) (interfaces : gmap string Interface) (e : Py.exn) :
  _confd_net_file now interfaces = Py.Raise e →
  ∃ name interface key,
    interfaces !! name = Some interface ∧
    e = Py.KeyError key ∧
    NETMASK_TO_PREFIXLEN !! key = None ∧
    (key ∈ map ip4_netmask (ip4s interface) ∨
     key ∈ map netmask
           (filter (λ route, route_listed interface route = true)
                   (routes interface))).
Proof.
  unfold _confd_net_file, _confd_net_file_lines.
  rewrite openrc_loop_blocks.
  destruct (Py.comprehension _ _) as [blocks|e'] eqn:Hblocks;
    cbn [Py.bind]; [done|].
  intros [= ->].
  apply comprehension_Raise in Hblocks as ([n i] & Hni & Hraise).
  apply iteritems_elem_of in Hni. cbn [fst snd] in Hraise.
  apply openrc_interface_Raise in Hraise as (key & -> & Hnone & Hkey).
  by exists n, i, key.
Qed.

Lemma openrc_raises_keyerror_witness :
  _confd_net_file (RT := Sample.runtime) (HO := Sample.host) "2011-06-01"
    Sample.only_eth2 = Py.Raise (Py.KeyError "255.255.255.128") ∧
  ∃ name interface key,
    Sample.only_eth2 !! name = Some interface ∧
    Py.KeyError "255.255.255.128" = Py.KeyError key ∧
    NETMASK_TO_PREFIXLEN (Host := Sample.host) !! key = None ∧
    (key ∈ map ip4_netmask (ip4s interface) ∨
     key ∈ map netmask
           (filter (λ route, route_listed interface route = true)
                   (routes interface))).
Proof.
  assert (Hraise :
    _confd_net_file (RT := Sample.runtime) (HO := Sample.host) "2011-06-01"
      Sample.only_eth2 = Py.Raise (Py.KeyError "255.255.255.128"))
    by (vm_compute; reflexivity).
  split; [exact Hraise|].
  exact (openrc_raises_keyerror (RT := Sample.runtime) (HO := Sample.host)
           "2011-06-01" Sample.only_eth2 _ Hraise).
Defined.

Lemma iteritems_empty `{RT : PyRuntime} {V} :
  iteritems (∅ : gmap string V) = [].
Proof.
  apply Permutation_nil_r. by rewrite (iteritems_perm V), map_to_list_empty.
Qed.

(** X3: for a mapping without interfaces both dialects return the same
    text, the header and the modules line with the blank lines around
    it, and the empty set of names. *)
Theorem render_empty_mapping `{RT : PyRuntime} `{HO : Host} (now : string) :
  _confd_net_file now ∅ = Py.Ok (Py.join Py.nl (preamble now), ∅) ∧
  _confd_net_file_legacy now ∅ = (Py.join Py.nl (preamble now), ∅).
Proof.
  unfold _confd_net_file, _confd_net_file_lines, _confd_net_file_legacy,
    _confd_net_file_legacy_lines.
  by rewrite iteritems_empty.
Qed.

(** ** Writing the hostname file and reading it back *)

Lemma dot_run_no_newline (s : string) :
  Re.dot_run s = s ↔ mentions "010" s = false.
Proof.
  induction s as [|c s IH]; [done|]. cbn [Re.dot_run mentions].
  rewrite (Ascii.eqb_sym "010" c).
  destruct (Ascii.eqb c "010"); cbn [orb]; [done|].
  rewrite <- IH. split; [by intros [= ?]|by intros ->].
Qed.

Lemma search_unfold (s : string) :
  Re.search s =
    match Re.match_here s with
    | Some v => Some v
    | None =>
        match s with
        | EmptyString => None
        | String _ s' => Re.search s'
        end
    end.
Proof. by destruct s. Qed.

Lemma strip_prefix_mentions (c : ascii) (p s rest : string) :
  mentions c p = true → Re.strip_prefix p s = Some rest →
  mentions c s = true.
Proof.
  intros Hp Hs%strip_prefix_Some. subst s.
  by rewrite mentions_append, Hp.
Qed.

(** A line without a double quote does not match the pattern. *)
Lemma search_no_quote (s : string) :
  mentions "034" s = false → Re.search s = None.
Proof.
  induction s as [|c s IH]; intros Hs; rewrite search_unfold.
  - done.
  - assert (Hhere : Re.match_here (String c s) = None).
    { unfold Re.match_here.
      destruct (Re.strip_prefix _ _) as [rest|] eqn:Hp; [|done].
      apply (strip_prefix_mentions "034") in Hp; [congruence|done]. }
    rewrite Hhere. apply IH. cbn [mentions] in Hs.
    by apply orb_false_iff in Hs as [_ ?].
Qed.

Lemma before_last_quote_end (v : string) :
  Re.before_last_quote (v +:+ Py.dq) = Some v.
Proof.
  induction v as [|c v IH]; [done|].
  rewrite append_cons. cbn [Re.before_last_quote]. by rewrite IH.
Qed.

(** The hostname line gives back what is between its first and its last
    double quote, double quotes included. *)
Lemma search_hostname_line (h : string) :
  mentions "010" h = false →
  Re.search ("HOSTNAME=" +:+ Py.dq +:+ h +:+ Py.dq) = Some h.
Proof.
  intros Hh%dot_run_no_newline. rewrite search_unfold.
  unfold Re.match_here.
  rewrite <- (append_assoc "HOSTNAME=" Py.dq), strip_prefix_append.
  rewrite (dot_run_append h _ Hh).
  change (Re.dot_run Py.dq) with Py.dq.
  by rewrite before_last_quote_end.
Qed.

Lemma readlines_nil (s : string) : Py.readlines s = [] → s = EmptyString.
Proof.
  destruct s as [|c s]; [done|]. cbn [Py.readlines].
  destruct (Ascii.eqb c "010"); [done|].
  by destruct (Py.readlines s).
Qed.

(** The lines of a text that ends a line, followed by more text. *)
Lemma readlines_append (a b : string) :
  Py.readlines ((a +:+ Py.nl) +:+ b) =
    Py.readlines (a +:+ Py.nl) ++ Py.readlines b.
Proof.
  induction a as [|c a IH]; [done|].
  rewrite !append_cons. cbn [Py.readlines].
  destruct (Ascii.eqb c "010"); [by rewrite IH|].
  rewrite IH.
  destruct (Py.readlines (a +:+ Py.nl)) as [|l ls] eqn:Hl; [|done].
  apply readlines_nil in Hl. by destruct a.
Qed.

Lemma readlines_single (s : string) :
  s ≠ EmptyString → mentions "010" s = false → Py.readlines s = [s].
Proof.
  induction s as [|c s IH]; [done|]. intros _ Hs.
  cbn [mentions] in Hs. apply orb_false_iff in Hs as [Hc Hs].
  cbn [Py.readlines]. rewrite (Ascii.eqb_sym c "010"), Hc.
  destruct s as [|c' s]; [done|]. by rewrite IH.
Qed.

Lemma readlines_mentions (c : ascii) (s : string) :
  mentions c s = false → Forall (λ l, mentions c l = false) (Py.readlines s).
Proof.
  induction s as [|c' s IH]; [by constructor|]. intros Hs.
  cbn [mentions] in Hs. apply orb_false_iff in Hs as [Hc Hs].
  specialize (IH Hs). cbn [Py.readlines].
  destruct (Ascii.eqb c' "010").
  - constructor; [|done]. cbn [mentions]. by rewrite Hc.
  - destruct (Py.readlines s) as [|l ls].
    + constructor; [|done]. cbn [mentions]. by rewrite Hc.
    + apply Forall_cons in IH as [Hl Hls]. constructor; [|done].
      cbn [mentions]. by rewrite Hc, Hl.
Qed.

Lemma first_hostname_app (before after : list string) :
  Forall (λ l, Re.search l = None) before →
  first_hostname (before ++ after) = first_hostname after.
Proof.
  induction 1 as [|l before Hl _ IH]; [done|].
  cbn [app first_hostname]. by rewrite Hl.
Qed.

(** The text of [get_hostname_file] read line by line: lines without a
    double quote, then the hostname line. *)
Lemma get_hostname_file_lines `{HO : Host} (now h : string) :
  mentions "034" now = false → mentions "034" argv0 = false →
  mentions "010" h = false →
  ∃ before,
    Py.readlines (get_hostname_file now h) =
      before ++ ["HOSTNAME=" +:+ Py.dq +:+ h +:+ Py.dq] ∧
    Forall (λ l, mentions "034" l = false) before.
Proof.
  intros Hnow Hargv Hh.
  exists (Py.readlines (("# Set to the hostname of this machine" +:+ Py.nl
                           +:+ _header now) +:+ Py.nl)).
  split.
  - unfold get_hostname_file, Py.join. cbn [app String.concat].
    rewrite <- (readlines_single ("HOSTNAME=" +:+ Py.dq +:+ h +:+ Py.dq)).
    + rewrite <- readlines_append. f_equal. by rewrite !append_assoc.
    + done.
    + by rewrite !mentions_append, Hh.
  - apply readlines_mentions. unfold _header.
    by rewrite !mentions_append, Hnow, Hargv.
Qed.

(** X4: the hostname file written for [h] reads back as [h], whenever
    [h] has no newline and neither the timestamp nor the program name
    in the header has a double quote; double quotes inside [h] do not
    matter. *)
Theorem hostname_round_trip `{HO : Host} `{SY : System}
    (now h : string) (w : World) :
  open_error HOSTNAME_FILE = None →
  files w !! HOSTNAME_FILE = Some (get_hostname_file now h) →
  mentions "034" now = false → mentions "034" argv0 = false →
  mentions "010" h = false →
  get_hostname w = Some h.
Proof.
  intros Hopen Hfile Hnow Hargv Hh.
  unfold get_hostname, open_readlines. rewrite Hopen, Hfile.
  destruct (get_hostname_file_lines now h Hnow Hargv Hh)
    as (before & -> & Hbefore).
  rewrite first_hostname_app.
  - cbn [first_hostname]. by rewrite search_hostname_line.
  - eapply Forall_impl; [exact Hbefore|]. apply search_no_quote.
Qed.

Lemma hostname_round_trip_witness :
  let h := "web" +:+ Py.dq +:+ "01" in
  let w := Sample.hostname_world
             (get_hostname_file (HO := Sample.host) "2011-06-01" h) in
  open_error (System := Sample.system [] 0) HOSTNAME_FILE = None ∧
  files w !! HOSTNAME_FILE
    = Some (get_hostname_file (HO := Sample.host) "2011-06-01" h) ∧
  mentions "034" "2011-06-01" = false ∧
  mentions "034" (argv0 (Host := Sample.host)) = false ∧
  mentions "010" h = false ∧
  get_hostname (SY := Sample.system [] 0) w = Some h.
Proof.
  intros h w.
  assert (H1 : open_error (System := Sample.system [] 0) HOSTNAME_FILE = None)
    by reflexivity.
  assert (H2 : files w !! HOSTNAME_FILE
               = Some (get_hostname_file (HO := Sample.host) "2011-06-01" h))
    by (vm_compute; reflexivity).
  assert (H3 : mentions "034" "2011-06-01" = false) by reflexivity.
  assert (H4 : mentions "034" (argv0 (Host := Sample.host)) = false)
    by reflexivity.
  assert (H5 : mentions "010" h = false) by reflexivity.
  split_and!; [exact H1|exact H2|exact H3|exact H4|exact H5|].
  exact (hostname_round_trip (HO := Sample.host)
           (SY := Sample.system [] 0) "2011-06-01" h w H1 H2 H3 H4 H5).
Defined.

Lemma Contains_cons (c : ascii) (sub text : string) :
  Contains sub text → Contains sub (String c text).
Proof. intros (a & b & ->). by exists (String c a), b. Qed.






(** A piece of text without a newline lies within one line. *)
Lemma readlines_head_of_line (x after : string) :
  x ≠ EmptyString → mentions "010" x = false →
  ∃ l ls rest, Py.readlines (x +:+ after) = l :: ls ∧ l = x +:+ rest.
Proof.
  induction x as [|c x IH]; [done|]. intros _ Hx.
  cbn [mentions] in Hx. apply orb_false_iff in Hx as [Hc Hx].
  rewrite append_cons. cbn [Py.readlines].
  rewrite (Ascii.eqb_sym c "010"), Hc.
  destruct x as [|c' x].
  - rewrite append_nil_l.
    destruct (Py.readlines after) as [|l ls]; by eexists _, _, _.
  - destruct (IH ltac:(done) Hx) as (l & ls & rest & -> & ->).
    by eexists _, _, _.
Qed.

Lemma readlines_line_of (x s : string) :
  x ≠ EmptyString → mentions "010" x = false → Contains x s →
  ∃ line, line ∈ Py.readlines s ∧ Contains x line.
Proof.
  intros Hne Hx (before & after & ->).
  induction before as [|c before (line & Hin & Hline)].
  - rewrite append_nil_l.
    destruct (readlines_head_of_line x after Hne Hx)
      as (l & ls & rest & -> & ->).
    exists (x +:+ rest). split; [by left|]. by exists EmptyString, rest.
  - rewrite append_cons. cbn [Py.readlines].
    destruct (Ascii.eqb c "010"); [exists line; split; [by right|done]|].
    destruct (Py.readlines _) as [|l ls]; [by apply elem_of_nil in Hin|].
    apply elem_of_cons in Hin as [->|Hin].
    + exists (String c l). split; [by left|by apply Contains_cons].
    + exists line. split; [by right|done].
Qed.

Lemma first_hostname_is_Some (lines : list string) (line : string) :
  line ∈ lines → is_Some (Re.search line) → is_Some (first_hostname lines).
Proof.
  intros Hin Hline. induction Hin as [line lines|line l lines _ IH];
    cbn [first_hostname].
  - destruct Hline as [v ->]. by eexists.
  - destruct (Re.search l); [by eexists|by apply IH].
Qed.

(** X6: [get_hostname] finds a hostname whenever the file can be read
    and the pattern occurs in it with nothing but a line's characters
    between the two double quotes. *)
Theorem get_hostname_complete `{SY : System} (w : World) (text v : string) :
  open_error HOSTNAME_FILE = None →
  files w !! HOSTNAME_FILE = Some text →
  mentions "010" v = false →
  Contains ("HOSTNAME=" +:+ Py.dq +:+ v +:+ Py.dq) text →
  is_Some (get_hostname w).
Proof.
  intros Hopen Hfile Hv Htext.
  unfold get_hostname, open_readlines. rewrite Hopen, Hfile.
  apply readlines_line_of in Htext as (line & Hin & (a & b & ->)).
  - apply (first_hostname_is_Some _ _ Hin).
    rewrite !append_assoc, <- (append_assoc "HOSTNAME=" Py.dq).
    apply search_complete. by apply dot_run_no_newline.
  - done.
  - by rewrite !mentions_append, Hv.
Qed.

Lemma get_hostname_complete_witness :
  let text := "# managed" +:+ Py.nl +:+ "export HOSTNAME=" +:+ Py.dq
                +:+ "gentoo" +:+ Py.dq +:+ " # set" +:+ Py.nl in
  open_error (System := Sample.system [] 0) HOSTNAME_FILE = None ∧
  files (Sample.hostname_world text) !! HOSTNAME_FILE = Some text ∧
  mentions "010" "gentoo" = false ∧
  Contains ("HOSTNAME=" +:+ Py.dq +:+ "gentoo" +:+ Py.dq) text ∧
  is_Some (get_hostname (SY := Sample.system [] 0)
             (Sample.hostname_world text)).
Proof.
  intros text.
  assert (H1 : open_error (System := Sample.system [] 0) HOSTNAME_FILE = None)
    by reflexivity.
  assert (H2 : files (Sample.hostname_world text) !! HOSTNAME_FILE = Some text)
    by (vm_compute; reflexivity).
  assert (H3 : mentions "010" "gentoo" = false) by reflexivity.
  assert (H4 : Contains ("HOSTNAME=" +:+ Py.dq +:+ "gentoo" +:+ Py.dq) text)
    by (exists ("# managed" +:+ Py.nl +:+ "export "), (" # set" +:+ Py.nl);
        reflexivity).
  split_and!; [exact H1|exact H2|exact H3|exact H4|].
  exact (get_hostname_complete (SY := Sample.system [] 0)
           (Sample.hostname_world text) text "gentoo" H1 H2 H3 H4).
Defined.

(** The OpenRC rendering either returns, with the names of the mapping,
    or raises [KeyError] for a netmask the table lacks. *)
Lemma confd_net_file_cases `{RT : PyRuntime} `{HO : Host}
    (now : string) (interfaces : gmap string Interface) :
  (map_Forall (λ _ interface, interface_renders interface) interfaces ∧
   ∃ text, _confd_net_file now interfaces = Py.Ok (text, dom interfaces))
  ∨
  (¬ map_Forall (λ _ interface, interface_renders interface) interfaces ∧
   ∃ key, _confd_net_file now interfaces = Py.Raise (Py.KeyError key) ∧
          NETMASK_TO_PREFIXLEN !! key = None).
Proof.
  unfold _confd_net_file, _confd_net_file_lines.
  rewrite openrc_loop_blocks.
  destruct (Py.comprehension _ _) as [blocks|e] eqn:Hblocks; cbn [Py.bind].
  - left. split.
    + apply comprehension_Forall2 in Hblocks.
      apply map_Forall_lookup. intros n i Hni%iteritems_elem_of.
      apply list_elem_of_lookup in Hni as [k Hk].
      destruct (Forall2_lookup_l _ _ _ _ _ Hblocks Hk) as (b & _ & Hb).
      apply (openrc_interface_Ok_iff n). by exists b.
    + rewrite iteritems_keys, (right_id_L ∅ (∪)). by eexists.
  - right.
    apply comprehension_Raise in Hblocks as ([n i] & Hni & Hraise).
    apply iteritems_elem_of in Hni. cbn [fst snd] in Hraise.
    split.
    + intros Hall. rewrite map_Forall_lookup in Hall.
      specialize (Hall n i Hni).
      apply (openrc_interface_Ok_iff n) in Hall as [b Hb]. congruence.
    + apply openrc_interface_Raise in Hraise as (key & -> & Hnone & _).
      by exists key.
Qed.

(** ** The outcomes of the apply operation *)

Section Outcomes.
Context `{RT : PyRuntime} `{HO : Host} `{SY : System}.

(** The two ways [configure_network] can go before the restart loop. *)
Lemma configure_network_cases (hostname : string)
    (interfaces : gmap string Interface) (w : World) :
  (os_path_isfile "/sbin/rc" w = true ∧
   ¬ map_Forall (λ _ interface, interface_renders interface) interfaces ∧
   ∃ key, NETMASK_TO_PREFIXLEN !! key = None ∧
          configure_network hostname interfaces w
          = (Py.Raise (Py.KeyError key), w))
  ∨
  ((os_path_isfile "/sbin/rc" w = true →
    map_Forall (λ _ interface, interface_renders interface) interfaces) ∧
   ∃ data,
     render_net_file interfaces w = Py.Ok (data, dom interfaces) ∧
     ((∃ msg, sethostname_error hostname = Some msg ∧
              configure_network hostname interfaces w =
                (Py.Ok (500%Z, "Couldn't set hostname: " +:+ msg),
                 update_files (generated_files hostname interfaces data) w))
      ∨
      (sethostname_error hostname = None ∧
       configure_network hostname interfaces w =
         restart_network (set_iter (dom interfaces)) None
           {| files := generated_files hostname interfaces data ∪ files w;
              links := links w;
              live_hostname := Some hostname;
              spawned := spawned w |}))).
Proof.
  unfold configure_network, render_net_file, sethostname.
  destruct (os_path_isfile "/sbin/rc" w).
  - destruct (confd_net_file_cases (datetime_now 0) interfaces)
      as [[Hall [text ->]]|[Hnot (key & -> & Hnone)]].
    + right. split; [done|]. exists text. split; [done|].
      destruct (sethostname_error hostname) as [msg|];
        [left; by exists msg|by right].
    + left. split_and!; [done|done|]. by exists key.
  - right. split; [done|].
    unfold _confd_net_file_legacy.
    rewrite confd_net_file_legacy_lines_blocks. cbn [fst snd].
    eexists. split; [done|].
    destruct (sethostname_error hostname) as [msg|];
      [left; by exists msg|by right].
Qed.

Lemma set_iter_Forall (P : string → Prop) (s : gset string) :
  Forall P (set_iter s) ↔ ∀ n, n ∈ s → P n.
Proof.
  rewrite Forall_forall. split; intros Hall n Hn; apply Hall.
  - by rewrite set_iter_perm, elem_of_elements.
  - by rewrite set_iter_perm, elem_of_elements in Hn.
Qed.

Lemma set_iter_elem_of (s : gset string) (n : string) :
  n ∈ set_iter s ↔ n ∈ s.
Proof. by rewrite set_iter_perm, elem_of_elements. Qed.

(** When everything can run and succeeds, [configure_network] goes
    through the whole loop. *)
Lemma configure_network_runs_through (hostname : string)
    (interfaces : gmap string Interface) (w : World) :
  (os_path_isfile "/sbin/rc" w = true →
   map_Forall (λ _ interface, interface_renders interface) interfaces) →
  sethostname_error hostname = None →
  (∀ n, n ∈ dom interfaces → turn_ok n) →
  (∀ n, n ∈ dom interfaces → turn_runs n w) →
  ∃ data w',
    render_net_file interfaces w = Py.Ok (data, dom interfaces) ∧
    configure_network hostname interfaces w
      = (Py.Ok (0%Z, EmptyString), w') ∧
    files w' = generated_files hostname interfaces data ∪ files w ∧
    live_hostname w' = Some hostname ∧
    spawned w' =
      spawned w ++ concat (map turn_commands (set_iter (dom interfaces))) ∧
    (∀ n, n ∈ dom interfaces → os_path_exists (script_path n) w' = true).
Proof.
  intros Hrender Hset Hturns Hruns.
  destruct (configure_network_cases hostname interfaces w)
    as [(Hrc & Hnot & _)
       |(_ & data & Hdata & [(msg & Hset' & _)|(_ & Hrun)])].
  - destruct Hnot. by apply Hrender.
  - congruence.
  - set (w0 := {| files := generated_files hostname interfaces data
                           ∪ files w;
                  links := links w; live_hostname := Some hostname;
                  spawned := spawned w |}) in *.
    destruct (restart_turns_ok (set_iter (dom interfaces)) [] None w w0 [])
      as (w1 & st1 & Hloop & _ & Hf & Hh & Hs & _ & _ & Hscripts).
    { split_and!; cbn [files links w0].
      - rewrite dom_union. set_solver.
      - done.
      - intros p t ?. by left. }
    { rewrite set_iter_perm. apply NoDup_elements. }
    { intros n _ ?%elem_of_nil. done. }
    { apply set_iter_Forall. intros n Hn. split; auto. }
    rewrite app_nil_r in Hloop. cbn [restart_network] in Hloop.
    exists data, w1. split_and!; [done|by rewrite Hrun|done..|].
    intros n Hn. by apply Hscripts, set_iter_elem_of.
Qed.

(** X7: where the init script of every interface of the mapping is
    there or can be linked, [configure_network] returns the pair of 0
    and the empty message exactly when the rendering returns (which for
    the OpenRC dialect asks the table for the netmasks it looks up),
    [sethostname] does not raise, and for every interface of the mapping
    the commands of its turn can be started and exit with zero. *)
Theorem configure_network_success_iff (hostname : string)
    (interfaces : gmap string Interface) (w : World) :
  (∀ n, n ∈ dom interfaces → script_ready n w) →
  (configure_network hostname interfaces w).1 = Py.Ok (0%Z, EmptyString) ↔
  (os_path_isfile "/sbin/rc" w = true →
   map_Forall (λ _ interface, interface_renders interface) interfaces) ∧
  sethostname_error hostname = None ∧
  (∀ n, n ∈ dom interfaces → turn_ok n ∧ turn_spawns n).
Proof.
  intros Hready. split.
  - destruct (configure_network_cases hostname interfaces w)
      as [(Hrc & Hnot & key & _ & ->)
         |(Hall & data & _ & [(msg & Hset & ->)|(Hset & ->)])];
      cbn [fst]; [done|done|].
    destruct (restart_network_run (set_iter (dom interfaces)) None
                {| files := generated_files hostname interfaces data
                            ∪ files w;
                   links := links w; live_hostname := Some hostname;
                   spawned := spawned w |})
      as (r & w' & cmds & -> & _ & _ & _ & _ & _ & _ & _ & Hcase).
    cbn [fst].
    destruct Hcase as [(-> & Hok & _)|[->|[(msg & -> & _)|(msg & ->)]]];
      [|done..].
    intros _. split_and!; [done|done|]. by apply set_iter_Forall.
  - intros (Hrender & Hset & Hturns).
    destruct (configure_network_runs_through hostname interfaces w)
      as (data & w' & _ & -> & _); try done.
    + intros n Hn. by apply Hturns.
    + intros n Hn. split; [by apply Hturns|by apply Hready].
Qed.

(** X8: when everything can run and succeeds, the files of the batch
    are written, the hostname is set, the commands spawned are the flush
    (where the ip command is there) and the restart of every interface,
    in the order the set is walked, and the init script of every
    interface leads to a file afterwards. *)
Theorem configure_network_success (hostname : string)
    (interfaces : gmap string Interface) (w : World) :
  (os_path_isfile "/sbin/rc" w = true →
   map_Forall (λ _ interface, interface_renders interface) interfaces) →
  sethostname_error hostname = None →
  (∀ n, n ∈ dom interfaces → turn_ok n) →
  (∀ n, n ∈ dom interfaces → turn_runs n w) →
  ∃ data w',
    render_net_file interfaces w = Py.Ok (data, dom interfaces) ∧
    configure_network hostname interfaces w
      = (Py.Ok (0%Z, EmptyString), w') ∧
    files w' = generated_files hostname interfaces data ∪ files w ∧
    live_hostname w' = Some hostname ∧
    spawned w' =
      spawned w ++ concat (map turn_commands (set_iter (dom interfaces))) ∧
    (∀ n, n ∈ dom interfaces → os_path_exists (script_path n) w' = true).
Proof. apply configure_network_runs_through. Qed.

(** X9: when [sethostname] raises, [configure_network] returns 500 with
    the message of the error; the files of the batch are written all
    the same, the hostname stays what it was, and no command is spawned
    and no link made. *)
Theorem sethostname_failure (hostname : string)
    (interfaces : gmap string Interface) (w : World) (msg : string) :
  (os_path_isfile "/sbin/rc" w = true →
   map_Forall (λ _ interface, interface_renders interface) interfaces) →
  sethostname_error hostname = Some msg →
  ∃ data w',
    render_net_file interfaces w = Py.Ok (data, dom interfaces) ∧
    configure_network hostname interfaces w
      = (Py.Ok (500%Z, "Couldn't set hostname: " +:+ msg), w') ∧
    files w' = generated_files hostname interfaces data ∪ files w ∧
    live_hostname w' = live_hostname w ∧
    spawned w' = spawned w ∧
    links w' = links w.
Proof.
  intros Hrender Hset.
  destruct (configure_network_cases hostname interfaces w)
    as [(Hrc & Hnot & _)
       |(_ & data & Hdata & [(msg' & Hset' & Hrun)|(Hset' & _)])].
  - destruct Hnot. by apply Hrender.
  - exists data, (update_files (generated_files hostname interfaces data) w).
    split_and!; [done| |done..]. rewrite Hrun. congruence.
  - congruence.
Qed.

(** X10: an exception that leaves [configure_network] is the
    [UnboundLocalError] of the restart loop, or a [KeyError] of the
    OpenRC rendering for a netmask the table lacks, or an [OSError] of
    the restart loop, where a link cannot be made or a command cannot be
    started; with the [KeyError] nothing has been written, set or
    spawned, and with the [OSError] the batch is written and the
    hostname set. *)
Theorem configure_network_exceptions (hostname : string)
    (interfaces : gmap string Interface) (w : World) (e : Py.exn) :
  (configure_network hostname interfaces w).1 = Py.Raise e →
  e = Py.UnboundLocalError "status" ∨
  (∃ key,
     e = Py.KeyError key ∧ NETMASK_TO_PREFIXLEN !! key = None ∧
     os_path_isfile "/sbin/rc" w = true ∧
     (configure_network hostname interfaces w).2 = w) ∨
  (∃ msg data,
     e = Py.OSError msg ∧
     render_net_file interfaces w = Py.Ok (data, dom interfaces) ∧
     files (configure_network hostname interfaces w).2
       = generated_files hostname interfaces data ∪ files w ∧
     live_hostname (configure_network hostname interfaces w).2
       = Some hostname).
Proof.
  destruct (configure_network_cases hostname interfaces w)
    as [(Hrc & _ & key & Hnone & ->)
       |(_ & data & Hdata & [(msg & _ & ->)|(_ & ->)])];
    cbn [fst snd].
  - intros [= <-]. right. left. by exists key.
  - done.
  - destruct (restart_network_run (set_iter (dom interfaces)) None
                {| files := generated_files hostname interfaces data
                            ∪ files w;
                   links := links w; live_hostname := Some hostname;
                   spawned := spawned w |})
      as (r & w' & cmds & -> & Hf & Hh & _ & _ & _ & _ & _ & Hcase).
    cbn [fst snd].
    destruct Hcase as [(-> & _)|[->|[(msg & -> & _)|(msg & ->)]]];
      [done| |done|].
    + intros [= <-]. by left.
    + intros [= <-]. right. right. by exists msg, data.
Qed.

(** X11: a pair that [configure_network] returns is 0 with the empty
    message, or 500 with a message that is not empty. *)
Theorem configure_network_codes (hostname : string)
    (interfaces : gmap string Interface) (w : World)
    (code : Z) (msg : string) :
  (configure_network hostname interfaces w).1 = Py.Ok (code, msg) →
  code = 0%Z ∧ msg = EmptyString ∨ code = 500%Z ∧ msg ≠ EmptyString.
Proof.
  destruct (configure_network_cases hostname interfaces w)
    as [(Hrc & _ & key & Hnone & ->)
       |(_ & data & _ & [(msg' & _ & ->)|(_ & ->)])];
    cbn [fst snd].
  - done.
  - intros [= <- <-]. right. split; [done|].
    intros Hmsg. vm_compute in Hmsg. discriminate Hmsg.
  - destruct (restart_network_run (set_iter (dom interfaces)) None
                {| files := generated_files hostname interfaces data
                            ∪ files w;
                   links := links w; live_hostname := Some hostname;
                   spawned := spawned w |})
      as (r & w' & cmds & -> & _ & _ & _ & _ & _ & _ & _ & Hcase).
    cbn [fst].
    destruct Hcase as [(-> & _)|[->|[(msg' & -> & Hne)|(msg' & ->)]]];
      [|done| |done].
    + intros [= <- <-]. by left.
    + intros [= <- <-]. by right.
Qed.

End Outcomes.

(** ** The batch of files *)

Section Batch.
Context `{RT : PyRuntime} `{HO : Host} `{SY : System}.

Lemma generated_files_dom (hostname : string)
    (interfaces : gmap string Interface) (data p : string) :
  p ∈ dom (generated_files hostname interfaces data) →
  p ∈ generated_paths hostname interfaces.
Proof.
  unfold generated_files, generated_paths.
  destruct (get_resolv_conf interfaces) as [rpath rdata].
  destruct (get_etc_hosts interfaces hostname) as [hpath hdata].
  cbn [fst]. destruct (Py.truthy rdata);
    rewrite ?dom_insert, dom_empty; set_solver.
Qed.

Lemma generated_files_hostname (hostname : string)
    (interfaces : gmap string Interface) (data : string) :
  (get_etc_hosts interfaces hostname).1 ≠ HOSTNAME_FILE →
  generated_files hostname interfaces data !! HOSTNAME_FILE
  = Some (get_hostname_file (datetime_now 1) hostname).
Proof.
  unfold generated_files.
  destruct (get_resolv_conf interfaces) as [rpath rdata].
  destruct (get_etc_hosts interfaces hostname) as [hpath hdata].
  cbn [fst]. intros Hh. rewrite lookup_insert_ne by done.
  by rewrite lookup_insert_eq.
Qed.

(** X12: of the batch of files, the hosts file is always there with
    its content; the hostname file is there unless the hosts file has
    its path; the net file is there unless the resolver file or the
    hosts file has its path; a resolver file without content is left
    out; and no path outside these four is in the batch. *)
Theorem generated_files_entries (hostname : string)
    (interfaces : gmap string Interface) (data : string) :
  let batch := generated_files hostname interfaces data in
  let resolv := get_resolv_conf interfaces in
  let hosts := get_etc_hosts interfaces hostname in
  batch !! hosts.1 = Some hosts.2 ∧
  (hosts.1 ≠ HOSTNAME_FILE →
   batch !! HOSTNAME_FILE
   = Some (get_hostname_file (datetime_now 1) hostname)) ∧
  (resolv.1 ≠ NETWORK_FILE → hosts.1 ≠ NETWORK_FILE →
   batch !! NETWORK_FILE = Some data) ∧
  (Py.truthy resolv.2 = true →
   resolv.1 ≠ HOSTNAME_FILE → resolv.1 ≠ hosts.1 →
   batch !! resolv.1 = Some (Py.str resolv.2)) ∧
  (Py.truthy resolv.2 = false →
   resolv.1 ≠ NETWORK_FILE → resolv.1 ≠ HOSTNAME_FILE →
   resolv.1 ≠ hosts.1 →
   batch !! resolv.1 = None) ∧
  (∀ p, p ∈ dom batch → p ∈ generated_paths hostname interfaces).
Proof.
  intros batch resolv hosts. subst batch resolv hosts.
  split_and!; [..|apply generated_files_dom];
    unfold generated_files;
    destruct (get_resolv_conf interfaces) as [rpath rdata];
    destruct (get_etc_hosts interfaces hostname) as [hpath hdata];
    cbn [fst snd].
  - by rewrite lookup_insert_eq.
  - intros Hh. rewrite lookup_insert_ne by done. by rewrite lookup_insert_eq.
  - intros Hr Hh. rewrite !lookup_insert_ne by done.
    destruct (Py.truthy rdata).
    + rewrite lookup_insert_ne by done. by rewrite lookup_insert_eq.
    + by rewrite lookup_insert_eq.
  - intros -> Hr Hh. rewrite !lookup_insert_ne by done.
    by rewrite lookup_insert_eq.
  - intros -> Hn Hr Hh. by rewrite !lookup_insert_ne by done.
Qed.

(** What [configure_network] leaves behind, whatever the outcome. *)
Lemma configure_network_effects (hostname : string)
    (interfaces : gmap string Interface) (w : World) :
  let w' := (configure_network hostname interfaces w).2 in
  (w' = w ∨
   ∃ data, render_net_file interfaces w = Py.Ok (data, dom interfaces) ∧
           files w' = generated_files hostname interfaces data ∪ files w) ∧
  (live_hostname w' = live_hostname w ∨
   sethostname_error hostname = None ∧ live_hostname w' = Some hostname) ∧
  (∃ cmds, spawned w' = spawned w ++ cmds ∧
           Forall (λ c, ∃ n, n ∈ dom interfaces ∧ c ∈ turn_commands n)
                  cmds) ∧
  (∀ p, os_path_lexists p w = true → links w' !! p = links w !! p) ∧
  (∀ p t, links w' !! p = Some t →
          links w !! p = Some t ∨
          t = "net.lo" ∧ ∃ n, n ∈ dom interfaces ∧ p = script_path n).
Proof.
  destruct (configure_network_cases hostname interfaces w)
    as [(Hrc & _ & key & Hnone & ->)
       |(_ & data & Hdata & [(msg & _ & ->)|(Hset & ->)])];
    cbn [snd].
  - split_and!; [by left|by left| |done|by left].
    exists []. by rewrite app_nil_r.
  - unfold update_files. cbn [files links live_hostname spawned].
    split_and!; [right; by exists data|by left| |done|by left].
    exists []. by rewrite app_nil_r.
  - destruct (restart_network_run (set_iter (dom interfaces)) None
                {| files := generated_files hostname interfaces data
                            ∪ files w;
                   links := links w; live_hostname := Some hostname;
                   spawned := spawned w |})
      as (r & w' & cmds & -> & Hf & Hh & Hs & Hc & _ & Hkeep & Hnew & _).
    cbn [snd files links live_hostname spawned] in *.
    split_and!.
    + right. by exists data.
    + by right.
    + exists cmds. split; [done|].
      eapply Forall_impl; [exact Hc|]. intros c (n & Hn & Hcn).
      exists n. split; [by apply set_iter_elem_of|done].
    + intros p Hp. apply Hkeep.
      unfold os_path_lexists in *. cbn [files links].
      apply bool_decide_eq_true in Hp. apply bool_decide_eq_true.
      rewrite dom_union. set_solver.
    + intros p t Hpt. destruct (Hnew p t Hpt) as [?|[-> (n & Hn & ->)]];
        [by left|].
      right. split; [done|]. exists n.
      split; [by apply set_iter_elem_of|done].
Qed.

(** X13: whatever the outcome, [configure_network] writes no file
    outside the four paths of the batch; the files are either all as
    they were or the whole batch is in place on top of them; and the
    hostname is either as it was or the new one. *)
Theorem configure_network_files (hostname : string)
    (interfaces : gmap string Interface) (w : World) :
  let w' := (configure_network hostname interfaces w).2 in
  (∀ p, p ∉ generated_paths hostname interfaces →
        files w' !! p = files w !! p) ∧
  (files w' = files w ∨
   ∃ data, render_net_file interfaces w = Py.Ok (data, dom interfaces) ∧
           files w' = generated_files hostname interfaces data ∪ files w) ∧
  (live_hostname w' = live_hostname w ∨
   sethostname_error hostname = None ∧ live_hostname w' = Some hostname).
Proof.
  intros w'.
  destruct (configure_network_effects hostname interfaces w)
    as (Hfiles & Hhost & _). fold w' in Hfiles, Hhost.
  split_and!; [|by destruct Hfiles as [->|?]; [left|right]|done].
  intros p Hp. destruct Hfiles as [->|(data & _ & ->)]; [done|].
  rewrite lookup_union_r; [done|].
  apply not_elem_of_dom. intros Hin%generated_files_dom. by apply Hp.
Qed.

(** X14: whatever the outcome, every command [configure_network] spawns
    is the restart of an interface of the mapping or, only where the ip
    command is there, the flush of one. *)
Theorem configure_network_commands (hostname : string)
    (interfaces : gmap string Interface) (w : World) :
  ∃ cmds,
    spawned (configure_network hostname interfaces w).2
      = spawned w ++ cmds ∧
    Forall (λ c, ∃ n, n ∈ dom interfaces ∧
                      (c = restart_command n ∨
                       is_system_command "ip" = true ∧
                       c = flush_command n))
           cmds.
Proof.
  destruct (configure_network_effects hostname interfaces w)
    as (_ & _ & (cmds & Hs & Hc) & _).
  exists cmds. split; [done|].
  eapply Forall_impl; [exact Hc|]. intros c (n & Hn & Hcn).
  exists n. split; [done|]. unfold turn_commands in Hcn.
  destruct (is_system_command "ip").
  - apply elem_of_app in Hcn as [Hcn%list_elem_of_singleton
                                |Hcn%list_elem_of_singleton]; auto.
  - apply list_elem_of_singleton in Hcn as ->. by left.
Qed.

(** X15: whatever the outcome, [configure_network] leaves the link of
    every path that was there as it was, be it a link whose target is
    missing, and a link it makes is the init script of an interface of
    the mapping, pointing to net.lo. *)
Theorem configure_network_links (hostname : string)
    (interfaces : gmap string Interface) (w : World) :
  let w' := (configure_network hostname interfaces w).2 in
  (∀ p, os_path_lexists p w = true → links w' !! p = links w !! p) ∧
  (∀ p t, links w' !! p = Some t →
          links w !! p = Some t ∨
          t = "net.lo" ∧ ∃ n, n ∈ dom interfaces ∧ p = script_path n).
Proof.
  intros w'.
  by destruct (configure_network_effects hostname interfaces w)
    as (_ & _ & _ & Hkeep & Hnew).
Qed.

(** X16: once the rendering has returned, the hostname file that
    [configure_network] writes reads back as the hostname, whether or
    not the later steps fail: as long as the hosts file does not take
    the path of the hostname file, the file can be opened, the hostname
    has no newline, and neither the timestamp nor the program name has
    a double quote. *)
Theorem configure_network_then_get_hostname (hostname : string)
    (interfaces : gmap string Interface) (w : World) :
  (os_path_isfile "/sbin/rc" w = true →
   map_Forall (λ _ interface, interface_renders interface) interfaces) →
  (get_etc_hosts interfaces hostname).1 ≠ HOSTNAME_FILE →
  open_error HOSTNAME_FILE = None →
  mentions "010" hostname = false →
  mentions "034" (datetime_now 1) = false →
  mentions "034" argv0 = false →
  get_hostname (configure_network hostname interfaces w).2 = Some hostname.
Proof.
  intros Hrender Hhosts Hopen Hh Hnow Hargv.
  assert (Hfile : files (configure_network hostname interfaces w).2
                    !! HOSTNAME_FILE
                  = Some (get_hostname_file (datetime_now 1) hostname)).
  { destruct (configure_network_cases hostname interfaces w)
      as [(Hrc & Hnot & _)
         |(_ & data & _ & [(msg & _ & Hrun)|(_ & Hrun)])].
    - destruct Hnot. by apply Hrender.
    - rewrite Hrun. unfold update_files. cbn [snd files].
      by apply lookup_union_Some_l, generated_files_hostname.
    - destruct (restart_network_run (set_iter (dom interfaces)) None
                  {| files := generated_files hostname interfaces data
                              ∪ files w;
                     links := links w; live_hostname := Some hostname;
                     spawned := spawned w |})
        as (r & w' & cmds & Hloop & Hf & _).
      rewrite Hrun, Hloop. cbn [snd]. rewrite Hf. cbn [files].
      by apply lookup_union_Some_l, generated_files_hostname. }
  unfold get_hostname, open_readlines. rewrite Hopen, Hfile.
  destruct (get_hostname_file_lines (datetime_now 1) hostname Hnow Hargv Hh)
    as (before & -> & Hbefore).
  rewrite first_hostname_app.
  - cbn [first_hostname]. by rewrite search_hostname_line.
  - eapply Forall_impl; [exact Hbefore|]. apply search_no_quote.
Qed.

End Batch.
Lemma sample_scripts_ready :
  ∀ n, n ∈ dom Sample.interfaces →
       script_ready (SY := Sample.system [] 0) n Sample.openrc_world.
Proof.
  intros n Hn.
  assert (n = "eth0" ∨ n = "eth1") as [-> | ->]
    by (unfold Sample.interfaces in Hn; set_solver).
  - left. vm_compute. reflexivity.
  - right. split_and!; vm_compute; reflexivity.
Qed.

Lemma sample_interfaces_render :
  map_Forall (λ _ interface, interface_renders (HO := Sample.host) interface)
    Sample.interfaces.
Proof.
  apply map_Forall_insert_2; [|apply map_Forall_singleton];
    (split; vm_compute; repeat constructor; by eexists).
Qed.

Lemma configure_network_success_iff_witness :
  let SY := Sample.system [] 0 in
  (∀ n, n ∈ dom Sample.interfaces → script_ready n Sample.openrc_world) ∧
  ((configure_network (RT := Sample.runtime) (HO := Sample.host)
      "myhost" Sample.interfaces Sample.openrc_world).1
   = Py.Ok (0%Z, EmptyString) ↔
   (os_path_isfile "/sbin/rc" Sample.openrc_world = true →
    map_Forall (λ _ interface,
                  interface_renders (HO := Sample.host) interface)
      Sample.interfaces) ∧
   sethostname_error "myhost" = None ∧
   (∀ n, n ∈ dom Sample.interfaces →
         turn_ok (HO := Sample.host) n ∧ turn_spawns (HO := Sample.host) n)).
Proof.
  intros SY.
  assert (H1 : ∀ n, n ∈ dom Sample.interfaces →
                    script_ready n Sample.openrc_world)
    by exact sample_scripts_ready.
  split; [exact H1|].
  exact (configure_network_success_iff (RT := Sample.runtime)
           (HO := Sample.host) "myhost" Sample.interfaces
           Sample.openrc_world H1).
Defined.

Lemma configure_network_success_witness :
  let SY := Sample.system [] 0 in
  (os_path_isfile "/sbin/rc" Sample.openrc_world = true →
   map_Forall (λ _ interface,
                 interface_renders (HO := Sample.host) interface)
     Sample.interfaces) ∧
  sethostname_error "myhost" = None ∧
  (∀ n, n ∈ dom Sample.interfaces → turn_ok (HO := Sample.host) n) ∧
  (∀ n, n ∈ dom Sample.interfaces →
        turn_runs (HO := Sample.host) n Sample.openrc_world) ∧
  ∃ data w',
    render_net_file (RT := Sample.runtime) (HO := Sample.host)
      Sample.interfaces Sample.openrc_world
      = Py.Ok (data, dom Sample.interfaces) ∧
    configure_network (RT := Sample.runtime) (HO := Sample.host)
      "myhost" Sample.interfaces Sample.openrc_world
      = (Py.Ok (0%Z, EmptyString), w') ∧
    files w' =
      generated_files (HO := Sample.host) "myhost" Sample.interfaces data
        ∪ files Sample.openrc_world ∧
    live_hostname w' = Some "myhost" ∧
    spawned w' =
      spawned Sample.openrc_world
        ++ concat (map (turn_commands (HO := Sample.host))
                       (set_iter (PyRuntime := Sample.runtime)
                                 (dom Sample.interfaces))) ∧
    (∀ n, n ∈ dom Sample.interfaces →
          os_path_exists (script_path n) w' = true).
Proof.
  intros SY.
  assert (H1 : os_path_isfile "/sbin/rc" Sample.openrc_world = true →
               map_Forall (λ _ interface,
                             interface_renders (HO := Sample.host) interface)
                 Sample.interfaces)
    by (intros _; exact sample_interfaces_render).
  assert (H2 : sethostname_error "myhost" = None) by reflexivity.
  assert (H3 : ∀ n, n ∈ dom Sample.interfaces →
                    turn_ok (HO := Sample.host) n).
  { intros n _. split; [intros _|]; reflexivity. }
  assert (H4 : ∀ n, n ∈ dom Sample.interfaces →
                    turn_runs (HO := Sample.host) n Sample.openrc_world).
  { intros n Hn. split; [by split|]. by apply sample_scripts_ready. }
  split_and!; [exact H1|exact H2|exact H3|exact H4|].
  exact (configure_network_success (RT := Sample.runtime)
           (HO := Sample.host) "myhost" Sample.interfaces
           Sample.openrc_world H1 H2 H3 H4).
Defined.

Lemma sethostname_failure_witness :
  let SY := Sample.unnamed_system in
  (os_path_isfile "/sbin/rc" Sample.openrc_world = true →
   map_Forall (λ _ interface,
                 interface_renders (HO := Sample.host) interface)
     Sample.interfaces) ∧
  sethostname_error "myhost" = Some "Operation not permitted" ∧
  ∃ data w',
    render_net_file (RT := Sample.runtime) (HO := Sample.host)
      Sample.interfaces Sample.openrc_world
      = Py.Ok (data, dom Sample.interfaces) ∧
    configure_network (RT := Sample.runtime) (HO := Sample.host)
      "myhost" Sample.interfaces Sample.openrc_world
      = (Py.Ok (500%Z,
                "Couldn't set hostname: " +:+ "Operation not permitted"),
         w') ∧
    files w' =
      generated_files (HO := Sample.host) "myhost" Sample.interfaces data
        ∪ files Sample.openrc_world ∧
    live_hostname w' = live_hostname Sample.openrc_world ∧
    spawned w' = spawned Sample.openrc_world ∧
    links w' = links Sample.openrc_world.
Proof.
  intros SY.
  assert (H1 : os_path_isfile "/sbin/rc" Sample.openrc_world = true →
               map_Forall (λ _ interface,
                             interface_renders (HO := Sample.host) interface)
                 Sample.interfaces).
  { intros _. apply map_Forall_insert_2; [|apply map_Forall_singleton];
      (split; vm_compute; repeat constructor; by eexists). }
  assert (H2 : sethostname_error "myhost" = Some "Operation not permitted")
    by reflexivity.
  split_and!; [exact H1|exact H2|].
  exact (sethostname_failure (RT := Sample.runtime) (HO := Sample.host)
           "myhost" Sample.interfaces Sample.openrc_world
           "Operation not permitted" H1 H2).
Defined.

Lemma configure_network_exceptions_witness :
  let SY := Sample.system [] 0 in
  let w' := (configure_network (RT := Sample.runtime) (HO := Sample.host)
               "myhost" Sample.interfaces Sample.dangling_world).2 in
  (configure_network (RT := Sample.runtime) (HO := Sample.host)
     "myhost" Sample.interfaces Sample.dangling_world).1
    = Py.Raise (Py.OSError "File exists") ∧
  (Py.OSError "File exists" = Py.UnboundLocalError "status" ∨
   (∃ key,
      Py.OSError "File exists" = Py.KeyError key ∧
      NETMASK_TO_PREFIXLEN (Host := Sample.host) !! key = None ∧
      os_path_isfile "/sbin/rc" Sample.dangling_world = true ∧
      w' = Sample.dangling_world) ∨
   (∃ msg data,
      Py.OSError "File exists" = Py.OSError msg ∧
      render_net_file (RT := Sample.runtime) (HO := Sample.host)
        Sample.interfaces Sample.dangling_world
        = Py.Ok (data, dom Sample.interfaces) ∧
      files w' =
        generated_files (HO := Sample.host) "myhost" Sample.interfaces data
          ∪ files Sample.dangling_world ∧
      live_hostname w' = Some "myhost")).
Proof.
  intros SY w'.
  assert (H1 : (configure_network (RT := Sample.runtime) (HO := Sample.host)
                  "myhost" Sample.interfaces Sample.dangling_world).1
               = Py.Raise (Py.OSError "File exists"))
    by (vm_compute; reflexivity).
  split; [exact H1|].
  exact (configure_network_exceptions (RT := Sample.runtime)
           (HO := Sample.host) "myhost" Sample.interfaces
           Sample.dangling_world _ H1).
Defined.

Lemma configure_network_codes_witness :
  let SY := Sample.system (restart_command "eth1") 256 in
  (configure_network (RT := Sample.runtime) (HO := Sample.host)
     "myhost" Sample.interfaces Sample.gentoo_world).1
    = Py.Ok (500%Z, "Couldn't restart network eth1: 256") ∧
  (500%Z = 0%Z ∧ "Couldn't restart network eth1: 256" = EmptyString ∨
   500%Z = 500%Z ∧ "Couldn't restart network eth1: 256" ≠ EmptyString).
Proof.
  intros SY.
  assert (H1 : (configure_network (RT := Sample.runtime) (HO := Sample.host)
                  "myhost" Sample.interfaces Sample.gentoo_world).1
               = Py.Ok (500%Z, "Couldn't restart network eth1: 256"))
    by (vm_compute; reflexivity).
  split; [exact H1|].
  exact (configure_network_codes (RT := Sample.runtime)
           (HO := Sample.host) "myhost" Sample.interfaces
           Sample.gentoo_world _ _ H1).
Defined.

Lemma generated_files_entries_witness :
  let SY := Sample.unnamed_system in
  let batch :=
    generated_files (HO := Sample.host) "myhost" Sample.interfaces "net" in
  batch !! "/etc/hosts" = Some "127.0.0.1 localhost" ∧
  batch !! HOSTNAME_FILE
    = Some (get_hostname_file (HO := Sample.host)
              (datetime_now (Host := Sample.host) 1) "myhost") ∧
  batch !! NETWORK_FILE = Some "net" ∧
  batch !! "/etc/resolv.conf" = Some "nameserver 10.0.0.2".
Proof.
  intros SY batch.
  destruct (generated_files_entries (HO := Sample.host)
              "myhost" Sample.interfaces "net")
    as (Hhosts & Hname & Hnet & Hresolv & _ & _).
  split_and!.
  - exact Hhosts.
  - apply Hname. discriminate.
  - apply Hnet; discriminate.
  - apply Hresolv; [reflexivity|discriminate|discriminate].
Defined.

Lemma configure_network_files_witness :
  let SY := Sample.system (restart_command "eth1") 256 in
  ("/sbin/rc" ∉ generated_paths "myhost" Sample.interfaces) ∧
  files (configure_network (RT := Sample.runtime) (HO := Sample.host)
           "myhost" Sample.interfaces Sample.openrc_world).2 !! "/sbin/rc"
    = files Sample.openrc_world !! "/sbin/rc".
Proof.
  intros SY.
  assert (H1 : "/sbin/rc" ∉ generated_paths "myhost" Sample.interfaces).
  { intros Hin. vm_compute in Hin.
    repeat (apply elem_of_cons in Hin as [Hin|Hin]; [discriminate Hin|]).
    by apply elem_of_nil in Hin. }
  split; [exact H1|].
  exact (proj1 (configure_network_files (RT := Sample.runtime)
                  (HO := Sample.host) "myhost" Sample.interfaces
                  Sample.openrc_world) "/sbin/rc" H1).
Defined.

Lemma configure_network_links_witness :
  let SY := Sample.system [] 0 in
  let w' := (configure_network (RT := Sample.runtime) (HO := Sample.host)
               "myhost" Sample.interfaces Sample.openrc_world).2 in
  os_path_lexists "/etc/init.d/net.eth0" Sample.openrc_world = true ∧
  links w' !! "/etc/init.d/net.eth0" = None ∧
  links w' !! "/etc/init.d/net.eth1" = Some "net.lo".
Proof.
  intros SY w'.
  assert (H1 : os_path_lexists "/etc/init.d/net.eth0" Sample.openrc_world
               = true) by (vm_compute; reflexivity).
  split; [exact H1|]. split.
  - exact (proj1 (configure_network_links (RT := Sample.runtime)
                    (HO := Sample.host) "myhost" Sample.interfaces
                    Sample.openrc_world) "/etc/init.d/net.eth0" H1).
  - vm_compute. reflexivity.
Defined.

Lemma configure_network_then_get_hostname_witness :
  let SY := Sample.system (restart_command "eth1") 256 in
  (os_path_isfile "/sbin/rc" Sample.openrc_world = true →
   map_Forall (λ _ interface,
                 interface_renders (HO := Sample.host) interface)
     Sample.interfaces) ∧
  (get_etc_hosts Sample.interfaces "myhost").1 ≠ HOSTNAME_FILE ∧
  open_error HOSTNAME_FILE = None ∧
  mentions "010" "myhost" = false ∧
  mentions "034" (datetime_now (Host := Sample.host) 1) = false ∧
  mentions "034" (argv0 (Host := Sample.host)) = false ∧
  get_hostname
    (configure_network (RT := Sample.runtime) (HO := Sample.host)
       "myhost" Sample.interfaces Sample.openrc_world).2
  = Some "myhost".
Proof.
  intros SY.
  assert (H1 : os_path_isfile "/sbin/rc" Sample.openrc_world = true →
               map_Forall (λ _ interface,
                             interface_renders (HO := Sample.host) interface)
                 Sample.interfaces).
  { intros _. apply map_Forall_insert_2; [|apply map_Forall_singleton];
      (split; vm_compute; repeat constructor; by eexists). }
  assert (H2 : (get_etc_hosts Sample.interfaces "myhost").1 ≠ HOSTNAME_FILE)
    by discriminate.
  assert (H3 : open_error HOSTNAME_FILE = None) by reflexivity.
  assert (H4 : mentions "010" "myhost" = false) by reflexivity.
  assert (H5 : mentions "034" (datetime_now (Host := Sample.host) 1) = false)
    by reflexivity.
  assert (H6 : mentions "034" (argv0 (Host := Sample.host)) = false)
    by reflexivity.
  split_and!; [exact H1|exact H2|exact H3|exact H4|exact H5|exact H6|].
  exact (configure_network_then_get_hostname (RT := Sample.runtime)
           (HO := Sample.host) "myhost" Sample.interfaces
           Sample.openrc_world H1 H2 H3 H4 H5 H6).
Defined.

Lemma flush_failure_outcome_witness :
  let SY := Sample.system (flush_command "eth0") 512 in
  (os_path_isfile "/sbin/rc" Sample.gentoo_world = true →
   netmasks_valid (HO := Sample.host) Sample.interfaces) ∧
  sethostname_error "myhost" = None ∧
  set_iter (PyRuntime := Sample.runtime) (dom Sample.interfaces)
    = ["eth1"] ++ "eth0" :: [] ∧
  Forall (turn_ok (HO := Sample.host)) ["eth1"] ∧
  Forall (λ n, turn_runs (HO := Sample.host) n Sample.gentoo_world)
    ["eth1"] ∧
  is_system_command (Host := Sample.host) "ip" = true ∧
  popen_error (flush_command "eth0") = None ∧
  waitpid_status (flush_command "eth0") ≠ 0%Z ∧
  ∃ w',
    configure_network (RT := Sample.runtime) (HO := Sample.host)
      "myhost" Sample.interfaces Sample.gentoo_world =
      (Py.Ok (500%Z, "Couldn't flush network " +:+ "eth0" +:+ ": 0"), w') ∧
    spawned w' =
      spawned Sample.gentoo_world
        ++ concat (map (turn_commands (HO := Sample.host)) ["eth1"])
        ++ [flush_command "eth0"].
Proof.
  intros SY.
  assert (H1 : os_path_isfile "/sbin/rc" Sample.gentoo_world = true →
               netmasks_valid (HO := Sample.host) Sample.interfaces)
    by (intros _; sample_netmasks_valid).
  assert (H2 : sethostname_error "myhost" = None) by reflexivity.
  assert (H3 : set_iter (PyRuntime := Sample.runtime)
                 (dom Sample.interfaces) = ["eth1"] ++ "eth0" :: [])
    by (vm_compute; reflexivity).
  assert (H4 : Forall (turn_ok (HO := Sample.host)) ["eth1"]).
  { constructor; [|constructor]. split; [intros _|]; reflexivity. }
  assert (H5 : Forall (λ n, turn_runs (HO := Sample.host) n
                              Sample.gentoo_world) ["eth1"]).
  { constructor; [|constructor]. split; [by split|].
    right. split_and!; vm_compute; reflexivity. }
  assert (H6 : is_system_command (Host := Sample.host) "ip" = true)
    by reflexivity.
  assert (H7 : popen_error (flush_command "eth0") = None) by reflexivity.
  assert (H8 : waitpid_status (flush_command "eth0") ≠ 0%Z)
    by (vm_compute; discriminate).
  split_and!; [exact H1|exact H2|exact H3|exact H4|exact H5|exact H6
              |exact H7|exact H8|].
  exact (flush_failure_outcome (RT := Sample.runtime) (HO := Sample.host)
           "myhost" Sample.interfaces Sample.gentoo_world
           ["eth1"] "eth0" [] H1 H2 H3 H4 H5 H6 H7 H8).
Defined.

(** ** More on the rendering *)

(** X18: [get_interface_files] returns the dict with the single key net
    for every version other than openrc, and for openrc when the table
    has the netmasks the rendering looks up; otherwise it raises
    [KeyError] for a netmask the table lacks. *)
Theorem get_interface_files_outcome `{RT : PyRuntime} `{HO : Host}
    (now : string) (interfaces : gmap string Interface) (version : string) :
  ((version = "openrc" →
    map_Forall (λ _ interface, interface_renders interface) interfaces) ∧
   ∃ text, get_interface_files now interfaces version
           = Py.Ok {[ "net" := text ]})
  ∨
  (version = "openrc" ∧
   ¬ map_Forall (λ _ interface, interface_renders interface) interfaces ∧
   ∃ key, get_interface_files now interfaces version
          = Py.Raise (Py.KeyError key) ∧
          NETMASK_TO_PREFIXLEN !! key = None).
Proof.
  unfold get_interface_files.
  destruct (String.eqb version "openrc") eqn:Hv.
  - apply String.eqb_eq in Hv as ->.
    destruct (confd_net_file_cases now interfaces)
      as [[Hall [text ->]]|[Hnot (key & -> & Hnone)]]; cbn [Py.bind fst].
    + left. split; [done|]. by exists text.
    + right. split_and!; [done|done|]. by exists key.
  - apply String.eqb_neq in Hv. left. split; [done|].
    cbn [Py.bind]. by eexists.
Qed.

(** A route that the filter drops can be taken out of the sequence, or
    put into it, without a change to what is listed. *)
Lemma filter_unlisted (interface : Interface) (route : Route)
    (rs1 rs2 : list Route) :
  route_listed interface route = false →
  filter (λ r, route_listed (with_routes (rs1 ++ route :: rs2) interface) r
               = true) (rs1 ++ route :: rs2) =
  filter (λ r, route_listed (with_routes (rs1 ++ rs2) interface) r = true)
         (rs1 ++ rs2).
Proof.
  intros Hdrop. rewrite !filter_app, filter_cons_False; [done|].
  change (route_listed (with_routes (rs1 ++ route :: rs2) interface) route)
    with (route_listed interface route).
  by rewrite Hdrop.
Qed.

(** X19: a route with network 0.0.0.0, or with netmask 0.0.0.0, or on an
    interface without gateway4, or whose gateway is the gateway4 of the
    interface, leaves no trace in either dialect: with it or without it
    in the routes sequence the lines of the interface are the same, and
    its netmask need not be in the table. *)
Theorem unlisted_route_leaves_no_trace `{HO : Host}
    (name : string) (interface : Interface) (route : Route)
    (rs1 rs2 : list Route) :
  network route = "0.0.0.0" ∨ netmask route = "0.0.0.0" ∨
  gateway4 interface = None ∨
  gateway4 interface = Some (Py.PyStr (gateway route)) →
  openrc_interface name (with_routes (rs1 ++ route :: rs2) interface) =
    openrc_interface name (with_routes (rs1 ++ rs2) interface) ∧
  legacy_interface name (with_routes (rs1 ++ route :: rs2) interface) =
    legacy_interface name (with_routes (rs1 ++ rs2) interface).
Proof.
  intros Hroute.
  assert (Hdrop : route_listed interface route = false).
  { apply not_true_iff_false. rewrite route_listed_true.
    intros (Hn & Hm & gw4 & Hgw & Hne).
    destruct Hroute as [?|[?|[?|?]]]; congruence. }
  pose proof (filter_unlisted interface route rs1 rs2 Hdrop) as Hfilter.
  split.
  - unfold openrc_interface, openrc_routes_block, openrc_routes.
    cbn [routes with_routes]. by rewrite Hfilter.
  - unfold legacy_interface, legacy_routes_block, legacy_routes.
    cbn [routes with_routes]. by rewrite Hfilter.
Qed.

Lemma unlisted_route_leaves_no_trace_witness :
  let default_route :=
    {| network := "0.0.0.0"; netmask := "0.0.0.0";
       gateway := "192.168.0.254" |} in
  (network default_route = "0.0.0.0" ∨ netmask default_route = "0.0.0.0" ∨
   gateway4 Sample.docstring_eth0 = None ∨
   gateway4 Sample.docstring_eth0
   = Some (Py.PyStr (gateway default_route))) ∧
  openrc_interface (HO := Sample.host) "eth0"
    (with_routes ([] ++ default_route :: []) Sample.docstring_eth0) =
    openrc_interface (HO := Sample.host) "eth0"
      (with_routes ([] ++ []) Sample.docstring_eth0) ∧
  legacy_interface "eth0"
    (with_routes ([] ++ default_route :: []) Sample.docstring_eth0) =
    legacy_interface "eth0" (with_routes ([] ++ []) Sample.docstring_eth0).
Proof.
  intros default_route.
  assert (H1 : network default_route = "0.0.0.0" ∨
               netmask default_route = "0.0.0.0" ∨
               gateway4 Sample.docstring_eth0 = None ∨
               gateway4 Sample.docstring_eth0
               = Some (Py.PyStr (gateway default_route)))
    by (left; reflexivity).
  split; [exact H1|].
  exact (unlisted_route_leaves_no_trace (HO := Sample.host) "eth0"
           Sample.docstring_eth0 default_route [] [] H1).
Defined.












